(** * RWA tokenization platform: the on-chain accounting core

    A shallow embedding of the two Solidity contracts of the repository,
    [contracts/RWAToken.sol] (the asset-token ledger) and the pledge manager
    ([PledgeManager], the pledge-agreement registry), together with the
    stable-asset token they settle in ([contracts/MockUSDT.sol]).

    Conventions of the embedding:
    - a [uint256] is a [Z] in the range [0 .. MAX_UINT256]; Solidity 0.8
      checked arithmetic is [checked_add], [checked_sub], [checked_mul]
      (revert with [Panic 0x11] out of range) and an [unchecked] block is
      written with [wrap];
    - an [address] is a [Z], [address(0)] is [0];
    - a Solidity [mapping] is a [gmap] read with the zero value as default;
    - a call either commits a new state or reverts: functions return
      [result state], and the transaction wrappers [exec] keep the old state
      when the call reverts;
    - [msg.sender] and [block.timestamp] are explicit arguments. *)

From Stdlib Require Import ZArith Lia.
From stdpp Require Import base option numbers gmap strings list fin_maps.

Local Open Scope Z_scope.

(** ** Execution environment *)

Abbreviation address := Z (only parsing).

Definition MAX_UINT256 : Z := 2 ^ 256 - 1.

Definition is_uint256 (z : Z) : bool := (0 <=? z) && (z <=? MAX_UINT256).

Definition is_address (a : Z) : bool := (0 <=? a) && (a <? 2 ^ 160).

(** [keccak256] role identifiers, kept symbolic. [DEFAULT_ADMIN_ROLE] is
    [0x00] in AccessControl. *)
Inductive Role : Type :=
| DEFAULT_ADMIN_ROLE
| MINTER_ROLE
| PAUSER_ROLE
| PLEDGE_MANAGER_ROLE
| OPERATOR_ROLE
| FINANCE_ROLE.

Global Instance Role_eq_dec : EqDecision Role.
Proof. solve_decision. Defined.

Definition Role_to_nat (r : Role) : nat :=
  match r with
  | DEFAULT_ADMIN_ROLE => 0
  | MINTER_ROLE => 1
  | PAUSER_ROLE => 2
  | PLEDGE_MANAGER_ROLE => 3
  | OPERATOR_ROLE => 4
  | FINANCE_ROLE => 5
  end%nat.

Definition Role_of_nat (n : nat) : option Role :=
  match n with
  | 0 => Some DEFAULT_ADMIN_ROLE
  | 1 => Some MINTER_ROLE
  | 2 => Some PAUSER_ROLE
  | 3 => Some PLEDGE_MANAGER_ROLE
  | 4 => Some OPERATOR_ROLE
  | 5 => Some FINANCE_ROLE
  | _ => None
  end%nat.

Global Instance Role_countable : Countable Role.
Proof.
  refine (inj_countable Role_to_nat Role_of_nat _).
  intros []; reflexivity.
Defined.

(** Why a call reverted: a [require] with its message, AccessControl's
    missing-role revert, or an arithmetic panic. *)
Inductive revert : Type :=
| Revert (reason : string)
| MissingRole (account : address) (role : Role)
| Panic (code : Z).

Inductive result (A : Type) : Type :=
| Ok (a : A)
| Err (e : revert).

Arguments Ok {A} a.
Arguments Err {A} e.

Global Instance result_ret : MRet result := fun A a => Ok a.

Global Instance result_bind : MBind result :=
  fun A B f m => match m with Ok a => f a | Err e => Err e end.

Global Instance result_fmap : FMap result :=
  fun A B f m => match m with Ok a => Ok (f a) | Err e => Err e end.

Definition require (cond : bool) (reason : string) : result unit :=
  if cond then Ok tt else Err (Revert reason).

Definition ARITHMETIC_PANIC : Z := 17.

Definition checked_add (a b : Z) : result Z :=
  if a + b <=? MAX_UINT256 then Ok (a + b) else Err (Panic ARITHMETIC_PANIC).

Definition checked_sub (a b : Z) : result Z :=
  if b <=? a then Ok (a - b) else Err (Panic ARITHMETIC_PANIC).

Definition checked_mul (a b : Z) : result Z :=
  if a * b <=? MAX_UINT256 then Ok (a * b) else Err (Panic ARITHMETIC_PANIC).

(** Arithmetic inside an [unchecked] block. *)
Definition wrap (z : Z) : Z := z mod (MAX_UINT256 + 1).

(** [1e18], the fixed-point scale of asset values. *)
Definition ONE_E18 : Z := 1000000000000000000.

(** [1e6], the scale of the stable asset. *)
Definition ONE_E6 : Z := 1000000.

(** ** OpenZeppelin base contracts *)

(** Modelled from the spec: the imported [AccessControl] base contract,
    whose source is an external dependency (OpenZeppelin Contracts 4) and
    not part of the repository: the role table, the check behind
    [onlyRole], and grant and revoke gated by the role's admin role, which
    is [DEFAULT_ADMIN_ROLE] for every role here. The spec: a caller lacking
    the required role fails with [Unauthorized]; role grant and revoke are
    admin-only. *)
Module AccessControl.

Definition hasRole (roles : gset (Role * address)) (role : Role) (account : address) : bool :=
  bool_decide ((role, account) ∈ roles).

Definition _checkRole (roles : gset (Role * address)) (role : Role) (account : address) : result unit :=
  if hasRole roles role account then Ok tt else Err (MissingRole account role).

Definition getRoleAdmin (role : Role) : Role := DEFAULT_ADMIN_ROLE.

Definition _grantRole (role : Role) (account : address) (roles : gset (Role * address)) : gset (Role * address) :=
  roles ∪ {[ (role, account) ]}.

Definition _revokeRole (role : Role) (account : address) (roles : gset (Role * address)) : gset (Role * address) :=
  roles ∖ {[ (role, account) ]}.

Definition grantRole (sender : address) (role : Role) (account : address) (roles : gset (Role * address)) : result (gset (Role * address)) :=
  _ ← _checkRole roles (getRoleAdmin role) sender;
  Ok (_grantRole role account roles).

Definition revokeRole (sender : address) (role : Role) (account : address) (roles : gset (Role * address)) : result (gset (Role * address)) :=
  _ ← _checkRole roles (getRoleAdmin role) sender;
  Ok (_revokeRole role account roles).

Definition renounceRole (sender : address) (role : Role) (account : address) (roles : gset (Role * address)) : result (gset (Role * address)) :=
  _ ← require (account =? sender) "AccessControl: can only renounce roles for self";
  Ok (_revokeRole role account roles).

End AccessControl.

(** Modelled from the spec: the imported [ERC20] base contract, whose
    source is an external dependency (OpenZeppelin Contracts 4) and not part
    of the repository: balances, allowances, total supply, and [_mint],
    [_burn] and [_transfer], each of which calls the [_beforeTokenTransfer]
    hook that the token overrides. The spec: standard
    transfer/approve/balance-query operations with conventional semantics
    (atomic, rejects on insufficient balance, no negative balance ever
    observable). *)
Module ERC20.

Record state : Type := mk {
  _balances : gmap address Z;
  _allowances : gmap (address * address) Z;
  _totalSupply : Z
}.

Definition empty : state := mk ∅ ∅ 0.

Definition balanceOf (s : state) (account : address) : Z :=
  default 0 (_balances s !! account).

Definition allowance (s : state) (owner spender : address) : Z :=
  default 0 (_allowances s !! (owner, spender)).

Definition totalSupply (s : state) : Z := _totalSupply s.

Definition set_balance (account : address) (v : Z) (s : state) : state :=
  mk (<[account := v]> (_balances s)) (_allowances s) (_totalSupply s).

Definition set_totalSupply (v : Z) (s : state) : state :=
  mk (_balances s) (_allowances s) v.

Definition set_allowance (owner spender : address) (v : Z) (s : state) : state :=
  mk (_balances s) (<[(owner, spender) := v]> (_allowances s)) (_totalSupply s).

Section WithHook.

(** [_beforeTokenTransfer(from, to, amount)], overridden by the token. *)
Variable hook : address -> address -> Z -> result unit.

Definition _transfer (from to : address) (amount : Z) (s : state) : result state :=
  _ ← require (negb (from =? 0)) "ERC20: transfer from the zero address";
  _ ← require (negb (to =? 0)) "ERC20: transfer to the zero address";
  _ ← hook from to amount;
  let fromBalance := balanceOf s from in
  _ ← require (amount <=? fromBalance) "ERC20: transfer amount exceeds balance";
  let s1 := set_balance from (fromBalance - amount) s in
  Ok (set_balance to (wrap (balanceOf s1 to + amount)) s1).

Definition _mint (account : address) (amount : Z) (s : state) : result state :=
  _ ← require (negb (account =? 0)) "ERC20: mint to the zero address";
  _ ← hook 0 account amount;
  supply ← checked_add (_totalSupply s) amount;
  let s1 := set_totalSupply supply s in
  Ok (set_balance account (wrap (balanceOf s1 account + amount)) s1).

Definition _burn (account : address) (amount : Z) (s : state) : result state :=
  _ ← require (negb (account =? 0)) "ERC20: burn from the zero address";
  _ ← hook account 0 amount;
  let accountBalance := balanceOf s account in
  _ ← require (amount <=? accountBalance) "ERC20: burn amount exceeds balance";
  let s1 := set_balance account (accountBalance - amount) s in
  Ok (set_totalSupply (wrap (_totalSupply s1 - amount)) s1).

Definition _approve (owner spender : address) (amount : Z) (s : state) : result state :=
  _ ← require (negb (owner =? 0)) "ERC20: approve from the zero address";
  _ ← require (negb (spender =? 0)) "ERC20: approve to the zero address";
  Ok (set_allowance owner spender amount s).

Definition _spendAllowance (owner spender : address) (amount : Z) (s : state) : result state :=
  let currentAllowance := allowance s owner spender in
  if currentAllowance =? MAX_UINT256 then Ok s
  else
    _ ← require (amount <=? currentAllowance) "ERC20: insufficient allowance";
    _approve owner spender (currentAllowance - amount) s.

(** The public functions return [true] whenever they do not revert. *)

Definition transfer (sender : address) (to : address) (amount : Z) (s : state) : result (state * bool) :=
  s1 ← _transfer sender to amount s;
  Ok (s1, true).

Definition transferFrom (sender : address) (from to : address) (amount : Z) (s : state) : result (state * bool) :=
  s1 ← _spendAllowance from sender amount s;
  s2 ← _transfer from to amount s1;
  Ok (s2, true).

Definition approve (sender : address) (spender : address) (amount : Z) (s : state) : result (state * bool) :=
  s1 ← _approve sender spender amount s;
  Ok (s1, true).

Definition increaseAllowance (sender : address) (spender : address) (addedValue : Z) (s : state) : result (state * bool) :=
  v ← checked_add (allowance s sender spender) addedValue;
  s1 ← _approve sender spender v s;
  Ok (s1, true).

Definition decreaseAllowance (sender : address) (spender : address) (subtractedValue : Z) (s : state) : result (state * bool) :=
  let currentAllowance := allowance s sender spender in
  _ ← require (subtractedValue <=? currentAllowance) "ERC20: decreased allowance below zero";
  s1 ← _approve sender spender (currentAllowance - subtractedValue) s;
  Ok (s1, true).

End WithHook.

End ERC20.

(** ** contracts/RWAToken.sol *)

Module RWAToken.

Record AssetInfo : Type := mkAsset {
  assetType : string;
  description : string;
  originalValue : Z;
  pledgedValue : Z;
  assetId : string;
  pledger : address;
  pledgeTimestamp : Z;
  isActive : bool
}.

(** The value a [mapping(uint256 => AssetInfo)] holds at an unwritten key. *)
Definition zeroAsset : AssetInfo := mkAsset "" "" 0 0 "" 0 0 false.

Inductive event : Type :=
| AssetPledged (tokenId : Z) (assetId : string) (pledger : address)
    (assetType : string) (originalValue pledgedValue tokensIssued : Z)
| AssetReleased (tokenId : Z) (assetId : string) (pledger : address)
    (tokensRedeemed : Z)
| DiscountRateUpdated (oldRate newRate : Z).

(** [_entered] is the ReentrancyGuard status; [events] is the log of the
    events the contract itself declares, oldest first. *)
Record state : Type := mk {
  erc20 : ERC20.state;
  _roles : gset (Role * address);
  _paused : bool;
  _entered : bool;
  assets : gmap Z AssetInfo;
  assetIdToTokenId : gmap string Z;
  _currentTokenId : Z;
  totalPledgedValue : Z;
  discountRate : Z;
  events : list event
}.

Definition asset (s : state) (tokenId : Z) : AssetInfo :=
  default zeroAsset (assets s !! tokenId).

Definition tokenIdOf (s : state) (id : string) : Z :=
  default 0 (assetIdToTokenId s !! id).

Definition balanceOf (s : state) (account : address) : Z :=
  ERC20.balanceOf (erc20 s) account.

Definition totalSupply (s : state) : Z := ERC20.totalSupply (erc20 s).

Definition hasRole (s : state) (role : Role) (account : address) : bool :=
  AccessControl.hasRole (_roles s) role account.

Definition set_erc20 (e : ERC20.state) (s : state) : state :=
  mk e (_roles s) (_paused s) (_entered s) (assets s) (assetIdToTokenId s)
     (_currentTokenId s) (totalPledgedValue s) (discountRate s) (events s).

Definition set_roles (r : gset (Role * address)) (s : state) : state :=
  mk (erc20 s) r (_paused s) (_entered s) (assets s) (assetIdToTokenId s)
     (_currentTokenId s) (totalPledgedValue s) (discountRate s) (events s).

Definition set_paused (b : bool) (s : state) : state :=
  mk (erc20 s) (_roles s) b (_entered s) (assets s) (assetIdToTokenId s)
     (_currentTokenId s) (totalPledgedValue s) (discountRate s) (events s).

Definition set_entered (b : bool) (s : state) : state :=
  mk (erc20 s) (_roles s) (_paused s) b (assets s) (assetIdToTokenId s)
     (_currentTokenId s) (totalPledgedValue s) (discountRate s) (events s).

Definition set_asset (tokenId : Z) (a : AssetInfo) (s : state) : state :=
  mk (erc20 s) (_roles s) (_paused s) (_entered s) (<[tokenId := a]> (assets s))
     (assetIdToTokenId s) (_currentTokenId s) (totalPledgedValue s)
     (discountRate s) (events s).

Definition set_tokenIdOf (id : string) (tokenId : Z) (s : state) : state :=
  mk (erc20 s) (_roles s) (_paused s) (_entered s) (assets s)
     (<[id := tokenId]> (assetIdToTokenId s)) (_currentTokenId s)
     (totalPledgedValue s) (discountRate s) (events s).

Definition set_currentTokenId (n : Z) (s : state) : state :=
  mk (erc20 s) (_roles s) (_paused s) (_entered s) (assets s) (assetIdToTokenId s)
     n (totalPledgedValue s) (discountRate s) (events s).

Definition set_totalPledgedValue (v : Z) (s : state) : state :=
  mk (erc20 s) (_roles s) (_paused s) (_entered s) (assets s) (assetIdToTokenId s)
     (_currentTokenId s) v (discountRate s) (events s).

Definition set_discountRate (v : Z) (s : state) : state :=
  mk (erc20 s) (_roles s) (_paused s) (_entered s) (assets s) (assetIdToTokenId s)
     (_currentTokenId s) (totalPledgedValue s) v (events s).

Definition emit (e : event) (s : state) : state :=
  mk (erc20 s) (_roles s) (_paused s) (_entered s) (assets s) (assetIdToTokenId s)
     (_currentTokenId s) (totalPledgedValue s) (discountRate s) (events s ++ [e]).

Definition deactivate (a : AssetInfo) : AssetInfo :=
  mkAsset (assetType a) (description a) (originalValue a) (pledgedValue a)
          (assetId a) (pledger a) (pledgeTimestamp a) false.

(** Modifiers. [whenNotPaused], [whenPaused] (Pausable) and [nonReentrant]
    (ReentrancyGuard) come from the imported base contracts; a modifier list
    runs left to right. *)

Definition onlyRole (role : Role) (sender : address) (s : state) : result unit :=
  AccessControl._checkRole (_roles s) role sender.

Definition whenNotPaused (s : state) : result unit :=
  require (negb (_paused s)) "Pausable: paused".

Definition whenPaused (s : state) : result unit :=
  require (_paused s) "Pausable: not paused".

Definition nonReentrant (body : state -> result state) (s : state) : result state :=
  _ ← require (negb (_entered s)) "ReentrancyGuard: reentrant call";
  s' ← body (set_entered true s);
  Ok (set_entered false s').

(** [_beforeTokenTransfer ... internal override whenNotPaused]. *)
Definition _beforeTokenTransfer (s : state) (from to : address) (amount : Z) : result unit :=
  whenNotPaused s.

Definition _mint (account : address) (amount : Z) (s : state) : result state :=
  e ← ERC20._mint (_beforeTokenTransfer s) account amount (erc20 s);
  Ok (set_erc20 e s).

Definition _burn (account : address) (amount : Z) (s : state) : result state :=
  e ← ERC20._burn (_beforeTokenTransfer s) account amount (erc20 s);
  Ok (set_erc20 e s).

(** constructor(name, symbol, admin) *)
Definition constructor (admin : address) : state :=
  let r0 : gset (Role * address) := ∅ in
  let r1 := AccessControl._grantRole DEFAULT_ADMIN_ROLE admin r0 in
  let r2 := AccessControl._grantRole MINTER_ROLE admin r1 in
  let r3 := AccessControl._grantRole PAUSER_ROLE admin r2 in
  let r4 := AccessControl._grantRole PLEDGE_MANAGER_ROLE admin r3 in
  mk ERC20.empty r4 false false ∅ ∅ 1 0 70 [].

Definition pledgeAsset (sender : address) (now : Z)
    (assetId assetType description : string) (originalValue : Z)
    (pledger : address) (s : state) : result state :=
  _ ← onlyRole PLEDGE_MANAGER_ROLE sender s;
  _ ← whenNotPaused s;
  nonReentrant (fun s =>
    _ ← require (0 <? Z.of_nat (String.length assetId)) "Asset ID cannot be empty";
    _ ← require (tokenIdOf s assetId =? 0) "Asset already pledged";
    _ ← require (negb (pledger =? 0)) "Invalid pledger address";
    _ ← require (0 <? originalValue) "Asset value must be greater than 0";
    let tokenId := _currentTokenId s in
    next ← checked_add tokenId 1;
    let s := set_currentTokenId next s in
    product ← checked_mul originalValue (discountRate s);
    let pledgedValue := product / 100 in
    let s := set_asset tokenId
               (mkAsset assetType description originalValue pledgedValue
                        assetId pledger now true) s in
    let s := set_tokenIdOf assetId tokenId s in
    total ← checked_add (totalPledgedValue s) pledgedValue;
    let s := set_totalPledgedValue total s in
    let tokensToIssue := pledgedValue / ONE_E18 in
    s ← _mint pledger tokensToIssue s;
    Ok (emit (AssetPledged tokenId assetId pledger assetType originalValue
                           pledgedValue tokensToIssue) s)) s.

Definition releaseAsset (sender : address) (assetId : string)
    (tokenHolder : address) (tokensToRedeem : Z) (s : state) : result state :=
  _ ← onlyRole PLEDGE_MANAGER_ROLE sender s;
  _ ← whenNotPaused s;
  nonReentrant (fun s =>
    let tokenId := tokenIdOf s assetId in
    _ ← require (negb (tokenId =? 0)) "Asset not found";
    _ ← require (isActive (asset s tokenId)) "Asset is not active";
    _ ← require (tokensToRedeem <=? balanceOf s tokenHolder) "Insufficient token balance";
    s ← _burn tokenHolder tokensToRedeem s;
    let expectedTokens := pledgedValue (asset s tokenId) / ONE_E18 in
    s ← (if expectedTokens <=? tokensToRedeem then
           let s1 := set_asset tokenId (deactivate (asset s tokenId)) s in
           total ← checked_sub (totalPledgedValue s1) (pledgedValue (asset s1 tokenId));
           Ok (set_totalPledgedValue total s1)
         else Ok s);
    Ok (emit (AssetReleased tokenId assetId (pledger (asset s tokenId)) tokensToRedeem) s)) s.

Definition setDiscountRate (sender : address) (newRate : Z) (s : state) : result state :=
  _ ← onlyRole DEFAULT_ADMIN_ROLE sender s;
  _ ← require ((0 <? newRate) && (newRate <=? 100)) "Invalid discount rate";
  let oldRate := discountRate s in
  let s := set_discountRate newRate s in
  Ok (emit (DiscountRateUpdated oldRate newRate) s).

Definition getAssetByAssetId (assetId : string) (s : state) : result AssetInfo :=
  let tokenId := tokenIdOf s assetId in
  _ ← require (negb (tokenId =? 0)) "Asset not found";
  Ok (asset s tokenId).

Definition getAssetByTokenId (tokenId : Z) (s : state) : result AssetInfo :=
  _ ← require ((0 <? tokenId) && (tokenId <? _currentTokenId s)) "Invalid token ID";
  Ok (asset s tokenId).

Definition pause (sender : address) (s : state) : result state :=
  _ ← onlyRole PAUSER_ROLE sender s;
  _ ← whenNotPaused s;
  Ok (set_paused true s).

Definition unpause (sender : address) (s : state) : result state :=
  _ ← onlyRole PAUSER_ROLE sender s;
  _ ← whenPaused s;
  Ok (set_paused false s).

(** Inherited public entrypoints. *)

Definition transfer (sender to : address) (amount : Z) (s : state) : result (state * bool) :=
  '(e, ok) ← ERC20.transfer (_beforeTokenTransfer s) sender to amount (erc20 s);
  Ok (set_erc20 e s, ok).

Definition transferFrom (sender from to : address) (amount : Z) (s : state) : result (state * bool) :=
  '(e, ok) ← ERC20.transferFrom (_beforeTokenTransfer s) sender from to amount (erc20 s);
  Ok (set_erc20 e s, ok).

Definition approve (sender spender : address) (amount : Z) (s : state) : result (state * bool) :=
  '(e, ok) ← ERC20.approve sender spender amount (erc20 s);
  Ok (set_erc20 e s, ok).

Definition increaseAllowance (sender spender : address) (addedValue : Z) (s : state) : result (state * bool) :=
  '(e, ok) ← ERC20.increaseAllowance sender spender addedValue (erc20 s);
  Ok (set_erc20 e s, ok).

Definition decreaseAllowance (sender spender : address) (subtractedValue : Z) (s : state) : result (state * bool) :=
  '(e, ok) ← ERC20.decreaseAllowance sender spender subtractedValue (erc20 s);
  Ok (set_erc20 e s, ok).

Definition grantRole (sender : address) (role : Role) (account : address) (s : state) : result state :=
  r ← AccessControl.grantRole sender role account (_roles s);
  Ok (set_roles r s).

Definition revokeRole (sender : address) (role : Role) (account : address) (s : state) : result state :=
  r ← AccessControl.revokeRole sender role account (_roles s);
  Ok (set_roles r s).

Definition renounceRole (sender : address) (role : Role) (account : address) (s : state) : result state :=
  r ← AccessControl.renounceRole sender role account (_roles s);
  Ok (set_roles r s).

(** The state-changing external interface of the contract. *)
Inductive call : Type :=
| PledgeAsset (assetId assetType description : string) (originalValue : Z) (pledger : address)
| ReleaseAsset (assetId : string) (tokenHolder : address) (tokensToRedeem : Z)
| SetDiscountRate (newRate : Z)
| Pause
| Unpause
| Transfer (to : address) (amount : Z)
| TransferFrom (from to : address) (amount : Z)
| Approve (spender : address) (amount : Z)
| IncreaseAllowance (spender : address) (addedValue : Z)
| DecreaseAllowance (spender : address) (subtractedValue : Z)
| GrantRole (role : Role) (account : address)
| RevokeRole (role : Role) (account : address)
| RenounceRole (role : Role) (account : address).

Definition dispatch (sender : address) (now : Z) (c : call) (s : state) : result state :=
  match c with
  | PledgeAsset id ty descr v p => pledgeAsset sender now id ty descr v p s
  | ReleaseAsset id h n => releaseAsset sender id h n s
  | SetDiscountRate r => setDiscountRate sender r s
  | Pause => pause sender s
  | Unpause => unpause sender s
  | Transfer to n => fst <$> transfer sender to n s
  | TransferFrom from to n => fst <$> transferFrom sender from to n s
  | Approve sp n => fst <$> approve sender sp n s
  | IncreaseAllowance sp n => fst <$> increaseAllowance sender sp n s
  | DecreaseAllowance sp n => fst <$> decreaseAllowance sender sp n s
  | GrantRole r a => grantRole sender r a s
  | RevokeRole r a => revokeRole sender r a s
  | RenounceRole r a => renounceRole sender r a s
  end.

(** What the ABI decoder accepts: every [uint256] in range, every account
    a 160-bit value. *)
Definition well_formed (c : call) : bool :=
  match c with
  | PledgeAsset _ _ _ v p => is_uint256 v && is_address p
  | ReleaseAsset _ h n => is_address h && is_uint256 n
  | SetDiscountRate r => is_uint256 r
  | Pause | Unpause => true
  | Transfer to n => is_address to && is_uint256 n
  | TransferFrom from to n => is_address from && is_address to && is_uint256 n
  | Approve sp n | IncreaseAllowance sp n | DecreaseAllowance sp n =>
      is_address sp && is_uint256 n
  | GrantRole _ a | RevokeRole _ a | RenounceRole _ a => is_address a
  end.

(** One transaction: commit on success, keep the old state on revert. *)
Definition exec (sender : address) (now : Z) (c : call) (s : state) : state * option revert :=
  match dispatch sender now c s with
  | Ok s' => (s', None)
  | Err e => (s, Some e)
  end.

End RWAToken.

(** ** contracts/MockUSDT.sol *)

Module MockUSDT.

Record state : Type := mk {
  erc20 : ERC20.state;
  _owner : address
}.

Definition decimals : Z := 6.

Definition balanceOf (s : state) (account : address) : Z :=
  ERC20.balanceOf (erc20 s) account.

Definition set_erc20 (e : ERC20.state) (s : state) : state := mk e (_owner s).

(** The token does not override [_beforeTokenTransfer]. *)
Definition _beforeTokenTransfer (from to : address) (amount : Z) : result unit := Ok tt.

Definition _mint (account : address) (amount : Z) (s : state) : result state :=
  e ← ERC20._mint _beforeTokenTransfer account amount (erc20 s);
  Ok (set_erc20 e s).

Definition onlyOwner (sender : address) (s : state) : result unit :=
  require (_owner s =? sender) "Ownable: caller is not the owner".

(** constructor(): the deployer owns the token and receives one million
    units. *)
Definition constructor (deployer : address) : result state :=
  _mint deployer (1000000 * 10 ^ decimals) (mk ERC20.empty deployer).

Definition mint (sender to : address) (amount : Z) (s : state) : result state :=
  _ ← onlyOwner sender s;
  _mint to amount s.

Definition faucet (sender : address) (amount : Z) (s : state) : result state :=
  _ ← require (amount <=? 10000 * 10 ^ decimals) "Cannot mint more than 10,000 USDT at once";
  _mint sender amount s.

Definition getTestUSDT (sender : address) (s : state) : result state :=
  _mint sender (1000 * 10 ^ decimals) s.

Definition transfer (sender to : address) (amount : Z) (s : state) : result (state * bool) :=
  '(e, ok) ← ERC20.transfer _beforeTokenTransfer sender to amount (erc20 s);
  Ok (set_erc20 e s, ok).

Definition transferFrom (sender from to : address) (amount : Z) (s : state) : result (state * bool) :=
  '(e, ok) ← ERC20.transferFrom _beforeTokenTransfer sender from to amount (erc20 s);
  Ok (set_erc20 e s, ok).

Definition approve (sender spender : address) (amount : Z) (s : state) : result (state * bool) :=
  '(e, ok) ← ERC20.approve sender spender amount (erc20 s);
  Ok (set_erc20 e s, ok).

Inductive call : Type :=
| Mint (to : address) (amount : Z)
| Faucet (amount : Z)
| GetTestUSDT
| Transfer (to : address) (amount : Z)
| TransferFrom (from to : address) (amount : Z)
| Approve (spender : address) (amount : Z).

Definition dispatch (sender : address) (c : call) (s : state) : result state :=
  match c with
  | Mint to n => mint sender to n s
  | Faucet n => faucet sender n s
  | GetTestUSDT => getTestUSDT sender s
  | Transfer to n => fst <$> transfer sender to n s
  | TransferFrom from to n => fst <$> transferFrom sender from to n s
  | Approve sp n => fst <$> approve sender sp n s
  end.

End MockUSDT.

(** ** PledgeManager *)

Module PledgeManager.

Inductive PledgeStatus : Type :=
| PENDING
| ACTIVE
| REPAID
| DEFAULTED
| RELEASED.

Global Instance PledgeStatus_eq_dec : EqDecision PledgeStatus.
Proof. solve_decision. Defined.

Record PledgeAgreement : Type := mkPledge {
  agreementId : string;
  client : address;
  assetId : string;
  assetType : string;
  description : string;
  originalValue : Z;
  discountedValue : Z;
  tokensIssued : Z;
  clientPayment : Z;
  timestamp : Z;
  status : PledgeStatus;
  documentHash : string
}.

(** The struct's second [timestamp] field is [purchaseTimestamp] here. *)
Record InvestorPurchase : Type := mkPurchase {
  investor : address;
  tokenAmount : Z;
  usdtPaid : Z;
  purchaseTimestamp : Z;
  purchaseId : string
}.

Definition zeroPledge : PledgeAgreement :=
  mkPledge "" 0 "" "" "" 0 0 0 0 0 PENDING "".

Inductive event : Type :=
| PledgeCreated (agreementId : string) (client : address) (assetId : string)
    (originalValue discountedValue clientPayment : Z)
| TokensPurchased (agreementId : string) (investor : address)
    (tokenAmount usdtPaid : Z) (purchaseId : string)
| PledgeRepaid (agreementId : string) (client : address) (repaymentAmount : Z)
| ClientPaid (agreementId : string) (client : address) (amount : Z)
| SpreadUpdated (oldSpread newSpread : Z).

Record state : Type := mk {
  _roles : gset (Role * address);
  _paused : bool;
  _entered : bool;
  pledgeAgreements : gmap string PledgeAgreement;
  assetInvestors : gmap string (list InvestorPurchase);
  clientPledges : gmap address (list string);
  investorPurchases : gmap address (list string);
  totalClientPayments : Z;
  totalInvestorPayments : Z;
  platformRevenue : Z;
  spreadPercentage : Z;
  events : list event
}.

(** The deployed system: the manager at address [this], holding references
    to the asset token and to the stable-asset token. *)
Record world : Type := mkWorld {
  this : address;
  rwaToken : RWAToken.state;
  usdtToken : MockUSDT.state;
  manager : state
}.

Definition set_rwaToken (t : RWAToken.state) (w : world) : world :=
  mkWorld (this w) t (usdtToken w) (manager w).

Definition set_usdtToken (u : MockUSDT.state) (w : world) : world :=
  mkWorld (this w) (rwaToken w) u (manager w).

Definition set_manager (m : state) (w : world) : world :=
  mkWorld (this w) (rwaToken w) (usdtToken w) m.

Definition set_roles (r : gset (Role * address)) (s : state) : state :=
  mk r (_paused s) (_entered s) (pledgeAgreements s) (assetInvestors s)
     (clientPledges s) (investorPurchases s) (totalClientPayments s)
     (totalInvestorPayments s) (platformRevenue s) (spreadPercentage s) (events s).

Definition set_paused (b : bool) (s : state) : state :=
  mk (_roles s) b (_entered s) (pledgeAgreements s) (assetInvestors s)
     (clientPledges s) (investorPurchases s) (totalClientPayments s)
     (totalInvestorPayments s) (platformRevenue s) (spreadPercentage s) (events s).

Definition set_entered (b : bool) (s : state) : state :=
  mk (_roles s) (_paused s) b (pledgeAgreements s) (assetInvestors s)
     (clientPledges s) (investorPurchases s) (totalClientPayments s)
     (totalInvestorPayments s) (platformRevenue s) (spreadPercentage s) (events s).

Definition set_pledge (id : string) (p : PledgeAgreement) (s : state) : state :=
  mk (_roles s) (_paused s) (_entered s) (<[id := p]> (pledgeAgreements s))
     (assetInvestors s) (clientPledges s) (investorPurchases s)
     (totalClientPayments s) (totalInvestorPayments s) (platformRevenue s)
     (spreadPercentage s) (events s).

Definition push_assetInvestor (id : string) (p : InvestorPurchase) (s : state) : state :=
  mk (_roles s) (_paused s) (_entered s) (pledgeAgreements s)
     (<[id := default [] (assetInvestors s !! id) ++ [p]]> (assetInvestors s))
     (clientPledges s) (investorPurchases s) (totalClientPayments s)
     (totalInvestorPayments s) (platformRevenue s) (spreadPercentage s) (events s).

Definition push_clientPledge (c : address) (id : string) (s : state) : state :=
  mk (_roles s) (_paused s) (_entered s) (pledgeAgreements s) (assetInvestors s)
     (<[c := default [] (clientPledges s !! c) ++ [id]]> (clientPledges s))
     (investorPurchases s) (totalClientPayments s) (totalInvestorPayments s)
     (platformRevenue s) (spreadPercentage s) (events s).

Definition push_investorPurchase (i : address) (id : string) (s : state) : state :=
  mk (_roles s) (_paused s) (_entered s) (pledgeAgreements s) (assetInvestors s)
     (clientPledges s)
     (<[i := default [] (investorPurchases s !! i) ++ [id]]> (investorPurchases s))
     (totalClientPayments s) (totalInvestorPayments s) (platformRevenue s)
     (spreadPercentage s) (events s).

Definition set_totalClientPayments (v : Z) (s : state) : state :=
  mk (_roles s) (_paused s) (_entered s) (pledgeAgreements s) (assetInvestors s)
     (clientPledges s) (investorPurchases s) v (totalInvestorPayments s)
     (platformRevenue s) (spreadPercentage s) (events s).

Definition set_totalInvestorPayments (v : Z) (s : state) : state :=
  mk (_roles s) (_paused s) (_entered s) (pledgeAgreements s) (assetInvestors s)
     (clientPledges s) (investorPurchases s) (totalClientPayments s) v
     (platformRevenue s) (spreadPercentage s) (events s).

Definition set_platformRevenue (v : Z) (s : state) : state :=
  mk (_roles s) (_paused s) (_entered s) (pledgeAgreements s) (assetInvestors s)
     (clientPledges s) (investorPurchases s) (totalClientPayments s)
     (totalInvestorPayments s) v (spreadPercentage s) (events s).

Definition set_spreadPercentage (v : Z) (s : state) : state :=
  mk (_roles s) (_paused s) (_entered s) (pledgeAgreements s) (assetInvestors s)
     (clientPledges s) (investorPurchases s) (totalClientPayments s)
     (totalInvestorPayments s) (platformRevenue s) v (events s).

Definition emit (e : event) (s : state) : state :=
  mk (_roles s) (_paused s) (_entered s) (pledgeAgreements s) (assetInvestors s)
     (clientPledges s) (investorPurchases s) (totalClientPayments s)
     (totalInvestorPayments s) (platformRevenue s) (spreadPercentage s)
     (events s ++ [e]).

Definition set_status (st : PledgeStatus) (p : PledgeAgreement) : PledgeAgreement :=
  mkPledge (agreementId p) (client p) (assetId p) (assetType p) (description p)
           (originalValue p) (discountedValue p) (tokensIssued p)
           (clientPayment p) (timestamp p) st (documentHash p).

(** Lifting a change of the manager's own storage to the world. *)
Definition update (f : state -> state) (w : world) : world :=
  set_manager (f (manager w)) w.

(** Read-only accessors. *)

Definition getPledgeAgreement (w : world) (id : string) : PledgeAgreement :=
  default zeroPledge (pledgeAgreements (manager w) !! id).

Definition getAssetInvestors (w : world) (id : string) : list InvestorPurchase :=
  default [] (assetInvestors (manager w) !! id).

Definition getClientPledges (w : world) (c : address) : list string :=
  default [] (clientPledges (manager w) !! c).

Definition getInvestorPurchases (w : world) (i : address) : list string :=
  default [] (investorPurchases (manager w) !! i).

Definition getFinancialSummary (w : world) : Z * Z * Z * Z :=
  (totalClientPayments (manager w), totalInvestorPayments (manager w),
   platformRevenue (manager w), spreadPercentage (manager w)).

Definition hasRole (w : world) (role : Role) (account : address) : bool :=
  AccessControl.hasRole (_roles (manager w)) role account.

(** Modifiers. *)

Definition onlyRole (role : Role) (sender : address) (w : world) : result unit :=
  AccessControl._checkRole (_roles (manager w)) role sender.

Definition whenNotPaused (w : world) : result unit :=
  require (negb (_paused (manager w))) "Pausable: paused".

Definition whenPaused (w : world) : result unit :=
  require (_paused (manager w)) "Pausable: not paused".

Definition nonReentrant (body : world -> result world) (w : world) : result world :=
  _ ← require (negb (_entered (manager w))) "ReentrancyGuard: reentrant call";
  w' ← body (update (set_entered true) w);
  Ok (update (set_entered false) w').

(** constructor(_rwaToken, _usdtToken, admin), deployed by [deployer] at
    address [self]; the two token references are the given token states. *)
Definition constructor (deployer self : address) (token : RWAToken.state)
    (usdt : MockUSDT.state) (admin : address) : result world :=
  _ ← require (negb (admin =? 0)) "Invalid admin address";
  let r0 : gset (Role * address) := ∅ in
  let r1 := AccessControl._grantRole DEFAULT_ADMIN_ROLE admin r0 in
  let r2 := AccessControl._grantRole OPERATOR_ROLE admin r1 in
  let r3 := AccessControl._grantRole FINANCE_ROLE admin r2 in
  let r := if negb (admin =? deployer) then
             AccessControl._grantRole FINANCE_ROLE deployer
               (AccessControl._grantRole OPERATOR_ROLE deployer
                  (AccessControl._grantRole DEFAULT_ADMIN_ROLE deployer r3))
           else r3 in
  Ok (mkWorld self token usdt (mk r false false ∅ ∅ ∅ ∅ 0 0 0 15 [])).

Definition createPledge (sender : address) (now : Z) (agreementId : string)
    (client : address) (assetId assetType description : string)
    (originalValue : Z) (documentHash : string) (w : world) : result world :=
  _ ← onlyRole OPERATOR_ROLE sender w;
  _ ← whenNotPaused w;
  nonReentrant (fun w =>
    _ ← require (0 <? Z.of_nat (String.length agreementId)) "Agreement ID cannot be empty";
    _ ← require (negb (client =? 0)) "Invalid client address";
    _ ← require (0 <? originalValue) "Asset value must be greater than 0";
    _ ← require (timestamp (getPledgeAgreement w agreementId) =? 0) "Agreement already exists";
    let discountRate := RWAToken.discountRate (rwaToken w) in
    product ← checked_mul originalValue discountRate;
    let discountedValue := product / 100 in
    keep ← checked_sub 100 (spreadPercentage (manager w));
    product' ← checked_mul discountedValue keep;
    let clientPayment := product' / 100 in
    let w := update (set_pledge agreementId
               (mkPledge agreementId client assetId assetType description
                         originalValue discountedValue (discountedValue / ONE_E18)
                         clientPayment now PENDING documentHash)) w in
    let w := update (push_clientPledge client agreementId) w in
    token ← RWAToken.pledgeAsset (this w) now assetId assetType description
                                 originalValue (this w) (rwaToken w);
    let w := set_rwaToken token w in
    let w := update (set_pledge agreementId
               (set_status ACTIVE (getPledgeAgreement w agreementId))) w in
    Ok (update (emit (PledgeCreated agreementId client assetId originalValue
                                    discountedValue clientPayment)) w)) w.

Definition payClient (sender : address) (agreementId : string) (w : world) : result world :=
  _ ← onlyRole FINANCE_ROLE sender w;
  nonReentrant (fun w =>
    let pledge := getPledgeAgreement w agreementId in
    _ ← require (negb (timestamp pledge =? 0)) "Pledge not found";
    _ ← require (bool_decide (status pledge = ACTIVE)) "Pledge not active";
    let paymentAmount := clientPayment pledge in
    _ ← require (paymentAmount <=? MockUSDT.balanceOf (usdtToken w) (this w))
                "Insufficient USDT balance";
    '(usdt, ok) ← MockUSDT.transfer (this w) (client pledge) paymentAmount (usdtToken w);
    _ ← require ok "USDT transfer failed";
    let w := set_usdtToken usdt w in
    total ← checked_add (totalClientPayments (manager w)) paymentAmount;
    let w := update (set_totalClientPayments total) w in
    Ok (update (emit (ClientPaid agreementId (client pledge) paymentAmount)) w)) w.

Definition purchaseTokens (sender : address) (now : Z) (agreementId : string)
    (tokenAmount : Z) (purchaseId : string) (w : world) : result world :=
  _ ← whenNotPaused w;
  nonReentrant (fun w =>
    let pledge := getPledgeAgreement w agreementId in
    _ ← require (negb (timestamp pledge =? 0)) "Pledge not found";
    _ ← require (bool_decide (status pledge = ACTIVE)) "Pledge not active";
    _ ← require (0 <? tokenAmount) "Token amount must be greater than 0";
    let availableTokens := RWAToken.balanceOf (rwaToken w) (this w) in
    _ ← require (tokenAmount <=? availableTokens) "Insufficient tokens available";
    usdtRequired ← checked_mul tokenAmount ONE_E6;
    '(usdt, ok) ← MockUSDT.transferFrom (this w) sender (this w) usdtRequired (usdtToken w);
    _ ← require ok "USDT transfer failed";
    let w := set_usdtToken usdt w in
    '(token, ok') ← RWAToken.transfer (this w) sender tokenAmount (rwaToken w);
    _ ← require ok' "Token transfer failed";
    let w := set_rwaToken token w in
    let purchase := mkPurchase sender tokenAmount usdtRequired now purchaseId in
    let w := update (push_assetInvestor agreementId purchase) w in
    let w := update (push_investorPurchase sender agreementId) w in
    total ← checked_add (totalInvestorPayments (manager w)) usdtRequired;
    let w := update (set_totalInvestorPayments total) w in
    product ← checked_mul usdtRequired (spreadPercentage (manager w));
    revenue ← checked_add (platformRevenue (manager w)) (product / 100);
    let w := update (set_platformRevenue revenue) w in
    Ok (update (emit (TokensPurchased agreementId sender tokenAmount
                                      usdtRequired purchaseId)) w)) w.

Definition repayPledge (sender : address) (agreementId : string)
    (repaymentAmount : Z) (w : world) : result world :=
  _ ← onlyRole FINANCE_ROLE sender w;
  nonReentrant (fun w =>
    let pledge := getPledgeAgreement w agreementId in
    _ ← require (negb (timestamp pledge =? 0)) "Pledge not found";
    _ ← require (bool_decide (status pledge = ACTIVE)) "Pledge not active";
    '(usdt, ok) ← MockUSDT.transferFrom (this w) (client pledge) (this w)
                                        repaymentAmount (usdtToken w);
    _ ← require ok "USDT transfer failed";
    let w := set_usdtToken usdt w in
    let w := update (set_pledge agreementId (set_status REPAID pledge)) w in
    let tokensToRedeem := tokensIssued pledge in
    token ← RWAToken.releaseAsset (this w) (assetId pledge) (this w)
                                  tokensToRedeem (rwaToken w);
    let w := set_rwaToken token w in
    Ok (update (emit (PledgeRepaid agreementId (client pledge) repaymentAmount)) w)) w.

Definition setSpreadPercentage (sender : address) (newSpread : Z) (w : world) : result world :=
  _ ← onlyRole DEFAULT_ADMIN_ROLE sender w;
  _ ← require (newSpread <=? 50) "Spread cannot exceed 50%";
  let oldSpread := spreadPercentage (manager w) in
  let w := update (set_spreadPercentage newSpread) w in
  Ok (update (emit (SpreadUpdated oldSpread newSpread)) w).

Definition withdrawRevenue (sender to : address) (amount : Z) (w : world) : result world :=
  _ ← onlyRole FINANCE_ROLE sender w;
  _ ← require (negb (to =? 0)) "Invalid address";
  _ ← require (amount <=? platformRevenue (manager w)) "Amount exceeds available revenue";
  '(usdt, ok) ← MockUSDT.transfer (this w) to amount (usdtToken w);
  _ ← require ok "USDT transfer failed";
  let w := set_usdtToken usdt w in
  revenue ← checked_sub (platformRevenue (manager w)) amount;
  Ok (update (set_platformRevenue revenue) w).

Definition pause (sender : address) (w : world) : result world :=
  _ ← onlyRole DEFAULT_ADMIN_ROLE sender w;
  _ ← whenNotPaused w;
  Ok (update (set_paused true) w).

Definition unpause (sender : address) (w : world) : result world :=
  _ ← onlyRole DEFAULT_ADMIN_ROLE sender w;
  _ ← whenPaused w;
  Ok (update (set_paused false) w).

(** Inherited from AccessControl. *)

Definition grantRole (sender : address) (role : Role) (account : address) (w : world) : result world :=
  r ← AccessControl.grantRole sender role account (_roles (manager w));
  Ok (update (set_roles r) w).

Definition revokeRole (sender : address) (role : Role) (account : address) (w : world) : result world :=
  r ← AccessControl.revokeRole sender role account (_roles (manager w));
  Ok (update (set_roles r) w).

Definition renounceRole (sender : address) (role : Role) (account : address) (w : world) : result world :=
  r ← AccessControl.renounceRole sender role account (_roles (manager w));
  Ok (update (set_roles r) w).

Definition grantOperatorRole (sender account : address) (w : world) : result world :=
  _ ← onlyRole DEFAULT_ADMIN_ROLE sender w;
  grantRole sender OPERATOR_ROLE account w.

Definition grantFinanceRole (sender account : address) (w : world) : result world :=
  _ ← onlyRole DEFAULT_ADMIN_ROLE sender w;
  grantRole sender FINANCE_ROLE account w.

Definition revokeOperatorRole (sender account : address) (w : world) : result world :=
  _ ← onlyRole DEFAULT_ADMIN_ROLE sender w;
  revokeRole sender OPERATOR_ROLE account w.

Definition revokeFinanceRole (sender account : address) (w : world) : result world :=
  _ ← onlyRole DEFAULT_ADMIN_ROLE sender w;
  revokeRole sender FINANCE_ROLE account w.

(** The state-changing external interface of the contract. *)
Inductive call : Type :=
| CreatePledge (agreementId : string) (client : address)
    (assetId assetType description : string) (originalValue : Z)
    (documentHash : string)
| PayClient (agreementId : string)
| PurchaseTokens (agreementId : string) (tokenAmount : Z) (purchaseId : string)
| RepayPledge (agreementId : string) (repaymentAmount : Z)
| SetSpreadPercentage (newSpread : Z)
| WithdrawRevenue (to : address) (amount : Z)
| Pause
| Unpause
| GrantOperatorRole (account : address)
| GrantFinanceRole (account : address)
| RevokeOperatorRole (account : address)
| RevokeFinanceRole (account : address)
| GrantRole (role : Role) (account : address)
| RevokeRole (role : Role) (account : address)
| RenounceRole (role : Role) (account : address).

Definition dispatch (sender : address) (now : Z) (c : call) (w : world) : result world :=
  match c with
  | CreatePledge id cl aid ty descr v doc => createPledge sender now id cl aid ty descr v doc w
  | PayClient id => payClient sender id w
  | PurchaseTokens id n pid => purchaseTokens sender now id n pid w
  | RepayPledge id n => repayPledge sender id n w
  | SetSpreadPercentage n => setSpreadPercentage sender n w
  | WithdrawRevenue to n => withdrawRevenue sender to n w
  | Pause => pause sender w
  | Unpause => unpause sender w
  | GrantOperatorRole a => grantOperatorRole sender a w
  | GrantFinanceRole a => grantFinanceRole sender a w
  | RevokeOperatorRole a => revokeOperatorRole sender a w
  | RevokeFinanceRole a => revokeFinanceRole sender a w
  | GrantRole r a => grantRole sender r a w
  | RevokeRole r a => revokeRole sender r a w
  | RenounceRole r a => renounceRole sender r a w
  end.

(** One transaction: commit on success, keep the old state on revert. *)
Definition exec (sender : address) (now : Z) (c : call) (w : world) : world * option revert :=
  match dispatch sender now c w with
  | Ok w' => (w', None)
  | Err e => (w, Some e)
  end.

End PledgeManager.

(** ** The system: a transaction targets one of the three contracts *)

Module System.

Import PledgeManager.

Inductive call : Type :=
| ToToken (c : RWAToken.call)
| ToStable (c : MockUSDT.call)
| ToManager (c : PledgeManager.call).

Definition dispatch (sender : address) (now : Z) (c : call) (w : world) : result world :=
  match c with
  | ToToken c => t ← RWAToken.dispatch sender now c (rwaToken w); Ok (set_rwaToken t w)
  | ToStable c => u ← MockUSDT.dispatch sender c (usdtToken w); Ok (set_usdtToken u w)
  | ToManager c => PledgeManager.dispatch sender now c w
  end.

Definition exec (sender : address) (now : Z) (c : call) (w : world) : world * option revert :=
  match dispatch sender now c w with
  | Ok w' => (w', None)
  | Err e => (w, Some e)
  end.

(** The role a caller must hold for the call to pass its [onlyRole]
    modifier, where the entrypoint carries one. *)
Definition token_role (c : RWAToken.call) : option Role :=
  match c with
  | RWAToken.PledgeAsset _ _ _ _ _ | RWAToken.ReleaseAsset _ _ _ => Some PLEDGE_MANAGER_ROLE
  | RWAToken.SetDiscountRate _ => Some DEFAULT_ADMIN_ROLE
  | RWAToken.Pause | RWAToken.Unpause => Some PAUSER_ROLE
  | RWAToken.GrantRole r _ | RWAToken.RevokeRole r _ => Some (AccessControl.getRoleAdmin r)
  | _ => None
  end.

Definition manager_role (c : PledgeManager.call) : option Role :=
  match c with
  | CreatePledge _ _ _ _ _ _ _ => Some OPERATOR_ROLE
  | PayClient _ | RepayPledge _ _ | WithdrawRevenue _ _ => Some FINANCE_ROLE
  | SetSpreadPercentage _ | Pause | Unpause => Some DEFAULT_ADMIN_ROLE
  | GrantOperatorRole _ | GrantFinanceRole _
  | RevokeOperatorRole _ | RevokeFinanceRole _ => Some DEFAULT_ADMIN_ROLE
  | GrantRole r _ | RevokeRole r _ => Some (AccessControl.getRoleAdmin r)
  | PurchaseTokens _ _ _ | RenounceRole _ _ => None
  end.

(** Any number of further transactions on the system, from any senders. *)
Inductive later : world -> world -> Prop :=
| later_refl w : later w w
| later_step w w' sender now c :
    later w w' ->
    later w (fst (exec sender now c w')).

Definition required_role (c : call) : option Role :=
  match c with
  | ToToken c => token_role c
  | ToManager c => manager_role c
  | ToStable _ => None
  end.

(** Role membership in the table of the contract the call targets. *)
Definition holds_role (w : world) (c : call) (role : Role) (account : address) : bool :=
  match c with
  | ToToken _ => RWAToken.hasRole (rwaToken w) role account
  | ToManager _ => PledgeManager.hasRole w role account
  | ToStable _ => true
  end.

(** The operations the two [Pausable] contracts guard with
    [whenNotPaused], directly or through [_beforeTokenTransfer]. *)
Definition pause_guarded (c : call) : bool :=
  match c with
  | ToToken (RWAToken.PledgeAsset _ _ _ _ _)
  | ToToken (RWAToken.ReleaseAsset _ _ _)
  | ToToken (RWAToken.Transfer _ _)
  | ToToken (RWAToken.TransferFrom _ _ _)
  | ToManager (CreatePledge _ _ _ _ _ _ _)
  | ToManager (PurchaseTokens _ _ _) => true
  | _ => false
  end.

(** The pause flag that stops the call: the ledger's own flag for the
    ledger's operations; for the registry's operations its own flag or the
    flag of the ledger they mint on and transfer in. *)
Definition paused_for (w : world) (c : call) : bool :=
  match c with
  | ToToken _ => RWAToken._paused (rwaToken w)
  | ToManager _ => PledgeManager._paused (manager w) || RWAToken._paused (rwaToken w)
  | ToStable _ => false
  end.

(** [createPledge] from its reentrancy guard up to its call of
    [pledgeAsset] on the ledger: the guard, the four [require]s and the
    three checked operations pass. *)
Definition createPledge_reaches_ledger (w : world) (agreementId : string)
    (client : address) (originalValue : Z) : bool :=
  let product := originalValue * RWAToken.discountRate (rwaToken w) in
  let keep := 100 - spreadPercentage (manager w) in
  negb (_entered (manager w))
  && (0 <? Z.of_nat (String.length agreementId))
  && negb (client =? 0)
  && (0 <? originalValue)
  && (timestamp (getPledgeAgreement w agreementId) =? 0)
  && (product <=? MAX_UINT256)
  && (spreadPercentage (manager w) <=? 100)
  && (product / 100 * keep <=? MAX_UINT256).

(** [purchaseTokens] from its reentrancy guard up to its transfer of asset
    tokens on the ledger: the guard, the four [require]s and the checked
    product pass, and so does the [transferFrom] of the stable asset
    (allowance, zero addresses, balance of the buyer). *)
Definition purchaseTokens_reaches_ledger (w : world) (sender : address)
    (agreementId : string) (tokenAmount : Z) : bool :=
  let pledge := getPledgeAgreement w agreementId in
  let usdtRequired := tokenAmount * ONE_E6 in
  let a := ERC20.allowance (MockUSDT.erc20 (usdtToken w)) sender (this w) in
  negb (_entered (manager w))
  && negb (timestamp pledge =? 0)
  && bool_decide (status pledge = ACTIVE)
  && (0 <? tokenAmount)
  && (tokenAmount <=? RWAToken.balanceOf (rwaToken w) (this w))
  && (usdtRequired <=? MAX_UINT256)
  && ((a =? MAX_UINT256) || (usdtRequired <=? a))
  && negb (sender =? 0)
  && negb (this w =? 0)
  && (usdtRequired <=? MockUSDT.balanceOf (usdtToken w) sender).

(** The checks the code makes before it reaches a pause check whose flag is
    set. For a call to the ledger that is the ledger's own [whenNotPaused].
    For a call to the registry it is the registry's own [whenNotPaused]
    when the registry is paused; when the ledger alone is paused, it is the
    [whenNotPaused] of the ledger operation the call ends in, [pledgeAsset]
    for [createPledge] and the transfer of the tokens for
    [purchaseTokens]. *)
Definition reaches_pause_check (w : world) (sender : address) (c : call) : bool :=
  match c with
  | ToToken (RWAToken.PledgeAsset _ _ _ _ _)
  | ToToken (RWAToken.ReleaseAsset _ _ _) =>
      RWAToken.hasRole (rwaToken w) PLEDGE_MANAGER_ROLE sender
  | ToToken (RWAToken.Transfer to _) =>
      negb (sender =? 0) && negb (to =? 0)
  | ToToken (RWAToken.TransferFrom from to n) =>
      let a := ERC20.allowance (RWAToken.erc20 (rwaToken w)) from sender in
      negb (from =? 0) && negb (to =? 0)
      && ((a =? MAX_UINT256) || ((n <=? a) && negb (sender =? 0)))
  | ToManager (CreatePledge agreementId client _ _ _ originalValue _) =>
      PledgeManager.hasRole w OPERATOR_ROLE sender
      && (PledgeManager._paused (manager w)
          || (createPledge_reaches_ledger w agreementId client originalValue
              && RWAToken.hasRole (rwaToken w) PLEDGE_MANAGER_ROLE (this w)))
  | ToManager (PurchaseTokens agreementId tokenAmount _) =>
      PledgeManager._paused (manager w)
      || purchaseTokens_reaches_ledger w sender agreementId tokenAmount
  | _ => false
  end.

(** The call is one of the guarded operations and a flag that stops it is
    set. *)
Definition stopped (w : world) (c : call) : bool :=
  pause_guarded c && paused_for w c.

(** A sequence of transactions, each with its sender and block time. *)
Fixpoint exec_all (txs : list (address * Z * call)) (w : world) : world :=
  match txs with
  | [] => w
  | (sender, now, c) :: txs => exec_all txs (fst (exec sender now c w))
  end.

End System.

(** ** Accounting over the ledger state *)

Module Ledger.

Import RWAToken.

Definition Zsum (l : list Z) : Z := foldr Z.add 0 l.

(** The sum of all FungibleBalance entries. *)
Definition sum_balances (e : ERC20.state) : Z :=
  map_fold (fun (_ : address) (v acc : Z) => v + acc) 0 (ERC20._balances e).

(** The token ids assigned so far: one AssetRecord for each. *)
Definition tokenIds (s : state) : list Z := seqZ 1 (_currentTokenId s - 1).

(** Tokens issued for an asset: [pledgedValue / 1e18] of its record, the
    amount [pledgeAsset] mints and [releaseAsset] expects back. *)
Definition tokensIssued (s : state) (tokenId : Z) : Z :=
  pledgedValue (asset s tokenId) / ONE_E18.

Definition redeemed_by (tokenId : Z) (e : event) : Z :=
  match e with
  | AssetReleased t _ _ n => if t =? tokenId then n else 0
  | _ => 0
  end.

(** Tokens redeemed against an asset so far: the total of its
    [AssetReleased] events. *)
Definition tokensRedeemed (s : state) (tokenId : Z) : Z :=
  Zsum (redeemed_by tokenId <$> events s).

Definition outstanding (s : state) : Z :=
  Zsum ((fun id => tokensIssued s id - tokensRedeemed s id) <$> tokenIds s).

(** States of the ledger reachable from deployment by any sequence of
    transactions, from any senders, reverted ones included. *)
Inductive reachable (admin : address) : state -> Prop :=
| reachable_init : reachable admin (constructor admin)
| reachable_step s sender now c :
    reachable admin s ->
    well_formed c = true ->
    reachable admin (fst (exec sender now c s)).

(** Any number of further transactions. *)
Inductive later : state -> state -> Prop :=
| later_refl s : later s s
| later_step s s' sender now c :
    later s s' ->
    well_formed c = true ->
    later s (fst (exec sender now c s')).

Definition released_in_range (bound : Z) (e : event) : Prop :=
  match e with
  | AssetReleased t _ _ _ => 1 <= t < bound
  | _ => True
  end.

Definition erc20_wf (e : ERC20.state) : Prop :=
  map_Forall (fun (_ : address) (v : Z) => 0 <= v) (ERC20._balances e)
  /\ sum_balances e = ERC20._totalSupply e
  /\ ERC20._totalSupply e <= MAX_UINT256.

Record invariant (s : state) : Prop := mkInv {
  inv_erc20 : erc20_wf (erc20 s);
  inv_counter : 1 <= _currentTokenId s;
  inv_ids : map_Forall (fun (_ : string) (t : Z) => 1 <= t < _currentTokenId s)
                       (assetIdToTokenId s);
  inv_events : Forall (released_in_range (_currentTokenId s)) (events s);
  inv_rate : 0 < discountRate s <= 100;
  inv_guard : _entered s = false;
  inv_supply : ERC20._totalSupply (erc20 s) = outstanding s
}.

End Ledger.

(** ** A concrete deployment, used to exercise the statements below *)

Module Scenario.

Definition admin : address := 1.
Definition registry : address := 100.
Definition client : address := 7.
Definition investor : address := 8.
Definition outsider : address := 9.

(** A pledge of 100,000 units of value, scaled by [1e18]. *)
Definition hundred_thousand : Z := 100000 * ONE_E18.

Definition ledger0 : RWAToken.state := RWAToken.constructor admin.

Definition ledger1 : RWAToken.state :=
  fst (RWAToken.exec admin 1000
         (RWAToken.PledgeAsset "asset-1" "real_estate" "villa" hundred_thousand admin)
         ledger0).

Definition ledger2 : RWAToken.state :=
  fst (RWAToken.exec admin 2000 (RWAToken.ReleaseAsset "asset-1" admin 70000) ledger1).

Definition ledger_partial : RWAToken.state :=
  fst (RWAToken.exec admin 2000 (RWAToken.ReleaseAsset "asset-1" admin 20000) ledger1).

(** Two assets, 70 and 700 tokens, then one release that redeems all 770
    tokens against the first. *)
Definition ledger_over_redeemed : RWAToken.state :=
  fst (RWAToken.exec admin 2000 (RWAToken.ReleaseAsset "asset-a" admin 770)
    (fst (RWAToken.exec admin 1001
            (RWAToken.PledgeAsset "asset-b" "stocks" "shares" (1000 * ONE_E18) admin)
       (fst (RWAToken.exec admin 1000
               (RWAToken.PledgeAsset "asset-a" "bonds" "note" (100 * ONE_E18) admin)
               ledger0))))).

(** The ledger with the registry authorised to pledge and release. *)
Definition ledger_for_registry : RWAToken.state :=
  fst (RWAToken.exec admin 0 (RWAToken.GrantRole PLEDGE_MANAGER_ROLE registry) ledger0).

Definition stable0 : MockUSDT.state :=
  match MockUSDT.constructor admin with
  | Ok u => u
  | Err _ => MockUSDT.mk ERC20.empty admin
  end.

Definition world0 : PledgeManager.world :=
  match PledgeManager.constructor admin registry ledger_for_registry stable0 admin with
  | Ok w => w
  | Err _ => PledgeManager.mkWorld registry ledger_for_registry stable0
               (PledgeManager.mk ∅ false false ∅ ∅ ∅ ∅ 0 0 0 15 [])
  end.

Definition create1 : System.call :=
  System.ToManager
    (PledgeManager.CreatePledge "agreement-1" client "asset-1" "real_estate" "villa"
                                hundred_thousand "QmHash").

(** The pledge of the spec's scenario: discounted value 70,000, client
    payment 59,500, 70,000 tokens. *)
Definition world1 : PledgeManager.world := fst (System.exec admin 1000 create1 world0).

(** The registry funded with enough stable asset for two payouts. *)
Definition world_funded : PledgeManager.world :=
  fst (System.exec admin 1100
         (System.ToStable (MockUSDT.Mint registry (200000 * ONE_E18))) world1).

(** The registry holding 50,000 (scaled) units only. *)
Definition world_short : PledgeManager.world :=
  fst (System.exec admin 1100
         (System.ToStable (MockUSDT.Mint registry (50000 * ONE_E18))) world1).

(** An investor holding stable asset, with the registry approved to pull it. *)
Definition world_investor : PledgeManager.world :=
  fst (System.exec investor 1150
         (System.ToStable (MockUSDT.Approve registry (5000 * ONE_E6)))
         (fst (System.exec admin 1120
                 (System.ToStable (MockUSDT.Mint investor (5000 * ONE_E6))) world1))).

Definition purchase1 : System.call :=
  System.ToManager (PledgeManager.PurchaseTokens "agreement-1" 1000 "purchase-1").

Definition world_bought : PledgeManager.world :=
  fst (System.exec investor 1200 purchase1 world_investor).

Definition world_bought_again : PledgeManager.world :=
  fst (System.exec investor 1300 purchase1 world_bought).

Definition world_paused : PledgeManager.world :=
  fst (System.exec admin 1400 (System.ToManager PledgeManager.Pause) world1).

(** The ledger alone paused, the registry not. *)
Definition world_ledger_paused : PledgeManager.world :=
  fst (System.exec admin 1400 (System.ToToken RWAToken.Pause) world1).

(** The investor ready to buy, and the ledger alone paused. *)
Definition world_investor_ledger_paused : PledgeManager.world :=
  fst (System.exec admin 1400 (System.ToToken RWAToken.Pause) world_investor).

Definition create2 : System.call :=
  System.ToManager
    (PledgeManager.CreatePledge "agreement-2" client "asset-2" "stocks" "shares"
                                5000 "QmOther").

End Scenario.

(** ** Bookkeeping of the asset registry *)

Module Books.

Import RWAToken.

(** The pledged value of an asset while it is active. *)
Definition active_value (s : state) (tokenId : Z) : Z :=
  if isActive (asset s tokenId) then pledgedValue (asset s tokenId) else 0.

(** The total pledged value of the active assets. *)
Definition activeValue (s : state) : Z :=
  Ledger.Zsum (active_value s <$> Ledger.tokenIds s).

Definition pledged_id (e : event) : option Z :=
  match e with
  | AssetPledged t _ _ _ _ _ _ => Some t
  | _ => None
  end.

(** The token ids of the [AssetPledged] events, oldest first. *)
Definition pledged_ids (s : state) : list Z := omap pledged_id (events s).

(** What the two lookup tables, the counter and the accumulator keep to. *)
Record bookkeeping (s : state) : Prop := mkBooks {
  bk_back : forall id t, assetIdToTokenId s !! id = Some t ->
            exists a, assets s !! t = Some a /\ assetId a = id;
  bk_forth : forall t, 1 <= t < _currentTokenId s ->
             exists a, assets s !! t = Some a
                       /\ assetIdToTokenId s !! assetId a = Some t;
  bk_keys : forall t a, assets s !! t = Some a -> 1 <= t < _currentTokenId s;
  bk_values : forall t a, assets s !! t = Some a ->
              0 < originalValue a
              /\ 0 <= pledgedValue a <= originalValue a
              /\ pledger a <> 0
              /\ assetId a <> "";
  bk_total : totalPledgedValue s = activeValue s;
  bk_sequence : pledged_ids s = Ledger.tokenIds s
}.

End Books.

(** ** The platform as deployed: scripts and reachable states *)

Module Platform.

Import PledgeManager.

(** Modelled from the spec: the entrypoints the stable token inherits from
    the imported [ERC20] and [Ownable] base contracts (OpenZeppelin
    Contracts 4, an external dependency that is not part of the repository)
    and that [MockUSDT.call] does not list: the two allowance adjustments
    and the two ownership transfers. The spec treats the stable asset as an
    external transfer capability with [transfer], [transferFrom] and
    [balanceOf]; none of the four touches a balance. *)
Inductive inherited_call : Type :=
| IncreaseAllowance (spender : address) (addedValue : Z)
| DecreaseAllowance (spender : address) (subtractedValue : Z)
| TransferOwnership (newOwner : address)
| RenounceOwnership.

Definition transferOwnership (sender newOwner : address) (s : MockUSDT.state)
    : result MockUSDT.state :=
  _ ← MockUSDT.onlyOwner sender s;
  _ ← require (negb (newOwner =? 0)) "Ownable: new owner is the zero address";
  Ok (MockUSDT.mk (MockUSDT.erc20 s) newOwner).

Definition renounceOwnership (sender : address) (s : MockUSDT.state)
    : result MockUSDT.state :=
  _ ← MockUSDT.onlyOwner sender s;
  Ok (MockUSDT.mk (MockUSDT.erc20 s) 0).

Definition inherited (sender : address) (c : inherited_call) (s : MockUSDT.state)
    : result MockUSDT.state :=
  match c with
  | IncreaseAllowance sp n =>
      '(e, _) ← ERC20.increaseAllowance sender sp n (MockUSDT.erc20 s);
      Ok (MockUSDT.set_erc20 e s)
  | DecreaseAllowance sp n =>
      '(e, _) ← ERC20.decreaseAllowance sender sp n (MockUSDT.erc20 s);
      Ok (MockUSDT.set_erc20 e s)
  | TransferOwnership a => transferOwnership sender a s
  | RenounceOwnership => renounceOwnership sender s
  end.

(** Every state-changing entrypoint of the three contracts. *)
Inductive call : Type :=
| Declared (c : System.call)
| Inherited (c : inherited_call).

Definition dispatch (sender : address) (now : Z) (c : call) (w : world) : result world :=
  match c with
  | Declared c => System.dispatch sender now c w
  | Inherited c => u ← inherited sender c (usdtToken w); Ok (set_usdtToken u w)
  end.

(** One transaction: commit on success, keep the old state on revert. *)
Definition exec (sender : address) (now : Z) (c : call) (w : world) : world * option revert :=
  match dispatch sender now c w with
  | Ok w' => (w', None)
  | Err e => (w, Some e)
  end.

(** What the ABI decoder accepts. *)
Definition stable_well_formed (c : MockUSDT.call) : bool :=
  match c with
  | MockUSDT.Mint to n => is_address to && is_uint256 n
  | MockUSDT.Faucet n => is_uint256 n
  | MockUSDT.GetTestUSDT => true
  | MockUSDT.Transfer to n => is_address to && is_uint256 n
  | MockUSDT.TransferFrom from to n => is_address from && is_address to && is_uint256 n
  | MockUSDT.Approve sp n => is_address sp && is_uint256 n
  end.

Definition manager_well_formed (c : PledgeManager.call) : bool :=
  match c with
  | CreatePledge _ cl _ _ _ v _ => is_address cl && is_uint256 v
  | PayClient _ => true
  | PurchaseTokens _ n _ => is_uint256 n
  | RepayPledge _ n => is_uint256 n
  | SetSpreadPercentage n => is_uint256 n
  | WithdrawRevenue to n => is_address to && is_uint256 n
  | Pause | Unpause => true
  | GrantOperatorRole a | GrantFinanceRole a
  | RevokeOperatorRole a | RevokeFinanceRole a => is_address a
  | GrantRole _ a | RevokeRole _ a | RenounceRole _ a => is_address a
  end.

Definition well_formed (c : call) : bool :=
  match c with
  | Declared (System.ToToken c) => RWAToken.well_formed c
  | Declared (System.ToStable c) => stable_well_formed c
  | Declared (System.ToManager c) => manager_well_formed c
  | Inherited (IncreaseAllowance sp n) | Inherited (DecreaseAllowance sp n) =>
      is_address sp && is_uint256 n
  | Inherited (TransferOwnership a) => is_address a
  | Inherited RenounceOwnership => true
  end.

(** [ethers.utils.parseUnits(units, decimals)] of a whole number. *)
Definition parseUnits (units decimals : Z) : Z := units * 10 ^ decimals.

(** The deployment script, in its branch for test and local networks
    (where it deploys the mock stable token), run by [deployer]; [self] is
    the address the registry is deployed at. In order: deploy the stable
    token, mint 1,000,000 units to the deployer, deploy the ledger and the
    registry with the deployer as admin, grant the registry
    [PLEDGE_MANAGER_ROLE] and [MINTER_ROLE] on the ledger, and fund the
    registry with 500,000 units. The script stops at the first transaction
    that reverts. *)
Definition deploy (deployer self : address) : result world :=
  usdt ← MockUSDT.constructor deployer;
  usdt ← MockUSDT.mint deployer deployer (parseUnits 1000000 6) usdt;
  let token := RWAToken.constructor deployer in
  w ← PledgeManager.constructor deployer self token usdt deployer;
  token ← RWAToken.grantRole deployer PLEDGE_MANAGER_ROLE self (rwaToken w);
  token ← RWAToken.grantRole deployer MINTER_ROLE self token;
  let w := set_rwaToken token w in
  '(usdt, _) ← MockUSDT.transfer deployer self (parseUnits 500000 6) (usdtToken w);
  Ok (set_usdtToken usdt w).

(** A script's transactions, sent one after the other; the first that
    reverts ends the script, the ones before it stay. *)
Fixpoint run (sender : address) (now : Z) (cs : list System.call) (w : world)
    : world * option revert :=
  match cs with
  | [] => (w, None)
  | c :: cs =>
      match System.dispatch sender now c w with
      | Ok w' => run sender now cs w'
      | Err e => (w, Some e)
      end
  end.

(** scripts/grant-roles.js: the admin grants the backend signer its roles
    on the registry and on the ledger. *)
Definition grant_roles_calls (backend : address) : list System.call :=
  [ System.ToManager (GrantRole OPERATOR_ROLE backend);
    System.ToManager (GrantRole FINANCE_ROLE backend);
    System.ToManager (GrantRole DEFAULT_ADMIN_ROLE backend);
    System.ToToken (RWAToken.GrantRole MINTER_ROLE backend);
    System.ToToken (RWAToken.GrantRole PAUSER_ROLE backend);
    System.ToToken (RWAToken.GrantRole DEFAULT_ADMIN_ROLE backend) ].

Definition grant_roles (sender : address) (now : Z) (backend : address) (w : world)
    : world * option revert :=
  run sender now (grant_roles_calls backend) w.

(** States of the platform reachable from the deployment by any sequence
    of transactions, from any senders, reverted ones included. Block
    timestamps are positive. *)
Inductive reachable (deployer self : address) : world -> Prop :=
| reachable_deployed w :
    is_address deployer = true ->
    is_address self = true ->
    deploy deployer self = Ok w ->
    reachable deployer self w
| reachable_step w sender now c :
    reachable deployer self w ->
    is_address sender = true ->
    well_formed c = true ->
    0 < now ->
    reachable deployer self (fst (exec sender now c w)).

(** Any number of further transactions on the platform. *)
Inductive later : world -> world -> Prop :=
| later_refl w : later w w
| later_step w w' sender now c :
    later w w' ->
    is_address sender = true ->
    well_formed c = true ->
    0 < now ->
    later w (fst (exec sender now c w')).

(** The registry's entrypoints that administer roles and the pause flag. *)
Definition administrative (c : PledgeManager.call) : bool :=
  match c with
  | CreatePledge _ _ _ _ _ _ _ | PayClient _ | PurchaseTokens _ _ _
  | RepayPledge _ _ | SetSpreadPercentage _ | WithdrawRevenue _ _ => false
  | _ => true
  end.

(** The registry's event log, read per agreement, client and investor. *)

Definition purchase_of (id : string) (e : event) : option (address * Z * Z * string) :=
  match e with
  | TokensPurchased id' i n paid pid =>
      if decide (id' = id) then Some (i, n, paid, pid) else None
  | _ => None
  end.

Definition purchase_by (i : address) (e : event) : option string :=
  match e with
  | TokensPurchased id i' _ _ _ => if decide (i' = i) then Some id else None
  | _ => None
  end.

Definition pledge_of (c : address) (e : event) : option string :=
  match e with
  | PledgeCreated id c' _ _ _ _ => if decide (c' = c) then Some id else None
  | _ => None
  end.

Definition created_id (e : event) : option string :=
  match e with
  | PledgeCreated id _ _ _ _ _ => Some id
  | _ => None
  end.

Definition paid_in (e : event) : Z :=
  match e with
  | TokensPurchased _ _ _ paid _ => paid
  | _ => 0
  end.

Definition paid_out (e : event) : Z :=
  match e with
  | ClientPaid _ _ amount => amount
  | _ => 0
  end.

Definition purchase_fields (q : InvestorPurchase) : address * Z * Z * string :=
  (investor q, tokenAmount q, usdtPaid q, purchaseId q).

(** A stored agreement, against the ledger it is backed by. *)
Record agreement_ok (w : world) (id : string) (p : PledgeAgreement) : Prop := mkAgreementOk {
  ag_id : agreementId p = id;
  ag_client : client p <> 0;
  ag_time : 0 < timestamp p;
  ag_status : status p = ACTIVE \/ status p = REPAID;
  ag_value : 0 < originalValue p <= MAX_UINT256;
  ag_discount : exists rate, 0 < rate <= 100
                  /\ discountedValue p = originalValue p * rate / 100;
  ag_tokens : tokensIssued p = discountedValue p / ONE_E18;
  ag_payment : exists spread, 0 <= spread <= 50
                  /\ clientPayment p = discountedValue p * (100 - spread) / 100;
  ag_asset : RWAToken.tokenIdOf (rwaToken w) (assetId p) <> 0;
  ag_record :
    let a := RWAToken.asset (rwaToken w) (RWAToken.tokenIdOf (rwaToken w) (assetId p)) in
    RWAToken.originalValue a = originalValue p
    /\ RWAToken.pledgedValue a = discountedValue p
    /\ RWAToken.pledger a = this w
    /\ RWAToken.pledgeTimestamp a = timestamp p
    /\ (status p = REPAID -> RWAToken.isActive a = false)
}.

(** What an event of the log says about the agreement it names. *)
Definition event_ok (agreements : gmap string PledgeAgreement) (e : event) : Prop :=
  match e with
  | PledgeCreated id c aid ov dv cp =>
      exists p, agreements !! id = Some p
        /\ client p = c /\ assetId p = aid /\ originalValue p = ov
        /\ discountedValue p = dv /\ clientPayment p = cp
  | TokensPurchased id _ n paid _ =>
      0 < n /\ paid = n * ONE_E6 /\ is_Some (agreements !! id)
  | PledgeRepaid id c _ =>
      exists p, agreements !! id = Some p /\ client p = c /\ status p = REPAID
  | ClientPaid id c amount =>
      exists p, agreements !! id = Some p /\ client p = c /\ clientPayment p = amount
  | SpreadUpdated _ newSpread => 0 <= newSpread <= 50
  end.

(** What every reachable state of the platform keeps to. *)
Record invariant (deployer self : address) (w : world) : Prop := mkPlatformInv {
  pi_this : this w = self;
  pi_self : self <> 0 /\ is_address self = true;
  pi_ledger : Ledger.reachable deployer (rwaToken w);
  pi_stable : Ledger.erc20_wf (MockUSDT.erc20 (usdtToken w));
  pi_guard : _entered (manager w) = false;
  pi_spread : 0 <= spreadPercentage (manager w) <= 50;
  pi_agreements : forall id p,
    pledgeAgreements (manager w) !! id = Some p -> agreement_ok w id p;
  pi_created : forall id,
    id ∈ omap created_id (events (manager w))
    <-> is_Some (pledgeAgreements (manager w) !! id);
  pi_created_once : NoDup (omap created_id (events (manager w)));
  pi_events : Forall (event_ok (pledgeAgreements (manager w))) (events (manager w));
  pi_investors : forall id,
    purchase_fields <$> getAssetInvestors w id
    = omap (purchase_of id) (events (manager w));
  pi_clients : forall c,
    getClientPledges w c = omap (pledge_of c) (events (manager w));
  pi_index : forall i,
    getInvestorPurchases w i = omap (purchase_by i) (events (manager w));
  pi_in : totalInvestorPayments (manager w) = Ledger.Zsum (paid_in <$> events (manager w));
  pi_out : totalClientPayments (manager w) = Ledger.Zsum (paid_out <$> events (manager w));
  pi_revenue : 0 <= platformRevenue (manager w)
                /\ 2 * platformRevenue (manager w) <= totalInvestorPayments (manager w)
}.

End Platform.

(** ** A test-network deployment, used to exercise the statements below *)

Module Testnet.

Import Scenario.

Definition deployed : PledgeManager.world :=
  match Platform.deploy admin registry with
  | Ok w => w
  | Err _ => world0
  end.

Definition pledged : PledgeManager.world :=
  fst (Platform.exec admin 1000 (Platform.Declared create1) deployed).

(** The investor draws 5,000 units from the faucet and lets the registry
    pull them. *)
Definition funded : PledgeManager.world :=
  fst (Platform.exec investor 1100
         (Platform.Declared (System.ToStable (MockUSDT.Faucet (5000 * ONE_E6)))) pledged).

Definition approved : PledgeManager.world :=
  fst (Platform.exec investor 1150
         (Platform.Declared (System.ToStable (MockUSDT.Approve registry (5000 * ONE_E6))))
         funded).

Definition bought : PledgeManager.world :=
  fst (Platform.exec investor 1200 (Platform.Declared purchase1) approved).

(** The pledge closed with a repayment of nothing. *)
Definition repaid : PledgeManager.world :=
  fst (Platform.exec admin 1300
         (Platform.Declared (System.ToManager (PledgeManager.RepayPledge "agreement-1" 0)))
         pledged).

End Testnet.

(** * Properties *)

(** ** Reasoning about reverting computations *)

Lemma MAX_UINT256_pos : 0 < MAX_UINT256.
Proof. reflexivity. Qed.

Global Opaque MAX_UINT256.

Lemma bind_Ok {A B} (f : A -> result B) (m : result A) (b : B) :
  m ≫= f = Ok b -> exists a, m = Ok a /\ f a = Ok b.
Proof. destruct m as [a|e]; simpl; [eauto | discriminate]. Qed.

Lemma fmap_Ok {A B} (f : A -> B) (m : result A) (b : B) :
  f <$> m = Ok b -> exists a, m = Ok a /\ b = f a.
Proof. destruct m as [a|e]; simpl; [intros [= <-]; eauto | discriminate]. Qed.

Lemma require_Ok cond reason u : require cond reason = Ok u -> cond = true.
Proof. destruct cond; [reflexivity | discriminate]. Qed.


Lemma checked_add_Ok a b c :
  checked_add a b = Ok c -> c = a + b /\ a + b <= MAX_UINT256.
Proof.
  unfold checked_add. destruct (Z.leb_spec (a + b) MAX_UINT256); [|discriminate].
  intros [= <-]. auto.
Qed.

Lemma checked_sub_Ok a b c :
  checked_sub a b = Ok c -> c = a - b /\ b <= a.
Proof.
  unfold checked_sub. destruct (Z.leb_spec b a); [|discriminate].
  intros [= <-]. auto.
Qed.

Lemma checked_mul_Ok a b c :
  checked_mul a b = Ok c -> c = a * b /\ a * b <= MAX_UINT256.
Proof.
  unfold checked_mul. destruct (Z.leb_spec (a * b) MAX_UINT256); [|discriminate].
  intros [= <-]. auto.
Qed.

Lemma wrap_small z : 0 <= z <= MAX_UINT256 -> wrap z = z.
Proof. intros. unfold wrap. apply Z.mod_small. lia. Qed.

(** Peel the successful prefix of a monadic chain: every step that ran is
    turned into a fact about its arguments. *)
Ltac ok_steps H :=
  cbv beta zeta in H;
  lazymatch type of H with
  | mbind _ (require _ _) = Ok _ =>
      let u := fresh "u" in let Hc := fresh "Hreq" in
      apply bind_Ok in H as (u & Hc & H); apply require_Ok in Hc; clear u;
      ok_steps H
  | mbind _ (checked_add _ _) = Ok _ =>
      let v := fresh "v" in let Hc := fresh "Hadd" in
      apply bind_Ok in H as (v & Hc & H); apply checked_add_Ok in Hc as [-> Hc];
      ok_steps H
  | mbind _ (checked_sub _ _) = Ok _ =>
      let v := fresh "v" in let Hc := fresh "Hsub" in
      apply bind_Ok in H as (v & Hc & H); apply checked_sub_Ok in Hc as [-> Hc];
      ok_steps H
  | mbind _ (checked_mul _ _) = Ok _ =>
      let v := fresh "v" in let Hc := fresh "Hmul" in
      apply bind_Ok in H as (v & Hc & H); apply checked_mul_Ok in Hc as [-> Hc];
      ok_steps H
  | mbind _ _ = Ok _ =>
      let v := fresh "v" in let Hc := fresh "Hstep" in
      apply bind_Ok in H as (v & Hc & H); ok_steps Hc; ok_steps H
  | (let '(_, _) := ?v in _) = Ok _ =>
      first [ is_var v; destruct v; ok_steps H | idtac ]
  | Ok _ = Ok ?b =>
      first [ is_var b; injection H as <- | idtac ]
  | _ => idtac
  end.

(** ** Sums over balance maps *)

Section balance_sums.

Let msum (m : gmap address Z) : Z :=
  map_fold (fun (_ : address) (v acc : Z) => v + acc) 0 m.

Lemma msum_fresh (m : gmap address Z) k v :
  m !! k = None -> msum (<[k := v]> m) = v + msum m.
Proof.
  intros Hk. unfold msum. apply map_fold_insert_L; [|exact Hk].
  intros; lia.
Qed.

Lemma msum_delete (m : gmap address Z) k v :
  m !! k = Some v -> msum m = v + msum (delete k m).
Proof.
  intros Hk. unfold msum.
  apply (map_fold_delete_L (fun (_ : address) (v acc : Z) => v + acc)); [|exact Hk].
  intros; lia.
Qed.

Lemma msum_insert (m : gmap address Z) k v :
  msum (<[k := v]> m) = msum m - default 0 (m !! k) + v.
Proof.
  destruct (m !! k) as [x|] eqn:Hk; simpl.
  - rewrite (msum_delete m k x Hk).
    rewrite <- (insert_delete_eq m k v).
    rewrite msum_fresh by apply lookup_delete_eq. lia.
  - rewrite msum_fresh by exact Hk. lia.
Qed.

Lemma msum_nonneg (m : gmap address Z) :
  map_Forall (fun (_ : address) (v : Z) => 0 <= v) m -> 0 <= msum m.
Proof.
  induction m as [|k v m Hk IH] using map_ind; intros Hall.
  - unfold msum. rewrite map_fold_empty. lia.
  - rewrite msum_fresh by exact Hk.
    apply map_Forall_insert in Hall as [Hv Hm]; [|exact Hk].
    specialize (IH Hm). lia.
Qed.

Lemma msum_lookup_le (m : gmap address Z) k :
  map_Forall (fun (_ : address) (v : Z) => 0 <= v) m ->
  0 <= default 0 (m !! k) <= msum m.
Proof.
  intros Hall. destruct (m !! k) as [x|] eqn:Hk; simpl.
  - rewrite (msum_delete m k x Hk).
    pose proof (Hall k x Hk) as Hx. simpl in Hx.
    assert (0 <= msum (delete k m)).
    { apply msum_nonneg. intros j y Hj. apply lookup_delete_Some in Hj as [_ Hj].
      exact (Hall j y Hj). }
    lia.
  - split; [lia | apply msum_nonneg, Hall].
Qed.

End balance_sums.

Lemma sum_balances_set_balance e a v :
  Ledger.sum_balances (ERC20.set_balance a v e)
  = Ledger.sum_balances e - ERC20.balanceOf e a + v.
Proof. unfold Ledger.sum_balances, ERC20.balanceOf. simpl. apply msum_insert. Qed.

Lemma balanceOf_bounds e a :
  Ledger.erc20_wf e -> 0 <= ERC20.balanceOf e a <= ERC20._totalSupply e.
Proof.
  intros (Hall & Hsum & _). rewrite <- Hsum.
  unfold ERC20.balanceOf, Ledger.sum_balances. apply msum_lookup_le, Hall.
Qed.

Lemma balanceOf_set_balance e a b v :
  ERC20.balanceOf (ERC20.set_balance a v e) b
  = if decide (a = b) then v else ERC20.balanceOf e b.
Proof.
  unfold ERC20.balanceOf, ERC20.set_balance. simpl.
  rewrite lookup_insert. destruct (decide (a = b)); reflexivity.
Qed.

Lemma erc20_wf_set_balance e a v :
  Ledger.erc20_wf e -> 0 <= v ->
  map_Forall (fun (_ : address) (x : Z) => 0 <= x)
             (ERC20._balances (ERC20.set_balance a v e)).
Proof.
  intros (Hall & _) Hv. simpl. apply map_Forall_insert_2; assumption.
Qed.

(** ** The ERC20 base preserves its accounting *)

Section erc20_ops.

Variable hook : address -> address -> Z -> result unit.

Lemma mint_spec account amount e e' :
  ERC20._mint hook account amount e = Ok e' ->
  Ledger.erc20_wf e -> 0 <= amount ->
  Ledger.erc20_wf e'
  /\ ERC20._totalSupply e' = ERC20._totalSupply e + amount
  /\ ERC20.balanceOf e' account = ERC20.balanceOf e account + amount
  /\ (forall b, b <> account -> ERC20.balanceOf e' b = ERC20.balanceOf e b)
  /\ ERC20._allowances e' = ERC20._allowances e.
Proof.
  unfold ERC20._mint. intros H Hwf Hamt. ok_steps H.
  pose proof (balanceOf_bounds e account Hwf) as Hb.
  destruct Hwf as (Hall & Hsum & Hmax).
  assert (Hw : wrap (ERC20.balanceOf (ERC20.set_totalSupply (ERC20._totalSupply e + amount) e) account + amount)
               = ERC20.balanceOf e account + amount).
  { unfold ERC20.balanceOf at 1. simpl. fold (ERC20.balanceOf e account).
    apply wrap_small. lia. }
  rewrite Hw. repeat split.
  - apply map_Forall_insert_2; [lia | exact Hall].
  - rewrite sum_balances_set_balance. simpl.
    unfold Ledger.sum_balances, ERC20.balanceOf in *. simpl. lia.
  - simpl. lia.
  - rewrite balanceOf_set_balance. rewrite decide_True by reflexivity. reflexivity.
  - intros b Hne. rewrite balanceOf_set_balance. rewrite decide_False by congruence.
    reflexivity.
Qed.

Lemma burn_spec account amount e e' :
  ERC20._burn hook account amount e = Ok e' ->
  Ledger.erc20_wf e -> 0 <= amount ->
  Ledger.erc20_wf e'
  /\ ERC20._totalSupply e' = ERC20._totalSupply e - amount
  /\ ERC20.balanceOf e' account = ERC20.balanceOf e account - amount
  /\ (forall b, b <> account -> ERC20.balanceOf e' b = ERC20.balanceOf e b)
  /\ ERC20._allowances e' = ERC20._allowances e.
Proof.
  unfold ERC20._burn. intros H Hwf Hamt. ok_steps H.
  match goal with Hle : (_ <=? _) = true |- _ => apply Z.leb_le in Hle end.
  pose proof (balanceOf_bounds e account Hwf) as Hb.
  destruct Hwf as (Hall & Hsum & Hmax).
  rewrite (wrap_small (ERC20._totalSupply e - amount)) by lia. repeat split.
  - simpl. apply map_Forall_insert_2; [lia | exact Hall].
  - change (Ledger.sum_balances (ERC20.set_balance account (ERC20.balanceOf e account - amount) e)
            = ERC20._totalSupply e - amount).
    rewrite sum_balances_set_balance. lia.
  - simpl. lia.
  - change (ERC20.balanceOf (ERC20.set_balance account (ERC20.balanceOf e account - amount) e) account
            = ERC20.balanceOf e account - amount).
    rewrite balanceOf_set_balance. rewrite decide_True by reflexivity. reflexivity.
  - intros b Hne.
    change (ERC20.balanceOf (ERC20.set_balance account (ERC20.balanceOf e account - amount) e) b
            = ERC20.balanceOf e b).
    rewrite balanceOf_set_balance. rewrite decide_False by congruence. reflexivity.
Qed.

Lemma transfer_spec from to amount e e' :
  ERC20._transfer hook from to amount e = Ok e' ->
  Ledger.erc20_wf e -> 0 <= amount ->
  Ledger.erc20_wf e'
  /\ ERC20._totalSupply e' = ERC20._totalSupply e
  /\ ERC20._allowances e' = ERC20._allowances e.
Proof.
  unfold ERC20._transfer. intros H Hwf Hamt. ok_steps H.
  match goal with Hle : (_ <=? _) = true |- _ => apply Z.leb_le in Hle end.
  pose proof (balanceOf_bounds e from Hwf) as Hf.
  pose proof (balanceOf_bounds e to Hwf) as Ht.
  set (e1 := ERC20.set_balance from (ERC20.balanceOf e from - amount) e).
  assert (Hwf1 : map_Forall (fun (_ : address) (x : Z) => 0 <= x) (ERC20._balances e1)).
  { apply erc20_wf_set_balance; [exact Hwf | lia]. }
  assert (Hsum1 : Ledger.sum_balances e1 = ERC20._totalSupply e - amount).
  { unfold e1. rewrite sum_balances_set_balance. destruct Hwf as (_ & -> & _). lia. }
  assert (Hto : 0 <= ERC20.balanceOf e1 to <= ERC20._totalSupply e - amount).
  { rewrite <- Hsum1. unfold ERC20.balanceOf, Ledger.sum_balances.
    apply msum_lookup_le, Hwf1. }
  destruct Hwf as (Hall & Hsum & Hmax).
  rewrite wrap_small by lia. repeat split.
  - simpl. apply map_Forall_insert_2; [lia | exact Hwf1].
  - rewrite sum_balances_set_balance. simpl. lia.
  - simpl. lia.
Qed.

End erc20_ops.

Lemma approve_frame owner spender amount e e' :
  ERC20._approve owner spender amount e = Ok e' ->
  ERC20._balances e' = ERC20._balances e
  /\ ERC20._totalSupply e' = ERC20._totalSupply e.
Proof.
  unfold ERC20._approve. intros H. ok_steps H. auto.
Qed.

Lemma spendAllowance_frame owner spender amount e e' :
  ERC20._spendAllowance owner spender amount e = Ok e' ->
  ERC20._balances e' = ERC20._balances e
  /\ ERC20._totalSupply e' = ERC20._totalSupply e.
Proof.
  unfold ERC20._spendAllowance. intros H.
  destruct (ERC20.allowance e owner spender =? MAX_UINT256).
  - injection H as <-. auto.
  - ok_steps H. eapply approve_frame, H.
Qed.

Lemma erc20_wf_frame e e' :
  ERC20._balances e' = ERC20._balances e ->
  ERC20._totalSupply e' = ERC20._totalSupply e ->
  Ledger.erc20_wf e -> Ledger.erc20_wf e'.
Proof.
  unfold Ledger.erc20_wf, Ledger.sum_balances. intros -> ->. auto.
Qed.

(** ** What a successful [pledgeAsset] and [releaseAsset] did *)

Lemma checkRole_Ok roles role account u :
  AccessControl._checkRole roles role account = Ok u ->
  AccessControl.hasRole roles role account = true.
Proof.
  unfold AccessControl._checkRole.
  destruct (AccessControl.hasRole roles role account); [reflexivity | discriminate].
Qed.

Lemma checkRole_missing roles role account :
  AccessControl.hasRole roles role account = false ->
  AccessControl._checkRole roles role account = Err (MissingRole account role).
Proof. unfold AccessControl._checkRole. intros ->. reflexivity. Qed.

Lemma checkRole_held roles role account :
  AccessControl.hasRole roles role account = true ->
  AccessControl._checkRole roles role account = Ok tt.
Proof. unfold AccessControl._checkRole. intros ->. reflexivity. Qed.

Lemma asset_set_asset s t a :
  RWAToken.asset (RWAToken.set_asset t a s) t = a.
Proof. unfold RWAToken.asset. simpl. rewrite lookup_insert_eq. reflexivity. Qed.

Lemma pledgeAsset_Ok sender now aid ty descr ov p s s' :
  RWAToken.pledgeAsset sender now aid ty descr ov p s = Ok s' ->
  let tokenId := RWAToken._currentTokenId s in
  let pv := ov * RWAToken.discountRate s / 100 in
  exists hook e',
    ERC20._mint hook p (pv / ONE_E18) (RWAToken.erc20 s) = Ok e'
    /\ RWAToken.hasRole s PLEDGE_MANAGER_ROLE sender = true
    /\ RWAToken._paused s = false
    /\ RWAToken._entered s = false
    /\ RWAToken.tokenIdOf s aid = 0
    /\ 0 < ov
    /\ tokenId + 1 <= MAX_UINT256
    /\ s' = RWAToken.mk e' (RWAToken._roles s) (RWAToken._paused s) false
              (<[tokenId := RWAToken.mkAsset ty descr ov pv aid p now true]> (RWAToken.assets s))
              (<[aid := tokenId]> (RWAToken.assetIdToTokenId s))
              (tokenId + 1)
              (RWAToken.totalPledgedValue s + pv)
              (RWAToken.discountRate s)
              (RWAToken.events s ++ [RWAToken.AssetPledged tokenId aid p ty ov pv (pv / ONE_E18)]).
Proof.
  unfold RWAToken.pledgeAsset, RWAToken.nonReentrant, RWAToken.onlyRole,
    RWAToken.whenNotPaused, RWAToken._mint.
  intros H. ok_steps H.
  match goal with Hm : ERC20._mint ?h _ _ _ = Ok ?e |- _ => exists h, e end.
  simpl in *.
  repeat match goal with Hn : negb _ = true |- _ => apply negb_true_iff in Hn end.
  repeat split; try assumption.
  - eapply checkRole_Ok; eassumption.
  - match goal with Hz : (_ =? 0) = true |- _ => apply Z.eqb_eq in Hz; exact Hz end.
  - match goal with Hz : (0 <? ov) = true |- _ => apply Z.ltb_lt in Hz; exact Hz end.
Qed.

Lemma releaseAsset_Ok sender aid holder n s s' :
  RWAToken.releaseAsset sender aid holder n s = Ok s' ->
  let tokenId := RWAToken.tokenIdOf s aid in
  let a := RWAToken.asset s tokenId in
  let pv := RWAToken.pledgedValue a in
  let released := RWAToken.AssetReleased tokenId aid (RWAToken.pledger a) n in
  exists hook e',
    ERC20._burn hook holder n (RWAToken.erc20 s) = Ok e'
    /\ RWAToken.hasRole s PLEDGE_MANAGER_ROLE sender = true
    /\ RWAToken._paused s = false
    /\ RWAToken._entered s = false
    /\ tokenId <> 0
    /\ RWAToken.isActive a = true
    /\ n <= RWAToken.balanceOf s holder
    /\ ((pv / ONE_E18 <= n /\ pv <= RWAToken.totalPledgedValue s
         /\ s' = RWAToken.mk e' (RWAToken._roles s) (RWAToken._paused s) false
                   (<[tokenId := RWAToken.deactivate a]> (RWAToken.assets s))
                   (RWAToken.assetIdToTokenId s) (RWAToken._currentTokenId s)
                   (RWAToken.totalPledgedValue s - pv) (RWAToken.discountRate s)
                   (RWAToken.events s ++ [released]))
        \/ (n < pv / ONE_E18
            /\ s' = RWAToken.mk e' (RWAToken._roles s) (RWAToken._paused s) false
                      (RWAToken.assets s)
                      (RWAToken.assetIdToTokenId s) (RWAToken._currentTokenId s)
                      (RWAToken.totalPledgedValue s) (RWAToken.discountRate s)
                      (RWAToken.events s ++ [released]))).
Proof.
  unfold RWAToken.releaseAsset, RWAToken.nonReentrant, RWAToken.onlyRole,
    RWAToken.whenNotPaused, RWAToken._burn.
  intros H. ok_steps H.
  match goal with Hm : ERC20._burn ?h _ _ _ = Ok ?e |- _ => exists h, e end.
  simpl in *.
  repeat match goal with Hn : negb _ = true |- _ => apply negb_true_iff in Hn end.
  match goal with Hz : (_ =? 0) = false |- _ => apply Z.eqb_neq in Hz end.
  match goal with Hz : (n <=? _) = true |- _ => apply Z.leb_le in Hz end.
  split; [assumption|]. split; [eapply checkRole_Ok; eassumption|].
  do 5 (split; [assumption|]).
  change (RWAToken.asset (RWAToken.set_erc20 ?e ?x) ?t)
    with (RWAToken.asset x t) in *.
  change (RWAToken.asset (RWAToken.set_entered ?b ?x) ?t)
    with (RWAToken.asset x t) in *.
  change (RWAToken.tokenIdOf (RWAToken.set_entered ?b ?x) ?t)
    with (RWAToken.tokenIdOf x t) in *.
  match goal with Hif : (if ?c then _ else _) = Ok _ |- _ =>
    destruct (Z.leb_spec (RWAToken.pledgedValue (RWAToken.asset s (RWAToken.tokenIdOf s aid)) / ONE_E18) n);
    [ left; rewrite asset_set_asset in Hif; simpl in Hif; ok_steps Hif
    | right; injection Hif as <- ]
  end.
  - simpl. unfold RWAToken.asset at 3. simpl. rewrite lookup_insert_eq. simpl. auto.
  - simpl. auto.
Qed.

(** ** Sums over the asset records *)

Lemma Zsum_cons x l : Ledger.Zsum (x :: l) = x + Ledger.Zsum l.
Proof. reflexivity. Qed.

Lemma Zsum_app l1 l2 : Ledger.Zsum (l1 ++ l2) = Ledger.Zsum l1 + Ledger.Zsum l2.
Proof.
  induction l1 as [|x l1 IH]; [reflexivity|].
  rewrite <- app_comm_cons, !Zsum_cons, IH. lia.
Qed.

Lemma Zsum_fmap_ext (f g : Z -> Z) (l : list Z) :
  (forall x, x ∈ l -> f x = g x) ->
  Ledger.Zsum (f <$> l) = Ledger.Zsum (g <$> l).
Proof.
  induction l as [|x l IH]; intros Hfg; [reflexivity|].
  rewrite !fmap_cons, !Zsum_cons.
  rewrite (Hfg x) by left. rewrite IH; [reflexivity|].
  intros y Hy. apply Hfg. right. exact Hy.
Qed.

Lemma Zsum_fmap_bump (g : Z -> Z) (t n : Z) (l : list Z) :
  NoDup l -> t ∈ l ->
  Ledger.Zsum ((fun id => g id - (if t =? id then n else 0)) <$> l)
  = Ledger.Zsum (g <$> l) - n.
Proof.
  induction l as [|x l IH]; intros Hnd Hin.
  - inversion Hin.
  - apply NoDup_cons in Hnd as [Hx Hnd].
    rewrite !fmap_cons, !Zsum_cons.
    destruct (decide (t = x)) as [->|Hne].
    + rewrite Z.eqb_refl.
      rewrite (Zsum_fmap_ext _ g l); [lia|].
      intros y Hy. destruct (Z.eqb_spec x y) as [->|_]; [contradiction | lia].
    + apply elem_of_cons in Hin as [Heq|Hin]; [contradiction|].
      destruct (Z.eqb_spec t x) as [Heq|_]; [contradiction|].
      rewrite IH by assumption. lia.
Qed.


Lemma redeemed_none_out_of_range (evs : list RWAToken.event) bound id :
  Forall (Ledger.released_in_range bound) evs -> bound <= id ->
  Ledger.Zsum (Ledger.redeemed_by id <$> evs) = 0.
Proof.
  induction 1 as [|e evs He _ IH]; intros Hid; [reflexivity|].
  rewrite fmap_cons, Zsum_cons, IH by exact Hid.
  destruct e; simpl in *; try reflexivity.
  destruct (Z.eqb_spec tokenId id); [lia | reflexivity].
Qed.

Lemma released_in_range_mono bound bound' e :
  bound <= bound' ->
  Ledger.released_in_range bound e -> Ledger.released_in_range bound' e.
Proof. destruct e; simpl; intros; try exact I. lia. Qed.

Lemma tokenIdOf_range s aid :
  Ledger.invariant s -> RWAToken.tokenIdOf s aid <> 0 ->
  1 <= RWAToken.tokenIdOf s aid < RWAToken._currentTokenId s.
Proof.
  intros Hinv. unfold RWAToken.tokenIdOf.
  destruct (RWAToken.assetIdToTokenId s !! aid) as [t|] eqn:Hl; simpl.
  - intros _. exact (Ledger.inv_ids s Hinv aid t Hl).
  - intros Hne. contradiction.
Qed.

(** ** The ledger invariant holds in every reachable state *)

Lemma invariant_constructor admin : Ledger.invariant (RWAToken.constructor admin).
Proof.
  split; simpl.
  - repeat split.
    + apply map_Forall_empty.
    + pose proof MAX_UINT256_pos. simpl. lia.
  - lia.
  - apply map_Forall_empty.
  - constructor.
  - lia.
  - reflexivity.
  - reflexivity.
Qed.

Lemma invariant_frame s s' :
  Ledger.invariant s ->
  Ledger.erc20_wf (RWAToken.erc20 s') ->
  ERC20._totalSupply (RWAToken.erc20 s') = ERC20._totalSupply (RWAToken.erc20 s) ->
  RWAToken._currentTokenId s' = RWAToken._currentTokenId s ->
  RWAToken.assetIdToTokenId s' = RWAToken.assetIdToTokenId s ->
  RWAToken.assets s' = RWAToken.assets s ->
  0 < RWAToken.discountRate s' <= 100 ->
  RWAToken._entered s' = RWAToken._entered s ->
  (RWAToken.events s' = RWAToken.events s
   \/ exists o n, RWAToken.events s' = RWAToken.events s ++ [RWAToken.DiscountRateUpdated o n]) ->
  Ledger.invariant s'.
Proof.
  intros [Hwf Hc Hids Hev Hrate Hguard Hsup] Hwf' Hts Hcur Hmap Hassets Hrate' Hguard'
    Hevents.
  assert (Hred : forall id, Ledger.tokensRedeemed s' id = Ledger.tokensRedeemed s id).
  { intros id. unfold Ledger.tokensRedeemed.
    destruct Hevents as [->|(o & n & ->)]; [reflexivity|].
    rewrite fmap_app, Zsum_app, fmap_cons, Zsum_cons. simpl. lia. }
  split.
  - exact Hwf'.
  - rewrite Hcur. exact Hc.
  - rewrite Hcur, Hmap. exact Hids.
  - rewrite Hcur. destruct Hevents as [->|(o & n & ->)]; [exact Hev|].
    apply Forall_app. split; [exact Hev|]. repeat constructor.
  - exact Hrate'.
  - rewrite Hguard'. exact Hguard.
  - rewrite Hts, Hsup. unfold Ledger.outstanding, Ledger.tokenIds. rewrite Hcur.
    apply Zsum_fmap_ext. intros id _. rewrite Hred.
    unfold Ledger.tokensIssued, RWAToken.asset. rewrite Hassets. reflexivity.
Qed.

Lemma invariant_pledgeAsset sender now aid ty descr ov p s s' :
  Ledger.invariant s ->
  RWAToken.pledgeAsset sender now aid ty descr ov p s = Ok s' ->
  Ledger.invariant s'.
Proof.
  intros Hinv H.
  apply pledgeAsset_Ok in H as (hook & e' & Hmint & _ & _ & _ & _ & Hov & Hnext & ->).
  destruct Hinv as [Hwf Hc Hids Hev Hrate Hguard Hsup].
  set (cur := RWAToken._currentTokenId s) in *.
  set (pv := ov * RWAToken.discountRate s / 100).
  assert (Hpv : 0 <= pv / ONE_E18).
  { apply Z.div_pos; [|reflexivity]. apply Z.div_pos; [nia | lia]. }
  destruct (mint_spec hook p (pv / ONE_E18) _ e' Hmint Hwf Hpv)
    as (Hwf' & Hts & _).
  split; simpl.
  - exact Hwf'.
  - lia.
  - apply map_Forall_insert_2; [lia|].
    eapply map_Forall_impl; [exact Hids|]. simpl. intros; lia.
  - apply Forall_app. split.
    + eapply Forall_impl; [exact Hev|]. intros e. apply released_in_range_mono. lia.
    + repeat constructor.
  - exact Hrate.
  - reflexivity.
  - rewrite Hts, Hsup. unfold Ledger.outstanding, Ledger.tokenIds. simpl.
    replace (cur + 1 - 1) with ((cur - 1) + 1) by lia.
    rewrite seqZ_app by lia. rewrite fmap_app, Zsum_app.
    replace (1 + (cur - 1)) with cur by lia.
    rewrite (seqZ_cons cur 1) by lia. rewrite (seqZ_nil _ (Z.pred 1)) by lia.
    rewrite fmap_cons, Zsum_cons. simpl.
    f_equal.
    + apply Zsum_fmap_ext. intros id Hid. apply elem_of_seqZ in Hid.
      unfold Ledger.tokensIssued, Ledger.tokensRedeemed, RWAToken.asset. simpl.
      rewrite lookup_insert_ne by lia.
      rewrite fmap_app, Zsum_app, fmap_cons, Zsum_cons. simpl. lia.
    + unfold Ledger.tokensIssued, Ledger.tokensRedeemed, RWAToken.asset. simpl.
      rewrite lookup_insert_eq. simpl.
      rewrite fmap_app, Zsum_app, fmap_cons, Zsum_cons. simpl.
      rewrite (redeemed_none_out_of_range _ cur cur Hev) by lia.
      fold pv. lia.
Qed.

Lemma invariant_releaseAsset sender aid holder n s s' :
  Ledger.invariant s -> 0 <= n ->
  RWAToken.releaseAsset sender aid holder n s = Ok s' ->
  Ledger.invariant s'.
Proof.
  intros Hinv Hn H.
  pose proof (tokenIdOf_range s aid Hinv) as Hrange.
  apply releaseAsset_Ok in H
    as (hook & e' & Hburn & _ & _ & _ & Hne & _ & _ & Hcases).
  specialize (Hrange Hne).
  destruct Hinv as [Hwf Hc Hids Hev Hrate Hguard Hsup].
  destruct (burn_spec hook holder n _ e' Hburn Hwf Hn) as (Hwf' & Hts & _).
  set (t := RWAToken.tokenIdOf s aid) in *.
  assert (Hout : forall assets',
    (forall id, RWAToken.pledgedValue (default RWAToken.zeroAsset (assets' !! id))
                = RWAToken.pledgedValue (RWAToken.asset s id)) ->
    forall r pa en pz tot dr ev0,
    ERC20._totalSupply e'
    = Ledger.outstanding
        (RWAToken.mk e' r pa en assets' pz (RWAToken._currentTokenId s) tot dr
           (RWAToken.events s ++ [RWAToken.AssetReleased t aid ev0 n]))).
  { intros assets' Hsame r pa en pz tot dr ev0.
    rewrite Hts, Hsup. unfold Ledger.outstanding, Ledger.tokenIds. simpl.
    rewrite <- (Zsum_fmap_bump _ t n).
    - apply Zsum_fmap_ext. intros id _.
      unfold Ledger.tokensIssued, Ledger.tokensRedeemed, RWAToken.asset at 2. simpl.
      rewrite Hsame. rewrite fmap_app, Zsum_app, fmap_cons, Zsum_cons. simpl.
      unfold Ledger.tokensRedeemed. lia.
    - apply NoDup_seqZ.
    - apply elem_of_seqZ. lia. }
  destruct Hcases as [(_ & _ & ->)|(_ & ->)]; split; simpl;
    try assumption; try reflexivity;
    try (apply Forall_app; split; [exact Hev | repeat constructor; simpl; lia]).
  - apply Hout. intros id. unfold RWAToken.asset.
    destruct (decide (t = id)) as [<-|Hneq].
    + rewrite lookup_insert_eq. reflexivity.
    + rewrite lookup_insert_ne by exact Hneq. reflexivity.
  - apply Hout. intros id. reflexivity.
Qed.

Lemma uint256_nonneg z : is_uint256 z = true -> 0 <= z <= MAX_UINT256.
Proof. unfold is_uint256. intros H. apply andb_true_iff in H as [H1 H2]. lia. Qed.

Lemma invariant_erc20_frame s e' :
  Ledger.invariant s ->
  ERC20._balances e' = ERC20._balances (RWAToken.erc20 s) ->
  ERC20._totalSupply e' = ERC20._totalSupply (RWAToken.erc20 s) ->
  Ledger.invariant (RWAToken.set_erc20 e' s).
Proof.
  intros Hinv Hb Ht.
  apply (invariant_frame s); simpl; auto.
  - eapply erc20_wf_frame; eauto. apply Hinv.
  - apply Hinv.
Qed.

Lemma invariant_dispatch sender now c s s' :
  Ledger.invariant s ->
  RWAToken.well_formed c = true ->
  RWAToken.dispatch sender now c s = Ok s' ->
  Ledger.invariant s'.
Proof.
  intros Hinv Hwf H. destruct c; simpl in H, Hwf.
  - eapply invariant_pledgeAsset; eauto.
  - apply andb_true_iff in Hwf as [_ Hn]. apply uint256_nonneg in Hn.
    eapply invariant_releaseAsset; eauto. lia.
  - unfold RWAToken.setDiscountRate in H. ok_steps H.
    apply andb_true_iff in Hreq as [H1 H2].
    apply (invariant_frame s); simpl; auto; try apply Hinv.
    + lia.
    + right. eauto.
  - unfold RWAToken.pause in H. ok_steps H.
    apply (invariant_frame s); simpl; auto; apply Hinv.
  - unfold RWAToken.unpause in H. ok_steps H.
    apply (invariant_frame s); simpl; auto; apply Hinv.
  - apply fmap_Ok in H as ([s1 ok] & H & ->).
    unfold RWAToken.transfer, ERC20.transfer in H. ok_steps H.
    injection H as <- <-. simpl.
    apply andb_true_iff in Hwf as [_ Hn]. apply uint256_nonneg in Hn.
    match goal with Ht : ERC20._transfer _ _ _ _ _ = Ok _ |- _ =>
      eapply transfer_spec in Ht as (Hwf' & Hts & _); [| apply Hinv | lia] end.
    apply (invariant_frame s); simpl; auto; apply Hinv.
  - apply fmap_Ok in H as ([s1 ok] & H & ->).
    unfold RWAToken.transferFrom, ERC20.transferFrom in H. ok_steps H.
    injection H as <- <-. simpl.
    apply andb_true_iff in Hwf as [_ Hn]. apply uint256_nonneg in Hn.
    match goal with Hsp : ERC20._spendAllowance _ _ _ _ = Ok _ |- _ =>
      apply spendAllowance_frame in Hsp as [Hb1 Ht1] end.
    match goal with Ht : ERC20._transfer _ _ _ _ _ = Ok _ |- _ =>
      eapply transfer_spec in Ht as (Hwf' & Hts & _);
        [| eapply erc20_wf_frame; [exact Hb1 | exact Ht1 | apply Hinv] | lia] end.
    apply (invariant_frame s); simpl; auto; try apply Hinv. congruence.
  - apply fmap_Ok in H as ([s1 ok] & H & ->).
    unfold RWAToken.approve, ERC20.approve in H. ok_steps H.
    injection H as <- <-. simpl.
    match goal with Ha : ERC20._approve _ _ _ _ = Ok _ |- _ =>
      apply approve_frame in Ha as [Hb1 Ht1] end.
    apply invariant_erc20_frame; assumption.
  - apply fmap_Ok in H as ([s1 ok] & H & ->).
    unfold RWAToken.increaseAllowance, ERC20.increaseAllowance in H. ok_steps H.
    injection H as <- <-. simpl.
    match goal with Ha : ERC20._approve _ _ _ _ = Ok _ |- _ =>
      apply approve_frame in Ha as [Hb1 Ht1] end.
    apply invariant_erc20_frame; assumption.
  - apply fmap_Ok in H as ([s1 ok] & H & ->).
    unfold RWAToken.decreaseAllowance, ERC20.decreaseAllowance in H. ok_steps H.
    injection H as <- <-. simpl.
    match goal with Ha : ERC20._approve _ _ _ _ = Ok _ |- _ =>
      apply approve_frame in Ha as [Hb1 Ht1] end.
    apply invariant_erc20_frame; assumption.
  - unfold RWAToken.grantRole, AccessControl.grantRole in H. ok_steps H.
    apply (invariant_frame s); simpl; auto; apply Hinv.
  - unfold RWAToken.revokeRole, AccessControl.revokeRole in H. ok_steps H.
    apply (invariant_frame s); simpl; auto; apply Hinv.
  - unfold RWAToken.renounceRole, AccessControl.renounceRole in H. ok_steps H.
    apply (invariant_frame s); simpl; auto; apply Hinv.
Qed.

Lemma reachable_invariant admin s :
  Ledger.reachable admin s -> Ledger.invariant s.
Proof.
  induction 1 as [|s sender now c _ IH Hwf].
  - apply invariant_constructor.
  - unfold RWAToken.exec.
    destruct (RWAToken.dispatch sender now c s) as [s'|e] eqn:Hd; simpl.
    + eapply invariant_dispatch; eauto.
    + exact IH.
Qed.



(** ** Once released, an asset stays released *)

Lemma dispatch_registry_frame sender now c s s' :
  RWAToken.dispatch sender now c s = Ok s' ->
  match c with
  | RWAToken.PledgeAsset _ _ _ _ _ | RWAToken.ReleaseAsset _ _ _ => True
  | _ => RWAToken.assets s' = RWAToken.assets s
         /\ RWAToken.assetIdToTokenId s' = RWAToken.assetIdToTokenId s
  end.
Proof.
  intros H. destruct c; simpl in H; try exact I;
    try (apply fmap_Ok in H as ([s1 ok] & H & ->));
    unfold RWAToken.setDiscountRate, RWAToken.pause, RWAToken.unpause,
      RWAToken.transfer, RWAToken.transferFrom, RWAToken.approve,
      RWAToken.increaseAllowance, RWAToken.decreaseAllowance,
      RWAToken.grantRole, RWAToken.revokeRole, RWAToken.renounceRole in H;
    ok_steps H;
    try (injection H as <- <-);
    simpl; auto.
Qed.

Lemma asset_stable sender now c s s' aid :
  Ledger.invariant s ->
  RWAToken.dispatch sender now c s = Ok s' ->
  RWAToken.tokenIdOf s aid <> 0 ->
  let t := RWAToken.tokenIdOf s aid in
  RWAToken.tokenIdOf s' aid = t
  /\ (RWAToken.asset s' t = RWAToken.asset s t
      \/ RWAToken.asset s' t = RWAToken.deactivate (RWAToken.asset s t)).
Proof.
  intros Hinv H Hne.
  pose proof (tokenIdOf_range s aid Hinv Hne) as Hrange.
  pose proof (dispatch_registry_frame _ _ _ _ _ H) as Hframe.
  destruct c; simpl in H;
    [ | | destruct Hframe as [Ha Hi];
          unfold RWAToken.tokenIdOf, RWAToken.asset in *; rewrite Ha, Hi; auto .. ].
  - apply pledgeAsset_Ok in H as (hook & e' & _ & _ & _ & _ & Hfree & _ & _ & ->).
    assert (Haid : assetId <> aid) by (intros ->; contradiction).
    unfold RWAToken.tokenIdOf, RWAToken.asset in *. simpl.
    rewrite lookup_insert_ne by exact Haid. split; [reflexivity|].
    rewrite lookup_insert_ne by lia. left. reflexivity.
  - apply releaseAsset_Ok in H as (hook & e' & _ & _ & _ & _ & _ & _ & _ & Hcases).
    destruct Hcases as [(_ & _ & ->)|(_ & ->)];
      unfold RWAToken.tokenIdOf, RWAToken.asset in *; simpl; split; auto.
    destruct (decide (default 0 (RWAToken.assetIdToTokenId s !! assetId)
                      = default 0 (RWAToken.assetIdToTokenId s !! aid))) as [Heq|Hneq].
    + rewrite Heq, lookup_insert_eq. right. reflexivity.
    + rewrite lookup_insert_ne by exact Hneq. left. reflexivity.
Qed.

Lemma invariant_later s s' :
  Ledger.invariant s -> Ledger.later s s' -> Ledger.invariant s'.
Proof.
  intros Hs Hlater.
  induction Hlater as [|s s' sender now c _ IH Hwf]; [exact Hs|].
  specialize (IH Hs). unfold RWAToken.exec.
  destruct (RWAToken.dispatch sender now c s') as [s''|e] eqn:Hd; simpl.
  - exact (invariant_dispatch _ _ _ _ _ IH Hwf Hd).
  - exact IH.
Qed.

Lemma asset_later s s' aid :
  Ledger.invariant s ->
  Ledger.later s s' ->
  RWAToken.tokenIdOf s aid <> 0 ->
  let t := RWAToken.tokenIdOf s aid in
  RWAToken.tokenIdOf s' aid = t
  /\ RWAToken.pledgedValue (RWAToken.asset s' t) = RWAToken.pledgedValue (RWAToken.asset s t)
  /\ (RWAToken.isActive (RWAToken.asset s t) = false ->
      RWAToken.isActive (RWAToken.asset s' t) = false).
Proof.
  intros Hs Hlater Hne t.
  induction Hlater as [|s s' sender now c Hlater IH Hwf]; [auto|].
  destruct (IH Hs Hne) as (Hid & Hpv & Hoff). fold t in Hid, Hpv, Hoff.
  unfold RWAToken.exec.
  destruct (RWAToken.dispatch sender now c s') as [s''|e] eqn:Hd; simpl; [|auto].
  assert (Hinv : Ledger.invariant s') by (eapply invariant_later; eauto).
  pose proof (asset_stable _ _ _ _ _ aid Hinv Hd) as Hst.
  cbv zeta in Hst. rewrite Hid in Hst.
  destruct (Hst Hne) as [Hid' Hrec].
  split; [exact Hid'|].
  destruct Hrec as [Hrec|Hrec]; rewrite Hrec; simpl; auto.
Qed.

Lemma releaseAsset_inactive sender aid holder n s :
  RWAToken.tokenIdOf s aid <> 0 ->
  RWAToken.isActive (RWAToken.asset s (RWAToken.tokenIdOf s aid)) = false ->
  exists e, RWAToken.releaseAsset sender aid holder n s = Err e
    /\ (RWAToken.hasRole s PLEDGE_MANAGER_ROLE sender = true ->
        RWAToken._paused s = false -> RWAToken._entered s = false ->
        e = Revert "Asset is not active").
Proof.
  intros Hne Hoff.
  destruct (RWAToken.releaseAsset sender aid holder n s) as [s'|e] eqn:H.
  - apply releaseAsset_Ok in H as (_ & _ & _ & _ & _ & _ & _ & Hon & _). congruence.
  - exists e. split; [reflexivity|]. intros Hrole Hp He.
    unfold RWAToken.releaseAsset, RWAToken.onlyRole, RWAToken.whenNotPaused,
      RWAToken.nonReentrant in H.
    rewrite (checkRole_held _ _ _ Hrole) in H. rewrite Hp, He in H. simpl in H.
    change (RWAToken.tokenIdOf (RWAToken.set_entered true s) aid)
      with (RWAToken.tokenIdOf s aid) in H.
    change (RWAToken.asset (RWAToken.set_entered true s) (RWAToken.tokenIdOf s aid))
      with (RWAToken.asset s (RWAToken.tokenIdOf s aid)) in H.
    apply Z.eqb_neq in Hne. rewrite Hne, Hoff in H. simpl in H. congruence.
Qed.

(** ** Asset registration and release *)

(** C1. Every successful [pledgeAsset] (the spec's registerAsset) was called
    with [originalValue > 0], stores a record whose
    [pledgedValue = floor(originalValue * discountRate / 100)] for the rate
    in force, mints exactly [pledgedValue / 1e18] balance units to the
    beneficiary, and records that number as [tokensIssued] in the
    [AssetPledged] event. *)
Theorem pledgeAsset_pledged_value_and_mint
    admin sender now aid ty descr ov p s s' :
  Ledger.reachable admin s ->
  RWAToken.pledgeAsset sender now aid ty descr ov p s = Ok s' ->
  let tokenId := RWAToken._currentTokenId s in
  let record := RWAToken.asset s' tokenId in
  let issued := RWAToken.pledgedValue record / ONE_E18 in
  0 < ov
  /\ RWAToken.tokenIdOf s' aid = tokenId
  /\ RWAToken.originalValue record = ov
  /\ RWAToken.pledgedValue record = ov * RWAToken.discountRate s / 100
  /\ RWAToken.isActive record = true
  /\ RWAToken.balanceOf s' p = RWAToken.balanceOf s p + issued
  /\ (forall b, b <> p -> RWAToken.balanceOf s' b = RWAToken.balanceOf s b)
  /\ RWAToken.totalSupply s' = RWAToken.totalSupply s + issued
  /\ RWAToken.events s'
     = RWAToken.events s
       ++ [RWAToken.AssetPledged tokenId aid p ty ov (RWAToken.pledgedValue record) issued].
Proof.
  intros Hreach H. apply reachable_invariant in Hreach as Hinv.
  apply pledgeAsset_Ok in H as (hook & e' & Hmint & _ & _ & _ & _ & Hov & _ & ->).
  pose proof (Ledger.inv_rate s Hinv) as Hrate.
  assert (Hpv : 0 <= ov * RWAToken.discountRate s / 100 / ONE_E18).
  { apply Z.div_pos; [|reflexivity]. apply Z.div_pos; [nia | lia]. }
  destruct (mint_spec hook p _ _ e' Hmint (Ledger.inv_erc20 s Hinv) Hpv)
    as (_ & Hts & Hbal & Hother & _).
  unfold RWAToken.asset, RWAToken.tokenIdOf, RWAToken.balanceOf, RWAToken.totalSupply,
    ERC20.totalSupply.
  simpl. rewrite !lookup_insert_eq. simpl.
  repeat split; auto.
Qed.

Lemma pledgeAsset_pledged_value_and_mint_witness :
  RWAToken.pledgedValue (RWAToken.asset Scenario.ledger1 1) = 70000 * ONE_E18
  /\ RWAToken.balanceOf Scenario.ledger1 Scenario.admin = 70000.
Proof.
  assert (Hrun : RWAToken.pledgeAsset Scenario.admin 1000 "asset-1" "real_estate"
                   "villa" Scenario.hundred_thousand Scenario.admin Scenario.ledger0
                 = Ok Scenario.ledger1) by (vm_compute; reflexivity).
  destruct (pledgeAsset_pledged_value_and_mint Scenario.admin _ _ _ _ _ _ _ _ _
              (Ledger.reachable_init Scenario.admin) Hrun)
    as (_ & _ & _ & Hpv & _ & Hbal & _).
  split.
  - vm_compute in Hpv |- *. exact Hpv.
  - vm_compute in Hbal |- *. exact Hbal.
Defined.

(** C3. In every state reachable by any sequence of ledger transactions the
    sum of all balances is the total supply, and it equals the sum over all
    asset records of the tokens issued for the asset minus the tokens
    redeemed against it so far. *)
Theorem supply_conservation admin s :
  Ledger.reachable admin s ->
  Ledger.sum_balances (RWAToken.erc20 s) = RWAToken.totalSupply s
  /\ RWAToken.totalSupply s
     = Ledger.Zsum ((fun id => Ledger.tokensIssued s id - Ledger.tokensRedeemed s id)
                      <$> Ledger.tokenIds s).
Proof.
  intros Hreach. apply reachable_invariant in Hreach as [Hwf _ _ _ _ _ Hsup].
  split.
  - apply Hwf.
  - exact Hsup.
Qed.

Lemma supply_conservation_witness :
  Ledger.sum_balances (RWAToken.erc20 Scenario.ledger_partial) = 50000
  /\ Ledger.tokensIssued Scenario.ledger_partial 1
     - Ledger.tokensRedeemed Scenario.ledger_partial 1 = 50000.
Proof.
  assert (Hreach : Ledger.reachable Scenario.admin Scenario.ledger_partial).
  { apply Ledger.reachable_step; [|reflexivity].
    apply Ledger.reachable_step; [|reflexivity].
    apply Ledger.reachable_init. }
  destruct (supply_conservation Scenario.admin Scenario.ledger_partial Hreach)
    as [Hsum Hout].
  split.
  - rewrite Hsum. vm_compute. reflexivity.
  - vm_compute. reflexivity.
Defined.

(** The sum is over the integers: [releaseAsset] burns the amount it is
    given, whatever the asset issued, so one asset's term can be negative
    while the total still matches the supply. *)
Example over_redemption_balances_out :
  Ledger.tokensIssued Scenario.ledger_over_redeemed 1
  - Ledger.tokensRedeemed Scenario.ledger_over_redeemed 1 = -700
  /\ Ledger.tokensIssued Scenario.ledger_over_redeemed 2
     - Ledger.tokensRedeemed Scenario.ledger_over_redeemed 2 = 700
  /\ RWAToken.totalSupply Scenario.ledger_over_redeemed = 0.
Proof. repeat split; vm_compute; reflexivity. Qed.

(** C4. After a successful [pledgeAsset], a successful [releaseAsset] of the
    same asset id for at least the issued token amount switches the record's
    [isActive] flag off and lowers [totalPledgedValue] by exactly the asset's
    [pledgedValue]. Any later [releaseAsset] on that asset id, right away or
    after any further transactions, reverts, with "Asset is not active" for
    a caller holding the role on an unpaused ledger, and leaves the whole
    state, so the accumulator and the flag, as they were: the subtraction
    happens once. *)
Theorem release_round_trip
    admin sender now aid ty descr ov p s s1 s1' sender' holder n s2 :
  Ledger.reachable admin s ->
  RWAToken.pledgeAsset sender now aid ty descr ov p s = Ok s1 ->
  Ledger.later s1 s1' ->
  RWAToken.releaseAsset sender' aid holder n s1' = Ok s2 ->
  Ledger.tokensIssued s1 (RWAToken.tokenIdOf s1 aid) <= n ->
  let t := RWAToken.tokenIdOf s1 aid in
  let pv := RWAToken.pledgedValue (RWAToken.asset s1 t) in
  pv = ov * RWAToken.discountRate s / 100
  /\ RWAToken.isActive (RWAToken.asset s1 t) = true
  /\ RWAToken.isActive (RWAToken.asset s2 t) = false
  /\ RWAToken.totalPledgedValue s2 = RWAToken.totalPledgedValue s1' - pv
  /\ (forall caller now' holder' n',
        RWAToken.hasRole s2 PLEDGE_MANAGER_ROLE caller = true ->
        RWAToken.exec caller now' (RWAToken.ReleaseAsset aid holder' n') s2
        = (s2, Some (Revert "Asset is not active")))
  /\ (forall s3, Ledger.later s2 s3 ->
      forall caller now' holder' n',
        exists e,
          RWAToken.exec caller now' (RWAToken.ReleaseAsset aid holder' n') s3
          = (s3, Some e)
          /\ (RWAToken.hasRole s3 PLEDGE_MANAGER_ROLE caller = true ->
              RWAToken._paused s3 = false ->
              e = Revert "Asset is not active")).
Proof.
  intros Hreach Hpledge Hlater Hrelease Hfull t pv.
  apply reachable_invariant in Hreach as Hinv.
  pose proof (invariant_pledgeAsset _ _ _ _ _ _ _ _ _ Hinv Hpledge) as Hinv1.
  pose proof (invariant_later _ _ Hinv1 Hlater) as Hinv1'.
  assert (Hfacts : t = RWAToken._currentTokenId s
                   /\ pv = ov * RWAToken.discountRate s / 100
                   /\ RWAToken.isActive (RWAToken.asset s1 t) = true).
  { apply pledgeAsset_Ok in Hpledge as (hook & e' & _ & _ & _ & _ & _ & _ & _ & ->).
    subst pv t. unfold RWAToken.tokenIdOf, RWAToken.asset. simpl.
    rewrite !lookup_insert_eq. simpl. auto. }
  destruct Hfacts as (Ht & Hpv & Hon).
  assert (Hne : RWAToken.tokenIdOf s1 aid <> 0).
  { fold t. pose proof (Ledger.inv_counter s Hinv). lia. }
  destruct (asset_later s1 s1' aid Hinv1 Hlater Hne) as (Hid & Hpv' & _).
  fold t in Hid, Hpv'.
  assert (Hn : 0 <= n).
  { unfold Ledger.tokensIssued in Hfull. fold t pv in Hfull.
    pose proof (Ledger.inv_rate s Hinv) as Hrate.
    assert (0 < ov).
    { apply pledgeAsset_Ok in Hpledge as (_ & _ & _ & _ & _ & _ & _ & Hov & _). exact Hov. }
    assert (0 <= pv / ONE_E18).
    { rewrite Hpv. apply Z.div_pos; [|reflexivity]. apply Z.div_pos; [nia | lia]. }
    lia. }
  pose proof (invariant_releaseAsset _ _ _ _ _ _ Hinv1' Hn Hrelease) as Hinv2.
  apply releaseAsset_Ok in Hrelease
    as (hook & e' & _ & _ & Hpaused & _ & _ & _ & _ & Hcases).
  rewrite Hid, Hpv' in Hcases. fold pv in Hcases.
  unfold Ledger.tokensIssued in Hfull. fold t pv in Hfull.
  destruct Hcases as [(_ & _ & Hs2)|(Hlt & _)]; [|lia].
  assert (Hoff : RWAToken.isActive (RWAToken.asset s2 t) = false).
  { rewrite Hs2. unfold RWAToken.asset. simpl. rewrite lookup_insert_eq. reflexivity. }
  assert (Hid2 : RWAToken.tokenIdOf s2 aid = t).
  { rewrite Hs2. unfold RWAToken.tokenIdOf. simpl. exact Hid. }
  assert (Hquiet : RWAToken._paused s2 = false /\ RWAToken._entered s2 = false).
  { rewrite Hs2. simpl. auto. }
  split; [exact Hpv|]. split; [exact Hon|]. split; [exact Hoff|].
  split; [rewrite Hs2; reflexivity|].
  split.
  - intros caller now' holder' n' Hrole.
    destruct (releaseAsset_inactive caller aid holder' n' s2) as (e & He & Hwhy).
    + rewrite Hid2. fold t in Hne. exact Hne.
    + rewrite Hid2. exact Hoff.
    + unfold RWAToken.exec. simpl. rewrite He.
      rewrite (Hwhy Hrole (proj1 Hquiet) (proj2 Hquiet)). reflexivity.
  - intros s3 Hlater3 caller now' holder' n'.
    assert (Hne2 : RWAToken.tokenIdOf s2 aid <> 0) by (rewrite Hid2; exact Hne).
    destruct (asset_later s2 s3 aid Hinv2 Hlater3 Hne2) as (Hid3 & _ & Hoff3).
    rewrite Hid2 in Hid3, Hoff3. specialize (Hoff3 Hoff).
    destruct (releaseAsset_inactive caller aid holder' n' s3) as (e & He & Hwhy).
    + rewrite Hid3. exact Hne.
    + rewrite Hid3. exact Hoff3.
    + exists e. unfold RWAToken.exec. simpl. rewrite He.
      split; [reflexivity|]. intros Hrole Hunpaused.
      apply (Hwhy Hrole Hunpaused).
      exact (Ledger.inv_guard s3 (invariant_later s2 s3 Hinv2 Hlater3)).
Qed.

Lemma release_round_trip_witness :
  RWAToken.isActive (RWAToken.asset Scenario.ledger2 1) = false
  /\ RWAToken.totalPledgedValue Scenario.ledger2 = 0
  /\ RWAToken.exec Scenario.admin 3000
       (RWAToken.ReleaseAsset "asset-1" Scenario.admin 0) Scenario.ledger2
     = (Scenario.ledger2, Some (Revert "Asset is not active")).
Proof.
  assert (Hpledge : RWAToken.pledgeAsset Scenario.admin 1000 "asset-1" "real_estate"
                      "villa" Scenario.hundred_thousand Scenario.admin Scenario.ledger0
                    = Ok Scenario.ledger1) by (vm_compute; reflexivity).
  assert (Hrelease : RWAToken.releaseAsset Scenario.admin "asset-1" Scenario.admin 70000
                       Scenario.ledger1
                     = Ok Scenario.ledger2) by (vm_compute; reflexivity).
  assert (Hfull : Ledger.tokensIssued Scenario.ledger1
                    (RWAToken.tokenIdOf Scenario.ledger1 "asset-1") <= 70000)
    by (vm_compute; discriminate).
  destruct (release_round_trip Scenario.admin _ _ _ _ _ _ _ _ _ _ _ _ _ _
              (Ledger.reachable_init Scenario.admin) Hpledge
              (Ledger.later_refl Scenario.ledger1) Hrelease Hfull)
    as (_ & _ & Hoff & Htotal & Hagain & _).
  split; [|split].
  - exact Hoff.
  - rewrite Htotal. vm_compute. reflexivity.
  - apply Hagain. vm_compute. reflexivity.
Defined.

(** ** The pledge registry *)


(** What a successful [createPledge] did. *)
Lemma createPledge_Ok sender now id cl aid ty descr ov doc w w' :
  PledgeManager.createPledge sender now id cl aid ty descr ov doc w = Ok w' ->
  let spread := PledgeManager.spreadPercentage (PledgeManager.manager w) in
  let dv := ov * RWAToken.discountRate (PledgeManager.rwaToken w) / 100 in
  let cp := dv * (100 - spread) / 100 in
  exists token',
    RWAToken.pledgeAsset (PledgeManager.this w) now aid ty descr ov
      (PledgeManager.this w) (PledgeManager.rwaToken w) = Ok token'
    /\ PledgeManager.hasRole w OPERATOR_ROLE sender = true
    /\ PledgeManager._paused (PledgeManager.manager w) = false
    /\ PledgeManager._entered (PledgeManager.manager w) = false
    /\ cl <> 0 /\ 0 < ov /\ spread <= 100
    /\ PledgeManager.timestamp (PledgeManager.getPledgeAgreement w id) = 0
    /\ PledgeManager.getPledgeAgreement w' id
       = PledgeManager.mkPledge id cl aid ty descr ov dv (dv / ONE_E18) cp now
           PledgeManager.ACTIVE doc
    /\ (forall id', id' <> id ->
          PledgeManager.getPledgeAgreement w' id' = PledgeManager.getPledgeAgreement w id')
    /\ PledgeManager.rwaToken w' = token'
    /\ PledgeManager.usdtToken w' = PledgeManager.usdtToken w
    /\ PledgeManager.this w' = PledgeManager.this w
    /\ PledgeManager._roles (PledgeManager.manager w') = PledgeManager._roles (PledgeManager.manager w)
    /\ PledgeManager._paused (PledgeManager.manager w') = false
    /\ PledgeManager._entered (PledgeManager.manager w') = false
    /\ PledgeManager.spreadPercentage (PledgeManager.manager w') = spread
    /\ (0 <? Z.of_nat (String.length id)) = true.
Proof.
  unfold PledgeManager.createPledge, PledgeManager.nonReentrant,
    PledgeManager.onlyRole, PledgeManager.whenNotPaused.
  intros H. ok_steps H. simpl in *.
  repeat match goal with Hn : negb _ = true |- _ => apply negb_true_iff in Hn end.
  match goal with Hp : RWAToken.pledgeAsset _ _ _ _ _ _ _ _ = Ok ?t |- _ => exists t end.
  split; [assumption|]. split; [eapply checkRole_Ok; eassumption|].
  do 2 (split; [assumption|]).
  split; [apply Z.eqb_neq; assumption|].
  split; [apply Z.ltb_lt; assumption|].
  split; [assumption|].
  split; [apply Z.eqb_eq; assumption|].
  split.
  { unfold PledgeManager.getPledgeAgreement. simpl.
    rewrite !lookup_insert_eq. reflexivity. }
  split.
  { intros id' Hne. unfold PledgeManager.getPledgeAgreement. simpl.
    rewrite !lookup_insert_ne by congruence. reflexivity. }
  repeat split; assumption.
Qed.

Lemma setSpreadPercentage_Ok sender newSpread w w' :
  PledgeManager.setSpreadPercentage sender newSpread w = Ok w' ->
  PledgeManager.hasRole w DEFAULT_ADMIN_ROLE sender = true
  /\ newSpread <= 50
  /\ PledgeManager.spreadPercentage (PledgeManager.manager w') = newSpread
  /\ PledgeManager.pledgeAgreements (PledgeManager.manager w')
     = PledgeManager.pledgeAgreements (PledgeManager.manager w).
Proof.
  unfold PledgeManager.setSpreadPercentage, PledgeManager.onlyRole.
  intros H. ok_steps H. simpl.
  split; [eapply checkRole_Ok; eassumption|].
  split; [apply Z.leb_le; assumption|]. auto.
Qed.

(** An agreement, once written, changes in its [status] only, and only to
    REPAID. *)
Lemma manager_dispatch_agreement sender now c w w' id :
  PledgeManager.dispatch sender now c w = Ok w' ->
  PledgeManager.timestamp (PledgeManager.getPledgeAgreement w id) <> 0 ->
  PledgeManager.getPledgeAgreement w' id = PledgeManager.getPledgeAgreement w id
  \/ PledgeManager.getPledgeAgreement w' id
     = PledgeManager.set_status PledgeManager.REPAID
         (PledgeManager.getPledgeAgreement w id).
Proof.
  intros H Hts. destruct c; simpl in H.
  - apply createPledge_Ok in H
      as (_ & _ & _ & _ & _ & _ & _ & _ & Hfree & _ & Hother & _).
    left. apply Hother. intros ->. contradiction.
  - unfold PledgeManager.payClient, PledgeManager.nonReentrant in H.
    ok_steps H. left. reflexivity.
  - unfold PledgeManager.purchaseTokens, PledgeManager.nonReentrant in H.
    ok_steps H. left. reflexivity.
  - unfold PledgeManager.repayPledge, PledgeManager.nonReentrant in H.
    ok_steps H. unfold PledgeManager.getPledgeAgreement. simpl.
    destruct (decide (agreementId = id)) as [->|Hne].
    + rewrite lookup_insert_eq. right. reflexivity.
    + rewrite lookup_insert_ne by exact Hne. left. reflexivity.
  - unfold PledgeManager.setSpreadPercentage in H. ok_steps H. left. reflexivity.
  - unfold PledgeManager.withdrawRevenue in H. ok_steps H. left. reflexivity.
  - unfold PledgeManager.pause in H. ok_steps H. left. reflexivity.
  - unfold PledgeManager.unpause in H. ok_steps H. left. reflexivity.
  - unfold PledgeManager.grantOperatorRole, PledgeManager.grantRole in H.
    ok_steps H. left. reflexivity.
  - unfold PledgeManager.grantFinanceRole, PledgeManager.grantRole in H.
    ok_steps H. left. reflexivity.
  - unfold PledgeManager.revokeOperatorRole, PledgeManager.revokeRole in H.
    ok_steps H. left. reflexivity.
  - unfold PledgeManager.revokeFinanceRole, PledgeManager.revokeRole in H.
    ok_steps H. left. reflexivity.
  - unfold PledgeManager.grantRole in H. ok_steps H. left. reflexivity.
  - unfold PledgeManager.revokeRole in H. ok_steps H. left. reflexivity.
  - unfold PledgeManager.renounceRole in H. ok_steps H. left. reflexivity.
Qed.

Lemma agreement_later w w' id :
  System.later w w' ->
  PledgeManager.timestamp (PledgeManager.getPledgeAgreement w id) <> 0 ->
  PledgeManager.getPledgeAgreement w' id = PledgeManager.getPledgeAgreement w id
  \/ PledgeManager.getPledgeAgreement w' id
     = PledgeManager.set_status PledgeManager.REPAID
         (PledgeManager.getPledgeAgreement w id).
Proof.
  intros Hlater Hts.
  induction Hlater as [|w w' sender now c _ IH]; [left; reflexivity|].
  specialize (IH Hts). unfold System.exec.
  destruct (System.dispatch sender now c w') as [w''|e] eqn:Hd; simpl; [|exact IH].
  assert (Hstep : PledgeManager.getPledgeAgreement w'' id
                  = PledgeManager.getPledgeAgreement w' id
                  \/ PledgeManager.getPledgeAgreement w'' id
                     = PledgeManager.set_status PledgeManager.REPAID
                         (PledgeManager.getPledgeAgreement w' id)).
  { destruct c as [c|c|c]; simpl in Hd.
    - ok_steps Hd. left. reflexivity.
    - ok_steps Hd. left. reflexivity.
    - apply (manager_dispatch_agreement _ _ _ _ _ _ Hd).
      destruct IH as [-> | ->]; exact Hts. }
  destruct Hstep as [-> | ->]; destruct IH as [-> | ->]; auto.
Qed.

(** C2. A successful [createPledge] stores
    [clientPayment = floor(discountedValue * (100 - spreadPercentage) / 100)]
    for the spread in force at the call. A later successful
    [setSpreadPercentage] changes the spread but no stored agreement, and
    whatever transactions follow the creation (at a non-zero block
    timestamp), the stored [clientPayment] stays the one computed under the
    old spread. *)
Theorem createPledge_clientPayment_fixed_at_creation
    sender now id cl aid ty descr ov doc w w' :
  PledgeManager.createPledge sender now id cl aid ty descr ov doc w = Ok w' ->
  let spread := PledgeManager.spreadPercentage (PledgeManager.manager w) in
  let pledge := PledgeManager.getPledgeAgreement w' id in
  PledgeManager.discountedValue pledge
  = ov * RWAToken.discountRate (PledgeManager.rwaToken w) / 100
  /\ 0 <= 100 - spread
  /\ PledgeManager.clientPayment pledge
     = PledgeManager.discountedValue pledge * (100 - spread) / 100
  /\ (forall w1 caller newSpread w2,
        PledgeManager.setSpreadPercentage caller newSpread w1 = Ok w2 ->
        PledgeManager.spreadPercentage (PledgeManager.manager w2) = newSpread
        /\ forall id', PledgeManager.getPledgeAgreement w2 id'
                       = PledgeManager.getPledgeAgreement w1 id')
  /\ (now <> 0 ->
      forall w'', System.later w' w'' ->
        PledgeManager.clientPayment (PledgeManager.getPledgeAgreement w'' id)
        = PledgeManager.discountedValue pledge * (100 - spread) / 100).
Proof.
  intros H spread pledge.
  apply createPledge_Ok in H
    as (token' & _ & _ & _ & _ & _ & _ & Hspread & _ & Hstored & _).
  fold spread in Hspread, Hstored.
  assert (Hcp : PledgeManager.clientPayment pledge
                = PledgeManager.discountedValue pledge * (100 - spread) / 100).
  { subst pledge. rewrite Hstored. reflexivity. }
  split; [subst pledge; rewrite Hstored; reflexivity|].
  split; [lia|]. split; [exact Hcp|]. split.
  - intros w1 caller newSpread w2 Hset.
    apply setSpreadPercentage_Ok in Hset as (_ & _ & Hnew & Hsame).
    split; [exact Hnew|].
    intros id'. unfold PledgeManager.getPledgeAgreement. rewrite Hsame. reflexivity.
  - intros Hnow w'' Hlater.
    destruct (agreement_later w' w'' id Hlater) as [-> | ->].
    + rewrite Hstored. exact Hnow.
    + exact Hcp.
    + exact Hcp.
Qed.

Lemma createPledge_clientPayment_fixed_at_creation_witness :
  PledgeManager.clientPayment
    (PledgeManager.getPledgeAgreement Scenario.world1 "agreement-1")
  = 59500 * ONE_E18.
Proof.
  assert (Hrun : PledgeManager.createPledge Scenario.admin 1000 "agreement-1"
                   Scenario.client "asset-1" "real_estate" "villa"
                   Scenario.hundred_thousand "QmHash" Scenario.world0
                 = Ok Scenario.world1) by (vm_compute; reflexivity).
  destruct (createPledge_clientPayment_fixed_at_creation _ _ _ _ _ _ _ _ _ _ _ Hrun)
    as (Hdv & _ & Hcp & _).
  rewrite Hcp, Hdv. vm_compute. reflexivity.
Defined.

(** C6. Once [createPledge] has succeeded for an agreement id (at a
    non-zero block timestamp, as every block has), a second [createPledge]
    with that id, by a caller holding the operator role and with otherwise
    valid arguments, reverts with "Agreement already exists" and leaves the
    whole state exactly as the first call left it. *)
Theorem createPledge_rejects_duplicate_agreement
    sender now id cl aid ty descr ov doc w w1
    sender2 now2 cl2 aid2 ty2 descr2 ov2 doc2 :
  now <> 0 ->
  PledgeManager.createPledge sender now id cl aid ty descr ov doc w = Ok w1 ->
  PledgeManager.hasRole w1 OPERATOR_ROLE sender2 = true ->
  cl2 <> 0 ->
  0 < ov2 ->
  System.exec sender now (System.ToManager
    (PledgeManager.CreatePledge id cl aid ty descr ov doc)) w = (w1, None)
  /\ System.exec sender2 now2 (System.ToManager
       (PledgeManager.CreatePledge id cl2 aid2 ty2 descr2 ov2 doc2)) w1
     = (w1, Some (Revert "Agreement already exists")).
Proof.
  intros Hnow H Hrole Hcl Hov.
  split.
  { unfold System.exec. simpl. rewrite H. reflexivity. }
  apply createPledge_Ok in H
    as (token' & _ & _ & _ & _ & _ & _ & _ & _ & Hstored & _ & _ & _ & _
        & _ & Hpaused & Hentered & _ & Hid).
  unfold System.exec. simpl.
  unfold PledgeManager.createPledge, PledgeManager.onlyRole,
    PledgeManager.whenNotPaused, PledgeManager.nonReentrant.
  rewrite (checkRole_held _ _ _ Hrole). rewrite Hpaused, Hentered. simpl.
  rewrite Hid.
  apply Z.eqb_neq in Hcl. rewrite Hcl. apply Z.ltb_lt in Hov. rewrite Hov. simpl.
  change (PledgeManager.getPledgeAgreement
            (PledgeManager.update (PledgeManager.set_entered true) w1) id)
    with (PledgeManager.getPledgeAgreement w1 id).
  rewrite Hstored. simpl. apply Z.eqb_neq in Hnow. rewrite Hnow. reflexivity.
Qed.

Lemma createPledge_rejects_duplicate_agreement_witness :
  System.exec Scenario.admin 5000 (System.ToManager
    (PledgeManager.CreatePledge "agreement-1" Scenario.client "asset-2" "stocks"
                                "shares" 5000 "QmOther")) Scenario.world1
  = (Scenario.world1, Some (Revert "Agreement already exists")).
Proof.
  assert (Hrun : PledgeManager.createPledge Scenario.admin 1000 "agreement-1"
                   Scenario.client "asset-1" "real_estate" "villa"
                   Scenario.hundred_thousand "QmHash" Scenario.world0
                 = Ok Scenario.world1) by (vm_compute; reflexivity).
  refine (proj2 (createPledge_rejects_duplicate_agreement
                   _ _ _ _ _ _ _ _ _ _ _ Scenario.admin 5000 Scenario.client
                   "asset-2" "stocks" "shares" 5000 "QmOther" _ Hrun _ _ _)).
  - discriminate.
  - vm_compute. reflexivity.
  - discriminate.
  - reflexivity.
Defined.

(** ** Access control *)

(** C7. Every role-gated operation of the ledger and of the registry
    ([pledgeAsset], [releaseAsset], [setDiscountRate], pause and unpause,
    [createPledge], [payClient], [repayPledge], [setSpreadPercentage],
    [withdrawRevenue], the role grants and revocations) called by an
    account that lacks the required role reverts with AccessControl's
    missing-role error and leaves the whole state unchanged. *)
Theorem unauthorized_call_reverts sender now c role w :
  System.required_role c = Some role ->
  System.holds_role w c role sender = false ->
  System.exec sender now c w = (w, Some (MissingRole sender role)).
Proof.
  intros Hrole Hlacks. unfold System.exec.
  destruct c as [c|c|c]; simpl in Hrole, Hlacks; [|discriminate|].
  - unfold RWAToken.hasRole in Hlacks.
    destruct c; simpl in Hrole; try discriminate; injection Hrole as <-; simpl;
      unfold RWAToken.pledgeAsset, RWAToken.releaseAsset, RWAToken.setDiscountRate,
        RWAToken.pause, RWAToken.unpause, RWAToken.grantRole, RWAToken.revokeRole,
        AccessControl.grantRole, AccessControl.revokeRole, RWAToken.onlyRole;
      rewrite (checkRole_missing _ _ _ Hlacks); reflexivity.
  - unfold PledgeManager.hasRole in Hlacks.
    destruct c; simpl in Hrole; try discriminate; injection Hrole as <-; simpl;
      unfold PledgeManager.createPledge, PledgeManager.payClient,
        PledgeManager.repayPledge, PledgeManager.setSpreadPercentage,
        PledgeManager.withdrawRevenue, PledgeManager.pause, PledgeManager.unpause,
        PledgeManager.grantOperatorRole, PledgeManager.grantFinanceRole,
        PledgeManager.revokeOperatorRole, PledgeManager.revokeFinanceRole,
        PledgeManager.grantRole, PledgeManager.revokeRole,
        AccessControl.grantRole, AccessControl.revokeRole, PledgeManager.onlyRole;
      rewrite (checkRole_missing _ _ _ Hlacks); reflexivity.
Qed.

Lemma unauthorized_call_reverts_witness :
  System.exec Scenario.outsider 1500
    (System.ToManager (PledgeManager.PayClient "agreement-1")) Scenario.world1
  = (Scenario.world1, Some (MissingRole Scenario.outsider FINANCE_ROLE)).
Proof.
  apply unauthorized_call_reverts.
  - reflexivity.
  - vm_compute. reflexivity.
Defined.

(** ** Payout to the client *)

Lemma exec_keeps_state_on_revert sender now c w e :
  snd (System.exec sender now c w) = Some e ->
  fst (System.exec sender now c w) = w.
Proof.
  unfold System.exec. destruct (System.dispatch sender now c w); simpl.
  - discriminate.
  - reflexivity.
Qed.

Lemma transfer_runs hook from to amount e :
  from <> 0 -> to <> 0 -> hook from to amount = Ok tt ->
  amount <= ERC20.balanceOf e from ->
  ERC20._transfer hook from to amount e
  = Ok (ERC20.set_balance to
          (wrap (ERC20.balanceOf
                   (ERC20.set_balance from (ERC20.balanceOf e from - amount) e) to
                 + amount))
          (ERC20.set_balance from (ERC20.balanceOf e from - amount) e)).
Proof.
  intros Hfrom Hto Hhook Hle. unfold ERC20._transfer.
  apply Z.eqb_neq in Hfrom, Hto. apply Z.leb_le in Hle.
  rewrite Hfrom, Hto, Hhook, Hle. reflexivity.
Qed.

Lemma transfer_balances hook from to amount e e' :
  ERC20._transfer hook from to amount e = Ok e' ->
  Ledger.erc20_wf e -> 0 <= amount -> from <> to ->
  ERC20.balanceOf e' from = ERC20.balanceOf e from - amount
  /\ ERC20.balanceOf e' to = ERC20.balanceOf e to + amount
  /\ (forall b, b <> from -> b <> to -> ERC20.balanceOf e' b = ERC20.balanceOf e b).
Proof.
  unfold ERC20._transfer. intros H Hwf Hamt Hne. ok_steps H.
  match goal with Hle : (_ <=? _) = true |- _ => apply Z.leb_le in Hle end.
  pose proof (balanceOf_bounds e from Hwf) as Hf.
  set (e1 := ERC20.set_balance from (ERC20.balanceOf e from - amount) e).
  assert (Hto1 : ERC20.balanceOf e1 to = ERC20.balanceOf e to).
  { unfold e1. rewrite balanceOf_set_balance, decide_False by exact Hne. reflexivity. }
  assert (Hbound : 0 <= ERC20.balanceOf e to + amount <= MAX_UINT256).
  { assert (Hwf1 : map_Forall (fun (_ : address) (x : Z) => 0 <= x) (ERC20._balances e1)).
    { apply erc20_wf_set_balance; [exact Hwf | lia]. }
    assert (Hsum1 : Ledger.sum_balances e1 = ERC20._totalSupply e - amount).
    { unfold e1. rewrite sum_balances_set_balance. destruct Hwf as (_ & -> & _). lia. }
    assert (0 <= ERC20.balanceOf e1 to <= ERC20._totalSupply e - amount).
    { rewrite <- Hsum1. unfold ERC20.balanceOf, Ledger.sum_balances.
      apply msum_lookup_le, Hwf1. }
    destruct Hwf as (_ & _ & Hmax). lia. }
  rewrite Hto1, wrap_small by exact Hbound.
  repeat split.
  - rewrite balanceOf_set_balance, decide_False by congruence.
    unfold e1. rewrite balanceOf_set_balance, decide_True by reflexivity. reflexivity.
  - rewrite balanceOf_set_balance, decide_True by reflexivity. reflexivity.
  - intros b Hb1 Hb2. rewrite balanceOf_set_balance, decide_False by congruence.
    unfold e1. rewrite balanceOf_set_balance, decide_False by congruence. reflexivity.
Qed.


(** One successful payout, from its preconditions. *)
Lemma payClient_once sender id w :
  let pledge := PledgeManager.getPledgeAgreement w id in
  let cp := PledgeManager.clientPayment pledge in
  let paid := PledgeManager.totalClientPayments (PledgeManager.manager w) in
  let stable := MockUSDT.erc20 (PledgeManager.usdtToken w) in
  PledgeManager.hasRole w FINANCE_ROLE sender = true ->
  PledgeManager._entered (PledgeManager.manager w) = false ->
  PledgeManager.timestamp pledge <> 0 ->
  PledgeManager.status pledge = PledgeManager.ACTIVE ->
  PledgeManager.this w <> 0 ->
  PledgeManager.client pledge <> 0 ->
  PledgeManager.client pledge <> PledgeManager.this w ->
  Ledger.erc20_wf stable ->
  0 <= cp <= ERC20.balanceOf stable (PledgeManager.this w) ->
  paid + cp <= MAX_UINT256 ->
  exists w1,
    PledgeManager.payClient sender id w = Ok w1
    /\ PledgeManager.manager w1
       = PledgeManager.emit (PledgeManager.ClientPaid id (PledgeManager.client pledge) cp)
           (PledgeManager.set_totalClientPayments (paid + cp) (PledgeManager.manager w))
    /\ PledgeManager.rwaToken w1 = PledgeManager.rwaToken w
    /\ PledgeManager.this w1 = PledgeManager.this w
    /\ Ledger.erc20_wf (MockUSDT.erc20 (PledgeManager.usdtToken w1))
    /\ MockUSDT.balanceOf (PledgeManager.usdtToken w1) (PledgeManager.this w)
       = ERC20.balanceOf stable (PledgeManager.this w) - cp
    /\ MockUSDT.balanceOf (PledgeManager.usdtToken w1) (PledgeManager.client pledge)
       = ERC20.balanceOf stable (PledgeManager.client pledge) + cp.
Proof.
  intros pledge cp paid stable Hrole Hentered Hts Hst Hthis Hcl Hne Hwf Hcp Hpaid.
  pose proof (transfer_runs MockUSDT._beforeTokenTransfer (PledgeManager.this w)
                (PledgeManager.client pledge) cp stable Hthis Hcl eq_refl (proj2 Hcp))
    as Hrun.
  destruct (transfer_balances _ _ _ _ _ _ Hrun Hwf (proj1 Hcp) (not_eq_sym Hne))
    as (Hb1 & Hb2 & _).
  destruct (transfer_spec _ _ _ _ _ _ Hrun Hwf (proj1 Hcp)) as (Hwf' & _).
  eexists. split.
  - unfold PledgeManager.payClient, PledgeManager.onlyRole, PledgeManager.nonReentrant.
    rewrite (checkRole_held _ _ _ Hrole). rewrite Hentered. simpl.
    change (PledgeManager.getPledgeAgreement
              (PledgeManager.update (PledgeManager.set_entered true) w) id) with pledge.
    apply Z.eqb_neq in Hts. rewrite Hts. simpl.
    rewrite Hst. simpl.
    unfold MockUSDT.balanceOf, MockUSDT.transfer, ERC20.transfer. simpl.
    fold stable cp.
    destruct Hcp as [Hcp0 Hcp1]. apply Z.leb_le in Hcp1. rewrite Hcp1. simpl.
    rewrite Hrun. simpl.
    fold paid. unfold checked_add. apply Z.leb_le in Hpaid. rewrite Hpaid. simpl.
    reflexivity.
  - simpl. fold stable.
    split.
    { unfold PledgeManager.emit, PledgeManager.set_totalClientPayments. simpl.
      rewrite Hentered. reflexivity. }
    unfold MockUSDT.balanceOf. simpl. auto.
Qed.

(** C8. Every operation is all-or-nothing: a transaction that reverts
    leaves every component of the state as it was. In particular [payClient]
    on an ACTIVE agreement, when the registry holds less of the stable asset
    than [clientPayment], never goes through: it reverts, for a finance-role
    caller with "Insufficient USDT balance", nothing is transferred and the
    total-client-payments accumulator is unchanged. *)
Theorem payClient_insufficient_liquidity_reverts sender now id w :
  let pledge := PledgeManager.getPledgeAgreement w id in
  PledgeManager.timestamp pledge <> 0 ->
  PledgeManager.status pledge = PledgeManager.ACTIVE ->
  MockUSDT.balanceOf (PledgeManager.usdtToken w) (PledgeManager.this w)
  < PledgeManager.clientPayment pledge ->
  (exists err,
     System.exec sender now (System.ToManager (PledgeManager.PayClient id)) w
     = (w, Some err)
     /\ (PledgeManager.hasRole w FINANCE_ROLE sender = true ->
         PledgeManager._entered (PledgeManager.manager w) = false ->
         err = Revert "Insufficient USDT balance"))
  /\ (forall sender' now' c w' e,
        snd (System.exec sender' now' c w') = Some e ->
        fst (System.exec sender' now' c w') = w').
Proof.
  intros pledge Hts Hst Hshort.
  split; [|intros; eapply exec_keeps_state_on_revert; eassumption].
  unfold System.exec. simpl.
  unfold PledgeManager.payClient, PledgeManager.onlyRole, PledgeManager.nonReentrant.
  destruct (PledgeManager.hasRole w FINANCE_ROLE sender) eqn:Hrole.
  - rewrite (checkRole_held _ _ _ Hrole).
    destruct (PledgeManager._entered (PledgeManager.manager w)) eqn:Hentered; simpl.
    + eexists. split; [reflexivity | discriminate].
    + change (PledgeManager.getPledgeAgreement
                (PledgeManager.update (PledgeManager.set_entered true) w) id)
        with pledge.
      apply Z.eqb_neq in Hts. rewrite Hts. simpl. rewrite Hst. simpl.
      apply Z.leb_gt in Hshort. rewrite Hshort. simpl.
      eexists. split; reflexivity.
  - rewrite (checkRole_missing _ _ _ Hrole). simpl.
    eexists. split; [reflexivity | discriminate].
Qed.

Lemma payClient_insufficient_liquidity_reverts_witness :
  System.exec Scenario.admin 1500
    (System.ToManager (PledgeManager.PayClient "agreement-1")) Scenario.world_short
  = (Scenario.world_short, Some (Revert "Insufficient USDT balance")).
Proof.
  destruct (payClient_insufficient_liquidity_reverts
              Scenario.admin 1500 "agreement-1" Scenario.world_short)
    as ((err & Hexec & Hwhy) & _).
  - vm_compute. discriminate.
  - vm_compute. reflexivity.
  - vm_compute. reflexivity.
  - rewrite Hexec, Hwhy; [reflexivity | |]; vm_compute; reflexivity.
Defined.

(** A revert in a nested call undoes the caller's writes too: [createPledge]
    stores the agreement before it calls [pledgeAsset], and when that call
    reverts no trace of the agreement is left. *)
Example createPledge_reverts_as_a_whole :
  System.exec Scenario.admin 1500
    (System.ToManager
       (PledgeManager.CreatePledge "agreement-2" Scenario.client "asset-1"
                                   "real_estate" "villa" 5000 "QmOther"))
    Scenario.world1
  = (Scenario.world1, Some (Revert "Asset already pledged"))
  /\ PledgeManager.getPledgeAgreement Scenario.world1 "agreement-2"
     = PledgeManager.zeroPledge.
Proof. split; vm_compute; reflexivity. Qed.

(** C10. [payClient] changes nothing in the registry's storage but the
    total-client-payments accumulator (and it logs [ClientPaid]): no field of
    the agreement is written and no paid flag is kept. So on an ACTIVE
    agreement two consecutive [payClient] calls by a finance-role caller,
    with the registry's stable-asset balance covering both, both succeed;
    each moves [clientPayment] from the registry to the client and adds
    [clientPayment] to the accumulator. *)
Theorem payClient_pays_every_time sender now now' id w :
  let pledge := PledgeManager.getPledgeAgreement w id in
  let cp := PledgeManager.clientPayment pledge in
  let paid := PledgeManager.totalClientPayments (PledgeManager.manager w) in
  let stable := PledgeManager.usdtToken w in
  PledgeManager.hasRole w FINANCE_ROLE sender = true ->
  PledgeManager._entered (PledgeManager.manager w) = false ->
  PledgeManager.timestamp pledge <> 0 ->
  PledgeManager.status pledge = PledgeManager.ACTIVE ->
  PledgeManager.this w <> 0 ->
  PledgeManager.client pledge <> 0 ->
  PledgeManager.client pledge <> PledgeManager.this w ->
  Ledger.erc20_wf (MockUSDT.erc20 stable) ->
  0 <= cp ->
  cp + cp <= MockUSDT.balanceOf stable (PledgeManager.this w) ->
  paid + cp + cp <= MAX_UINT256 ->
  exists w1 w2,
    System.exec sender now (System.ToManager (PledgeManager.PayClient id)) w = (w1, None)
    /\ System.exec sender now' (System.ToManager (PledgeManager.PayClient id)) w1 = (w2, None)
    /\ PledgeManager.manager w1
       = PledgeManager.emit (PledgeManager.ClientPaid id (PledgeManager.client pledge) cp)
           (PledgeManager.set_totalClientPayments (paid + cp) (PledgeManager.manager w))
    /\ PledgeManager.manager w2
       = PledgeManager.emit (PledgeManager.ClientPaid id (PledgeManager.client pledge) cp)
           (PledgeManager.set_totalClientPayments (paid + cp + cp) (PledgeManager.manager w1))
    /\ PledgeManager.getPledgeAgreement w1 id = pledge
    /\ PledgeManager.getPledgeAgreement w2 id = pledge
    /\ PledgeManager.rwaToken w2 = PledgeManager.rwaToken w
    /\ PledgeManager.totalClientPayments (PledgeManager.manager w2) = paid + cp + cp
    /\ MockUSDT.balanceOf (PledgeManager.usdtToken w1) (PledgeManager.client pledge)
       = MockUSDT.balanceOf stable (PledgeManager.client pledge) + cp
    /\ MockUSDT.balanceOf (PledgeManager.usdtToken w2) (PledgeManager.client pledge)
       = MockUSDT.balanceOf stable (PledgeManager.client pledge) + cp + cp
    /\ MockUSDT.balanceOf (PledgeManager.usdtToken w2) (PledgeManager.this w)
       = MockUSDT.balanceOf stable (PledgeManager.this w) - cp - cp.
Proof.
  cbv zeta. intros Hrole Hentered Hts Hst Hthis Hcl Hne Hwf Hcp Hbal Hpaid.
  unfold MockUSDT.balanceOf in *.
  destruct (payClient_once sender id w Hrole Hentered Hts Hst Hthis Hcl Hne Hwf)
    as (w1 & Hrun1 & Hm1 & Ht1 & Hthis1 & Hwf1 & Hb1 & Hc1); [lia | lia |].
  unfold MockUSDT.balanceOf in *.
  assert (Hp1 : PledgeManager.getPledgeAgreement w1 id
                = PledgeManager.getPledgeAgreement w id).
  { unfold PledgeManager.getPledgeAgreement. rewrite Hm1. reflexivity. }
  assert (Hpaid1 : PledgeManager.totalClientPayments (PledgeManager.manager w1)
                   = PledgeManager.totalClientPayments (PledgeManager.manager w)
                     + PledgeManager.clientPayment (PledgeManager.getPledgeAgreement w id)).
  { rewrite Hm1. reflexivity. }
  destruct (payClient_once sender id w1)
    as (w2 & Hrun2 & Hm2 & Ht2 & Hthis2 & Hwf2 & Hb2 & Hc2);
    rewrite ?Hp1, ?Hthis1, ?Hpaid1; try assumption.
  - unfold PledgeManager.hasRole. rewrite Hm1. exact Hrole.
  - rewrite Hm1. exact Hentered.
  - rewrite Hb1. lia.
  - rewrite Hpaid1, !Hp1 in Hm2. rewrite Hthis1, Hp1 in Hb2. rewrite !Hp1 in Hc2.
    unfold MockUSDT.balanceOf in *.
    exists w1, w2. unfold System.exec. simpl. rewrite Hrun1, Hrun2.
    split; [reflexivity|]. split; [reflexivity|].
    split; [exact Hm1|]. split; [exact Hm2|]. split; [exact Hp1|].
    split. { unfold PledgeManager.getPledgeAgreement. rewrite Hm2, Hm1. reflexivity. }
    split; [congruence|].
    split. { rewrite Hm2. reflexivity. }
    split; [exact Hc1|]. split; [rewrite Hc2, Hc1; reflexivity|].
    rewrite Hb2, Hb1. reflexivity.
Qed.

Lemma erc20_wf_empty : Ledger.erc20_wf ERC20.empty.
Proof.
  repeat split.
  - apply map_Forall_empty.
  - pose proof MAX_UINT256_pos. simpl. lia.
Qed.

Lemma stable_funded_wf :
  Ledger.erc20_wf (MockUSDT.erc20 (PledgeManager.usdtToken Scenario.world_funded)).
Proof.
  assert (H1 : ERC20._mint MockUSDT._beforeTokenTransfer Scenario.admin
                 (1000000 * 10 ^ MockUSDT.decimals) ERC20.empty
               = Ok (MockUSDT.erc20 Scenario.stable0)) by (vm_compute; reflexivity).
  assert (H2 : ERC20._mint MockUSDT._beforeTokenTransfer Scenario.registry
                 (200000 * ONE_E18) (MockUSDT.erc20 Scenario.stable0)
               = Ok (MockUSDT.erc20 (PledgeManager.usdtToken Scenario.world_funded)))
    by (vm_compute; reflexivity).
  apply mint_spec in H1 as (Hwf1 & _); [|apply erc20_wf_empty | discriminate].
  apply mint_spec in H2 as (Hwf2 & _); [exact Hwf2 | exact Hwf1 | discriminate].
Qed.

Lemma payClient_pays_every_time_witness :
  exists w1 w2,
    System.exec Scenario.admin 1500
      (System.ToManager (PledgeManager.PayClient "agreement-1")) Scenario.world_funded
    = (w1, None)
    /\ System.exec Scenario.admin 1600
         (System.ToManager (PledgeManager.PayClient "agreement-1")) w1
       = (w2, None)
    /\ MockUSDT.balanceOf (PledgeManager.usdtToken w2) Scenario.client
       = 119000 * ONE_E18.
Proof.
  destruct (payClient_pays_every_time Scenario.admin 1500 1600 "agreement-1"
              Scenario.world_funded)
    as (w1 & w2 & H1 & H2 & _ & _ & _ & _ & _ & _ & _ & Hc & _).
  - vm_compute. reflexivity.
  - vm_compute. reflexivity.
  - vm_compute. discriminate.
  - vm_compute. reflexivity.
  - vm_compute. discriminate.
  - vm_compute. discriminate.
  - vm_compute. discriminate.
  - exact stable_funded_wf.
  - vm_compute. discriminate.
  - vm_compute. discriminate.
  - vm_compute. discriminate.
  - exists w1, w2. split; [exact H1|]. split; [exact H2|].
    replace Scenario.client
      with (PledgeManager.client
              (PledgeManager.getPledgeAgreement Scenario.world_funded "agreement-1"))
      by (vm_compute; reflexivity).
    rewrite Hc. vm_compute. reflexivity.
Defined.

(** ** Pausing *)

Lemma hook_paused s from to amount :
  RWAToken._paused s = true ->
  RWAToken._beforeTokenTransfer s from to amount = Err (Revert "Pausable: paused").
Proof.
  intros Hp. unfold RWAToken._beforeTokenTransfer, RWAToken.whenNotPaused.
  rewrite Hp. reflexivity.
Qed.

Lemma transfer_paused hook from to amount e :
  (forall a b n, hook a b n = Err (Revert "Pausable: paused")) ->
  exists err,
    ERC20._transfer hook from to amount e = Err err
    /\ (from <> 0 -> to <> 0 -> err = Revert "Pausable: paused").
Proof.
  intros Hhook. unfold ERC20._transfer.
  destruct (Z.eqb_spec from 0) as [->|Hf]; simpl; [eexists; split; [reflexivity | congruence]|].
  destruct (Z.eqb_spec to 0) as [->|Ht]; simpl; [eexists; split; [reflexivity | congruence]|].
  rewrite Hhook. simpl. eauto.
Qed.

Lemma token_paused_blocks sender now c s :
  RWAToken._paused s = true ->
  System.pause_guarded (System.ToToken c) = true ->
  exists err, RWAToken.dispatch sender now c s = Err err.
Proof.
  intros Hp Hg. destruct c; simpl in Hg; try discriminate; simpl.
  - destruct (RWAToken.pledgeAsset sender now assetId assetType description
                originalValue pledger s) as [s'|err] eqn:H; [|eauto].
    apply pledgeAsset_Ok in H as (_ & _ & _ & _ & Hnp & _). congruence.
  - destruct (RWAToken.releaseAsset sender assetId tokenHolder tokensToRedeem s)
      as [s'|err] eqn:H; [|eauto].
    apply releaseAsset_Ok in H as (_ & _ & _ & _ & Hnp & _). congruence.
  - unfold RWAToken.transfer, ERC20.transfer.
    destruct (transfer_paused (RWAToken._beforeTokenTransfer s) sender to amount
                (RWAToken.erc20 s) (fun a b n => hook_paused s a b n Hp))
      as (err & -> & _).
    simpl. eauto.
  - unfold RWAToken.transferFrom, ERC20.transferFrom.
    destruct (ERC20._spendAllowance from sender amount (RWAToken.erc20 s))
      as [e1|err]; simpl; [|eauto].
    destruct (transfer_paused (RWAToken._beforeTokenTransfer s) from to amount e1
                (fun a b n => hook_paused s a b n Hp))
      as (err & -> & _).
    simpl. eauto.
Qed.

Lemma token_paused_error sender now c s :
  RWAToken._paused s = true ->
  forall w, PledgeManager.rwaToken w = s ->
  System.reaches_pause_check w sender (System.ToToken c) = true ->
  RWAToken.dispatch sender now c s = Err (Revert "Pausable: paused").
Proof.
  intros Hp w <- Hr. destruct c; simpl in Hr; try discriminate; simpl.
  - unfold RWAToken.pledgeAsset, RWAToken.onlyRole, RWAToken.whenNotPaused.
    rewrite (checkRole_held _ _ _ Hr), Hp. reflexivity.
  - unfold RWAToken.releaseAsset, RWAToken.onlyRole, RWAToken.whenNotPaused.
    rewrite (checkRole_held _ _ _ Hr), Hp. reflexivity.
  - apply andb_true_iff in Hr as [Hs Ht].
    apply negb_true_iff, Z.eqb_neq in Hs. apply negb_true_iff, Z.eqb_neq in Ht.
    unfold RWAToken.transfer, ERC20.transfer.
    destruct (transfer_paused (RWAToken._beforeTokenTransfer (PledgeManager.rwaToken w))
                sender to amount (RWAToken.erc20 (PledgeManager.rwaToken w))
                (fun a b n => hook_paused _ a b n Hp))
      as (err & -> & Herr).
    rewrite (Herr Hs Ht). reflexivity.
  - apply andb_true_iff in Hr as [Hr Hallow]. apply andb_true_iff in Hr as [Hf Ht].
    apply negb_true_iff, Z.eqb_neq in Hf. apply negb_true_iff, Z.eqb_neq in Ht.
    unfold RWAToken.transferFrom, ERC20.transferFrom.
    assert (Hspend : exists e1, ERC20._spendAllowance from sender amount
                                  (RWAToken.erc20 (PledgeManager.rwaToken w)) = Ok e1).
    { unfold ERC20._spendAllowance.
      destruct (ERC20.allowance (RWAToken.erc20 (PledgeManager.rwaToken w)) from sender
                =? MAX_UINT256); [eauto|].
      simpl in Hallow. apply andb_true_iff in Hallow as [Hle Hs].
      rewrite Hle. simpl. unfold ERC20._approve.
      apply Z.eqb_neq in Hf. rewrite Hf, Hs. simpl. eauto. }
    destruct Hspend as (e1 & ->). simpl.
    destruct (transfer_paused (RWAToken._beforeTokenTransfer (PledgeManager.rwaToken w))
                from to amount e1 (fun a b n => hook_paused _ a b n Hp))
      as (err & -> & Herr).
    rewrite (Herr Hf Ht). reflexivity.
Qed.

Lemma purchaseTokens_Ok_unpaused sender now id n pid w w' :
  PledgeManager.purchaseTokens sender now id n pid w = Ok w' ->
  PledgeManager._paused (PledgeManager.manager w) = false
  /\ RWAToken._paused (PledgeManager.rwaToken w) = false.
Proof.
  unfold PledgeManager.purchaseTokens, PledgeManager.whenNotPaused,
    PledgeManager.nonReentrant.
  intros H. ok_steps H.
  split; [apply negb_true_iff; assumption|].
  destruct (RWAToken._paused (PledgeManager.rwaToken w)) eqn:Hp; [|reflexivity].
  exfalso.
  cbn [PledgeManager.rwaToken PledgeManager.set_usdtToken PledgeManager.update
       PledgeManager.this PledgeManager.set_manager] in *.
  match goal with
  | Ht : RWAToken.transfer ?a ?b ?c ?t = Ok _ |- _ =>
      destruct (token_paused_blocks a now (RWAToken.Transfer b c) t Hp eq_refl)
        as (err & Herr);
      simpl in Herr; rewrite Ht in Herr; discriminate
  end.
Qed.

Lemma manager_paused_blocks sender now c w :
  System.pause_guarded (System.ToManager c) = true ->
  System.paused_for w (System.ToManager c) = true ->
  exists err, PledgeManager.dispatch sender now c w = Err err.
Proof.
  intros Hg Hp. simpl in Hp. apply orb_true_iff in Hp.
  destruct c; simpl in Hg; try discriminate; simpl.
  - destruct (PledgeManager.createPledge sender now agreementId client assetId
                assetType description originalValue documentHash w) as [w'|err] eqn:H;
      [|eauto].
    apply createPledge_Ok in H as (token' & Hpledge & _ & Hnp & _).
    apply pledgeAsset_Ok in Hpledge as (_ & _ & _ & _ & Hnp' & _).
    destruct Hp; congruence.
  - destruct (PledgeManager.purchaseTokens sender now agreementId tokenAmount
                purchaseId w) as [w'|err] eqn:H; [|eauto].
    apply purchaseTokens_Ok_unpaused in H as [Hnp Hnp'].
    destruct Hp; congruence.
Qed.

Lemma stable_pull_runs self from n u :
  (ERC20.allowance (MockUSDT.erc20 u) from self =? MAX_UINT256)
  || (n <=? ERC20.allowance (MockUSDT.erc20 u) from self) = true ->
  from <> 0 ->
  self <> 0 ->
  n <= MockUSDT.balanceOf u from ->
  exists u', MockUSDT.transferFrom self from self n u = Ok (u', true).
Proof.
  intros Hallow Hfrom Hself Hbal.
  apply Z.eqb_neq in Hfrom. apply Z.eqb_neq in Hself. apply Z.leb_le in Hbal.
  unfold MockUSDT.balanceOf in Hbal.
  unfold MockUSDT.transferFrom, ERC20.transferFrom, ERC20._spendAllowance.
  destruct (ERC20.allowance (MockUSDT.erc20 u) from self =? MAX_UINT256) eqn:Hmax.
  - cbn [mbind result_bind]. unfold ERC20._transfer.
    rewrite Hfrom, Hself. cbn [negb require mbind result_bind MockUSDT._beforeTokenTransfer].
    rewrite Hbal. cbn [require mbind result_bind]. eauto.
  - simpl in Hallow. rewrite Hallow. cbn [require mbind result_bind].
    unfold ERC20._approve. rewrite Hfrom, Hself. cbn [negb require mbind result_bind].
    unfold ERC20._transfer.
    rewrite Hfrom, Hself. cbn [negb require mbind result_bind MockUSDT._beforeTokenTransfer].
    change (ERC20.balanceOf (ERC20.set_allowance from self
              (ERC20.allowance (MockUSDT.erc20 u) from self - n) (MockUSDT.erc20 u)) from)
      with (ERC20.balanceOf (MockUSDT.erc20 u) from).
    rewrite Hbal. cbn [require mbind result_bind]. eauto.
Qed.

Lemma createPledge_stopped_by_ledger sender now id cl aid ty descr ov doc w :
  PledgeManager.hasRole w OPERATOR_ROLE sender = true ->
  PledgeManager._paused (PledgeManager.manager w) = false ->
  RWAToken._paused (PledgeManager.rwaToken w) = true ->
  System.createPledge_reaches_ledger w id cl ov = true ->
  RWAToken.hasRole (PledgeManager.rwaToken w) PLEDGE_MANAGER_ROLE (PledgeManager.this w)
  = true ->
  PledgeManager.createPledge sender now id cl aid ty descr ov doc w
  = Err (Revert "Pausable: paused").
Proof.
  intros Hrole Hp Hlp Hreach Hledger.
  unfold System.createPledge_reaches_ledger in Hreach. cbv zeta in Hreach.
  apply andb_true_iff in Hreach as [Hreach Hpay].
  apply andb_true_iff in Hreach as [Hreach Hkeep].
  apply andb_true_iff in Hreach as [Hreach Hmul].
  apply andb_true_iff in Hreach as [Hreach Hfree].
  apply andb_true_iff in Hreach as [Hreach Hov].
  apply andb_true_iff in Hreach as [Hreach Hcl].
  apply andb_true_iff in Hreach as [He Hlen].
  apply negb_true_iff in He.
  unfold PledgeManager.createPledge, PledgeManager.onlyRole, PledgeManager.whenNotPaused,
    PledgeManager.nonReentrant.
  rewrite (checkRole_held _ _ _ Hrole). rewrite Hp, He.
  cbn [negb require mbind result_bind].
  change (PledgeManager.getPledgeAgreement
            (PledgeManager.update (PledgeManager.set_entered true) w) id)
    with (PledgeManager.getPledgeAgreement w id).
  rewrite Hlen, Hcl, Hov, Hfree.
  cbn [negb require mbind result_bind].
  cbn [PledgeManager.rwaToken PledgeManager.manager PledgeManager.update
       PledgeManager.set_manager PledgeManager.spreadPercentage
       PledgeManager.set_entered PledgeManager.this].
  unfold checked_mul, checked_sub.
  rewrite Hmul. cbn [mbind result_bind].
  rewrite Hkeep. cbn [mbind result_bind].
  rewrite Hpay. cbn [mbind result_bind].
  unfold RWAToken.pledgeAsset, RWAToken.onlyRole, RWAToken.whenNotPaused.
  rewrite (checkRole_held _ _ _ Hledger), Hlp. reflexivity.
Qed.

Lemma purchaseTokens_stopped_by_ledger sender now id n pid w :
  PledgeManager._paused (PledgeManager.manager w) = false ->
  RWAToken._paused (PledgeManager.rwaToken w) = true ->
  System.purchaseTokens_reaches_ledger w sender id n = true ->
  PledgeManager.purchaseTokens sender now id n pid w = Err (Revert "Pausable: paused").
Proof.
  intros Hp Hlp Hreach.
  unfold System.purchaseTokens_reaches_ledger in Hreach. cbv zeta in Hreach.
  apply andb_true_iff in Hreach as [Hreach Hbal].
  apply andb_true_iff in Hreach as [Hreach Hself].
  apply andb_true_iff in Hreach as [Hreach Hsender].
  apply andb_true_iff in Hreach as [Hreach Hallow].
  apply andb_true_iff in Hreach as [Hreach Hmul].
  apply andb_true_iff in Hreach as [Hreach Havail].
  apply andb_true_iff in Hreach as [Hreach Hn].
  apply andb_true_iff in Hreach as [Hreach Hactive].
  apply andb_true_iff in Hreach as [He Hts].
  apply negb_true_iff in He.
  destruct (stable_pull_runs (PledgeManager.this w) sender (n * ONE_E6)
              (PledgeManager.usdtToken w) Hallow) as (u' & Hpull).
  { apply negb_true_iff, Z.eqb_neq in Hsender. exact Hsender. }
  { apply negb_true_iff, Z.eqb_neq in Hself. exact Hself. }
  { apply Z.leb_le. exact Hbal. }
  unfold PledgeManager.purchaseTokens, PledgeManager.whenNotPaused,
    PledgeManager.nonReentrant.
  rewrite Hp, He. cbn [negb require mbind result_bind]. cbv zeta.
  change (PledgeManager.getPledgeAgreement
            (PledgeManager.update (PledgeManager.set_entered true) w) id)
    with (PledgeManager.getPledgeAgreement w id).
  rewrite Hts, Hactive, Hn. cbn [require mbind result_bind].
  cbn [PledgeManager.rwaToken PledgeManager.usdtToken PledgeManager.manager
       PledgeManager.update PledgeManager.set_manager PledgeManager.set_entered
       PledgeManager.this].
  rewrite Havail. cbn [require mbind result_bind].
  unfold checked_mul. rewrite Hmul. cbn [mbind result_bind].
  rewrite Hpull. cbn [require mbind result_bind].
  cbn [PledgeManager.rwaToken PledgeManager.set_usdtToken PledgeManager.this
       PledgeManager.update PledgeManager.set_manager].
  unfold RWAToken.transfer, ERC20.transfer, ERC20._transfer.
  apply negb_true_iff in Hsender. apply negb_true_iff in Hself.
  rewrite Hsender, Hself. cbn [negb require mbind result_bind].
  rewrite (hook_paused _ _ _ _ Hlp). reflexivity.
Qed.

Lemma manager_paused_error sender now c w :
  System.paused_for w (System.ToManager c) = true ->
  System.reaches_pause_check w sender (System.ToManager c) = true ->
  PledgeManager.dispatch sender now c w = Err (Revert "Pausable: paused").
Proof.
  intros Hp Hr. destruct c; simpl in Hr; try discriminate; simpl in Hp |- *.
  - apply andb_true_iff in Hr as [Hrole Hr].
    destruct (PledgeManager._paused (PledgeManager.manager w)) eqn:Hown.
    + unfold PledgeManager.createPledge, PledgeManager.onlyRole,
        PledgeManager.whenNotPaused.
      rewrite (checkRole_held _ _ _ Hrole), Hown. reflexivity.
    + simpl in Hp, Hr. apply andb_true_iff in Hr as [Hreach Hledger].
      apply createPledge_stopped_by_ledger; assumption.
  - destruct (PledgeManager._paused (PledgeManager.manager w)) eqn:Hown.
    + unfold PledgeManager.purchaseTokens, PledgeManager.whenNotPaused.
      rewrite Hown. reflexivity.
    + simpl in Hp, Hr. apply purchaseTokens_stopped_by_ledger; assumption.
Qed.

Lemma token_pause_unpause a b s s1 s2 :
  RWAToken.pause a s = Ok s1 -> RWAToken.unpause b s1 = Ok s2 -> s2 = s.
Proof.
  unfold RWAToken.pause, RWAToken.unpause, RWAToken.whenNotPaused, RWAToken.whenPaused.
  intros H1 H2. ok_steps H1. ok_steps H2.
  apply negb_true_iff in Hreq. destruct s; simpl in *. subst. reflexivity.
Qed.

Lemma manager_pause_unpause a b w w1 w2 :
  PledgeManager.pause a w = Ok w1 -> PledgeManager.unpause b w1 = Ok w2 -> w2 = w.
Proof.
  unfold PledgeManager.pause, PledgeManager.unpause, PledgeManager.whenNotPaused,
    PledgeManager.whenPaused.
  intros H1 H2. ok_steps H1. ok_steps H2.
  apply negb_true_iff in Hreq. destruct w as [t r u m]; destruct m; simpl in *.
  subst. reflexivity.
Qed.

Lemma guarded_call_reverts sender now c w :
  System.pause_guarded c = true ->
  System.paused_for w c = true ->
  exists err,
    System.exec sender now c w = (w, Some err)
    /\ (System.reaches_pause_check w sender c = true ->
        err = Revert "Pausable: paused").
Proof.
  intros Hg Hp. unfold System.exec.
  destruct c as [c|c|c]; simpl in Hg; try discriminate.
  - simpl in Hp.
    destruct (token_paused_blocks sender now c _ Hp Hg) as (err & Herr).
    exists err. simpl. rewrite Herr. simpl. split; [reflexivity|].
    intros Hr. pose proof (token_paused_error sender now c _ Hp w eq_refl Hr) as Hwhy.
    congruence.
  - destruct (manager_paused_blocks sender now c w Hg Hp) as (err & Herr).
    exists err. simpl. rewrite Herr. split; [reflexivity|].
    intros Hr. pose proof (manager_paused_error sender now c w Hp Hr) as Hwhy.
    congruence.
Qed.

Lemma exec_all_stopped txs w :
  forallb (fun tx => System.stopped w tx.2) txs = true ->
  System.exec_all txs w = w.
Proof.
  induction txs as [|[[sender now] c] txs IH]; simpl; [reflexivity|].
  intros H. apply andb_true_iff in H as [Hc Htxs].
  apply andb_true_iff in Hc as [Hg Hp].
  destruct (guarded_call_reverts sender now c w Hg Hp) as (err & -> & _).
  simpl. apply IH. exact Htxs.
Qed.

Lemma manager_pause_exec a now w w1 :
  System.exec a now (System.ToManager PledgeManager.Pause) w = (w1, None) ->
  PledgeManager.pause a w = Ok w1.
Proof.
  unfold System.exec. simpl.
  destruct (PledgeManager.pause a w); intros H; inversion H; reflexivity.
Qed.

Lemma manager_unpause_exec a now w w1 :
  System.exec a now (System.ToManager PledgeManager.Unpause) w = (w1, None) ->
  PledgeManager.unpause a w = Ok w1.
Proof.
  unfold System.exec. simpl.
  destruct (PledgeManager.unpause a w); intros H; inversion H; reflexivity.
Qed.

Lemma token_pause_exec a now w w1 :
  System.exec a now (System.ToToken RWAToken.Pause) w = (w1, None) ->
  exists s1, RWAToken.pause a (PledgeManager.rwaToken w) = Ok s1
             /\ w1 = PledgeManager.set_rwaToken s1 w.
Proof.
  unfold System.exec. simpl.
  destruct (RWAToken.pause a (PledgeManager.rwaToken w)) as [s1|];
    simpl; intros H; inversion H. eauto.
Qed.

Lemma token_unpause_exec a now w w1 :
  System.exec a now (System.ToToken RWAToken.Unpause) w = (w1, None) ->
  exists s1, RWAToken.unpause a (PledgeManager.rwaToken w) = Ok s1
             /\ w1 = PledgeManager.set_rwaToken s1 w.
Proof.
  unfold System.exec. simpl.
  destruct (RWAToken.unpause a (PledgeManager.rwaToken w)) as [s1|];
    simpl; intros H; inversion H. eauto.
Qed.

(** C9. While they are paused, [pledgeAsset] (the spec's registerAsset),
    [releaseAsset], balance transfers, [createPledge] and [purchaseTokens]
    never succeed and change no state: the transaction reverts and the
    system stays as it was. A call to the ledger is stopped by the ledger's
    pause flag; a call to the registry by the registry's own flag or by the
    flag of the ledger it calls into. The revert is "Pausable: paused" (the
    spec's SystemPaused) for every call that gets as far as a pause check
    whose flag is set, [System.reaches_pause_check]. With the call's own
    contract paused that is every [purchaseTokens], every [pledgeAsset],
    [releaseAsset] and [createPledge] from a holder of the role (the
    [onlyRole] modifier comes first), and every transfer between non-zero
    addresses within its allowance. With the ledger alone paused, a
    [createPledge] or [purchaseTokens] that passes the registry's own checks
    is stopped by the ledger, with the same error.

    After a pause, any number of attempts at stopped operations and an
    unpause, the system is in the very state it was in before the pause,
    for the registry's pause and for the ledger's: from then on every
    operation behaves as if there had been no pause. *)
Theorem paused_operations_never_succeed sender now c w :
  System.pause_guarded c = true ->
  System.paused_for w c = true ->
  (exists err,
     System.exec sender now c w = (w, Some err)
     /\ (System.reaches_pause_check w sender c = true ->
         err = Revert "Pausable: paused"))
  /\ (forall a b ta tb txs w0 w1 w2,
        System.exec a ta (System.ToManager PledgeManager.Pause) w0 = (w1, None) ->
        forallb (fun tx => System.stopped w1 tx.2) txs = true ->
        System.exec b tb (System.ToManager PledgeManager.Unpause)
          (System.exec_all txs w1) = (w2, None) ->
        w2 = w0)
  /\ (forall a b ta tb txs w0 w1 w2,
        System.exec a ta (System.ToToken RWAToken.Pause) w0 = (w1, None) ->
        forallb (fun tx => System.stopped w1 tx.2) txs = true ->
        System.exec b tb (System.ToToken RWAToken.Unpause)
          (System.exec_all txs w1) = (w2, None) ->
        w2 = w0).
Proof.
  intros Hg Hp.
  split; [apply guarded_call_reverts; assumption|].
  split.
  - intros a b ta tb txs w0 w1 w2 Hpause Htxs Hunpause.
    rewrite (exec_all_stopped _ _ Htxs) in Hunpause.
    apply manager_pause_exec in Hpause. apply manager_unpause_exec in Hunpause.
    exact (manager_pause_unpause _ _ _ _ _ Hpause Hunpause).
  - intros a b ta tb txs w0 w1 w2 Hpause Htxs Hunpause.
    rewrite (exec_all_stopped _ _ Htxs) in Hunpause.
    apply token_pause_exec in Hpause as (s1 & Hpause & ->).
    apply token_unpause_exec in Hunpause as (s2 & Hunpause & ->).
    simpl in Hunpause.
    rewrite (token_pause_unpause _ _ _ _ _ Hpause Hunpause).
    destruct w0; reflexivity.
Qed.

Lemma paused_operations_never_succeed_witness :
  System.exec Scenario.admin 1500 Scenario.create2 Scenario.world_paused
  = (Scenario.world_paused, Some (Revert "Pausable: paused"))
  /\ System.exec Scenario.admin 1500 Scenario.create2 Scenario.world_ledger_paused
     = (Scenario.world_ledger_paused, Some (Revert "Pausable: paused"))
  /\ System.exec Scenario.investor 1500 Scenario.purchase1
       Scenario.world_investor_ledger_paused
     = (Scenario.world_investor_ledger_paused, Some (Revert "Pausable: paused"))
  /\ System.exec Scenario.client 1500
       (System.ToToken (RWAToken.Transfer Scenario.investor 10))
       Scenario.world_ledger_paused
     = (Scenario.world_ledger_paused, Some (Revert "Pausable: paused"))
  /\ fst (System.exec Scenario.admin 1600 (System.ToManager PledgeManager.Unpause)
            (System.exec_all
               [(Scenario.admin, 1500, Scenario.create2);
                (Scenario.investor, 1510, Scenario.purchase1)]
               Scenario.world_paused))
     = Scenario.world1
  /\ fst (System.exec Scenario.admin 1600 (System.ToToken RWAToken.Unpause)
            (System.exec_all
               [(Scenario.admin, 1500, Scenario.create2);
                (Scenario.client, 1510,
                 System.ToToken (RWAToken.Transfer Scenario.investor 10))]
               Scenario.world_ledger_paused))
     = Scenario.world1
  /\ snd (System.exec Scenario.admin 1700 Scenario.create2
            (fst (System.exec Scenario.admin 1600
                    (System.ToManager PledgeManager.Unpause)
                    (System.exec_all
                       [(Scenario.admin, 1500, Scenario.create2);
                        (Scenario.investor, 1510, Scenario.purchase1)]
                       Scenario.world_paused))))
     = None.
Proof.
  destruct (paused_operations_never_succeed Scenario.admin 1500 Scenario.create2
              Scenario.world_paused)
    as ((err1 & Hexec1 & Hwhy1) & Hregistry & Hledger);
    [reflexivity | vm_compute; reflexivity |].
  destruct (paused_operations_never_succeed Scenario.admin 1500 Scenario.create2
              Scenario.world_ledger_paused)
    as ((err2 & Hexec2 & Hwhy2) & _);
    [reflexivity | vm_compute; reflexivity |].
  destruct (paused_operations_never_succeed Scenario.investor 1500 Scenario.purchase1
              Scenario.world_investor_ledger_paused)
    as ((err3 & Hexec3 & Hwhy3) & _);
    [reflexivity | vm_compute; reflexivity |].
  destruct (paused_operations_never_succeed Scenario.client 1500
              (System.ToToken (RWAToken.Transfer Scenario.investor 10))
              Scenario.world_ledger_paused)
    as ((err4 & Hexec4 & Hwhy4) & _);
    [reflexivity | vm_compute; reflexivity |].
  assert (Hback : fst (System.exec Scenario.admin 1600
                         (System.ToManager PledgeManager.Unpause)
                         (System.exec_all
                            [(Scenario.admin, 1500, Scenario.create2);
                             (Scenario.investor, 1510, Scenario.purchase1)]
                            Scenario.world_paused))
                  = Scenario.world1).
  { apply (Hregistry Scenario.admin Scenario.admin 1400 1600
             [(Scenario.admin, 1500, Scenario.create2);
              (Scenario.investor, 1510, Scenario.purchase1)]
             Scenario.world1 Scenario.world_paused).
    - vm_compute. reflexivity.
    - vm_compute. reflexivity.
    - vm_compute. reflexivity. }
  split; [rewrite Hexec1, Hwhy1; [reflexivity | vm_compute; reflexivity]|].
  split; [rewrite Hexec2, Hwhy2; [reflexivity | vm_compute; reflexivity]|].
  split; [rewrite Hexec3, Hwhy3; [reflexivity | vm_compute; reflexivity]|].
  split; [rewrite Hexec4, Hwhy4; [reflexivity | vm_compute; reflexivity]|].
  split; [exact Hback|].
  split.
  - apply (Hledger Scenario.admin Scenario.admin 1400 1600
             [(Scenario.admin, 1500, Scenario.create2);
              (Scenario.client, 1510,
               System.ToToken (RWAToken.Transfer Scenario.investor 10))]
             Scenario.world1 Scenario.world_ledger_paused).
    + vm_compute. reflexivity.
    + vm_compute. reflexivity.
    + vm_compute. reflexivity.
  - rewrite Hback. vm_compute. reflexivity.
Defined.

(** ** Investor purchases *)

(** No check of [purchaseTokens] depends on [purchaseId]: a purchase that
    succeeds under one id succeeds under any other, used before or not. *)
Lemma purchaseTokens_ignores_purchaseId sender now id n pid pid' w w1 :
  PledgeManager.purchaseTokens sender now id n pid w = Ok w1 ->
  exists w2, PledgeManager.purchaseTokens sender now id n pid' w = Ok w2.
Proof.
  unfold PledgeManager.purchaseTokens, PledgeManager.whenNotPaused,
    PledgeManager.nonReentrant.
  intros H. cbv beta zeta in H |- *.
  repeat (lazymatch goal with
          | |- exists w2, mbind _ (let '(_, _) := ?p in _) = Ok w2 =>
              destruct p; cbn in H |- *
          | |- exists w2, mbind _ (mbind _ ?m) = Ok w2 =>
              destruct m as [?v|?e] eqn:?; cbn in H |- *
          | |- exists w2, mbind _ ?m = Ok w2 =>
              destruct m as [?v|?e] eqn:?; cbn in H |- *
          | |- exists w2, Ok _ = Ok w2 => eexists; reflexivity
          | |- _ => discriminate H
          end).
Qed.

(** C5 fails on the code: [purchaseTokens] never looks at [purchaseId].
    The same investor buying twice under the purchase id "purchase-1"
    succeeds both times, and the agreement then carries two
    [InvestorPurchase] records with that same id. *)
Theorem purchaseTokens_accepts_duplicate_purchaseId :
  System.exec Scenario.investor 1200 Scenario.purchase1 Scenario.world_investor
  = (Scenario.world_bought, None)
  /\ System.exec Scenario.investor 1300 Scenario.purchase1 Scenario.world_bought
     = (Scenario.world_bought_again, None)
  /\ PledgeManager.purchaseId
       <$> PledgeManager.getAssetInvestors Scenario.world_bought_again "agreement-1"
     = ["purchase-1"; "purchase-1"]
  /\ RWAToken.balanceOf (PledgeManager.rwaToken Scenario.world_bought_again)
       Scenario.investor = 2000.
Proof.
  split; [vm_compute; reflexivity|].
  split; [vm_compute; reflexivity|].
  split; vm_compute; reflexivity.
Qed.

(** * Further properties of the code *)

(** * Further properties of the ledger *)

(** ** The registry's tables, counter and accumulator *)

Lemma dispatch_books_frame sender now c s s' :
  RWAToken.dispatch sender now c s = Ok s' ->
  match c with
  | RWAToken.PledgeAsset _ _ _ _ _ | RWAToken.ReleaseAsset _ _ _ => True
  | _ => RWAToken.assets s' = RWAToken.assets s
         /\ RWAToken.assetIdToTokenId s' = RWAToken.assetIdToTokenId s
         /\ RWAToken._currentTokenId s' = RWAToken._currentTokenId s
         /\ RWAToken.totalPledgedValue s' = RWAToken.totalPledgedValue s
         /\ Books.pledged_ids s' = Books.pledged_ids s
  end.
Proof.
  intros H. destruct c; simpl in H; try exact I;
    try (apply fmap_Ok in H as ([s1 ok] & H & ->));
    unfold RWAToken.setDiscountRate, RWAToken.pause, RWAToken.unpause,
      RWAToken.transfer, RWAToken.transferFrom, RWAToken.approve,
      RWAToken.increaseAllowance, RWAToken.decreaseAllowance,
      RWAToken.grantRole, RWAToken.revokeRole, RWAToken.renounceRole in H;
    ok_steps H;
    try (injection H as <- <-);
    unfold Books.pledged_ids; simpl; rewrite ?omap_app; simpl;
    rewrite ?app_nil_r; auto.
Qed.

Lemma Zsum_nonneg (l : list Z) : Forall (fun x => 0 <= x) l -> 0 <= Ledger.Zsum l.
Proof.
  induction 1 as [|x l Hx _ IH]; [reflexivity|]. rewrite Zsum_cons. lia.
Qed.

Lemma Zsum_fmap_member_le (f : Z -> Z) (l : list Z) t :
  (forall x, x ∈ l -> 0 <= f x) -> t ∈ l -> f t <= Ledger.Zsum (f <$> l).
Proof.
  induction l as [|x l IH]; intros Hpos Hin; [inversion Hin|].
  rewrite fmap_cons, Zsum_cons.
  assert (Hrest : 0 <= Ledger.Zsum (f <$> l)).
  { apply Zsum_nonneg, Forall_fmap, Forall_forall. intros y Hy. apply Hpos. by right. }
  apply elem_of_cons in Hin as [->|Hin].
  - lia.
  - pose proof (Hpos x ltac:(by left)).
    specialize (IH (fun y Hy => Hpos y ltac:(by right)) Hin). lia.
Qed.

Lemma books_constructor admin : Books.bookkeeping (RWAToken.constructor admin).
Proof.
  split; simpl.
  - intros id t H. rewrite lookup_empty in H. discriminate.
  - intros t H. lia.
  - intros t a H. rewrite lookup_empty in H. discriminate.
  - intros t a H. rewrite lookup_empty in H. discriminate.
  - reflexivity.
  - reflexivity.
Qed.

Lemma books_frame s s' :
  Books.bookkeeping s ->
  RWAToken.assets s' = RWAToken.assets s ->
  RWAToken.assetIdToTokenId s' = RWAToken.assetIdToTokenId s ->
  RWAToken._currentTokenId s' = RWAToken._currentTokenId s ->
  RWAToken.totalPledgedValue s' = RWAToken.totalPledgedValue s ->
  Books.pledged_ids s' = Books.pledged_ids s ->
  Books.bookkeeping s'.
Proof.
  intros [Hb Hf Hk Hv Ht Hs] Ha Hi Hc Htot Hev.
  split; rewrite ?Ha, ?Hi, ?Hc; try assumption.
  - rewrite Htot, Ht. unfold Books.activeValue, Ledger.tokenIds. rewrite Hc.
    apply Zsum_fmap_ext. intros id _.
    unfold Books.active_value, RWAToken.asset. rewrite Ha. reflexivity.
  - rewrite Hev, Hs. unfold Ledger.tokenIds. rewrite Hc. reflexivity.
Qed.

Lemma tokenIdOf_zero_fresh s aid :
  Ledger.invariant s -> RWAToken.tokenIdOf s aid = 0 ->
  RWAToken.assetIdToTokenId s !! aid = None.
Proof.
  intros Hinv. unfold RWAToken.tokenIdOf.
  destruct (RWAToken.assetIdToTokenId s !! aid) as [t|] eqn:Hl; simpl; [|reflexivity].
  pose proof (Ledger.inv_ids s Hinv aid t Hl) as Hr. simpl in Hr. lia.
Qed.

Lemma pledged_value_bounds ov r :
  0 < ov -> 0 < r <= 100 -> 0 <= ov * r / 100 <= ov.
Proof.
  intros Hov Hr. split.
  - apply Z.div_pos; nia.
  - apply Z.div_le_upper_bound; nia.
Qed.

Lemma tokenIds_snoc s :
  1 <= RWAToken._currentTokenId s ->
  seqZ 1 (RWAToken._currentTokenId s + 1 - 1)
  = Ledger.tokenIds s ++ [RWAToken._currentTokenId s].
Proof.
  intros Hc. unfold Ledger.tokenIds.
  replace (RWAToken._currentTokenId s + 1 - 1)
    with ((RWAToken._currentTokenId s - 1) + 1) by lia.
  rewrite seqZ_app by lia.
  replace (1 + (RWAToken._currentTokenId s - 1)) with (RWAToken._currentTokenId s) by lia.
  rewrite (seqZ_cons _ 1) by lia. rewrite (seqZ_nil _ (Z.pred 1)) by lia. reflexivity.
Qed.

Lemma books_pledgeAsset sender now aid ty descr ov p s s' :
  Ledger.invariant s -> Books.bookkeeping s ->
  RWAToken.pledgeAsset sender now aid ty descr ov p s = Ok s' ->
  Books.bookkeeping s'.
Proof.
  intros Hinv [Hb Hf Hk Hv Ht Hs] H.
  pose proof H as Hraw.
  apply pledgeAsset_Ok in H as (hook & e' & Hmint & _ & _ & _ & Hfree & Hov & _ & ->).
  pose proof (tokenIdOf_zero_fresh s aid Hinv Hfree) as Hnone.
  pose proof (Ledger.inv_counter s Hinv) as Hcur.
  pose proof (Ledger.inv_rate s Hinv) as Hrate.
  assert (Hp : p <> 0 /\ aid <> "").
  { unfold RWAToken.pledgeAsset, RWAToken.nonReentrant in Hraw. ok_steps Hraw.
    split.
    - match goal with Hn : negb (p =? 0) = true |- _ =>
        apply negb_true_iff, Z.eqb_neq in Hn; exact Hn end.
    - intros ->. discriminate. }
  destruct Hp as [Hp Haid].
  set (cur := RWAToken._currentTokenId s) in *.
  set (pv := ov * RWAToken.discountRate s / 100).
  split; simpl.
  - intros id t Hl. destruct (decide (aid = id)) as [<-|Hne].
    + rewrite lookup_insert_eq in Hl. injection Hl as <-.
      rewrite lookup_insert_eq. eauto.
    + rewrite lookup_insert_ne in Hl by exact Hne.
      destruct (Hb id t Hl) as (a & Ha & Hid).
      pose proof (Hk t a Ha). rewrite lookup_insert_ne by lia. eauto.
  - intros t Hr. destruct (decide (t = cur)) as [->|Hne].
    + rewrite lookup_insert_eq. eexists. split; [reflexivity|]. simpl.
      apply lookup_insert_eq.
    + destruct (Hf t ltac:(lia)) as (a & Ha & Hi).
      rewrite lookup_insert_ne by congruence. exists a. split; [exact Ha|].
      rewrite lookup_insert_ne; [exact Hi|].
      intros Heq. rewrite <- Heq in Hi. congruence.
  - intros t a Hl. destruct (decide (cur = t)) as [<-|Hne]; [lia|].
    rewrite lookup_insert_ne in Hl by exact Hne. pose proof (Hk t a Hl). lia.
  - intros t a Hl. destruct (decide (cur = t)) as [<-|Hne].
    + rewrite lookup_insert_eq in Hl. injection Hl as <-. simpl.
      pose proof (pledged_value_bounds ov _ Hov Hrate). auto.
    + rewrite lookup_insert_ne in Hl by exact Hne. eauto.
  - subst cur. unfold Books.activeValue at 1. unfold Ledger.tokenIds at 1.
    cbn [RWAToken._currentTokenId]. rewrite tokenIds_snoc by exact Hcur.
    rewrite fmap_app, Zsum_app, fmap_cons, Zsum_cons. rewrite Ht.
    unfold Books.activeValue. simpl. f_equal.
    + apply Zsum_fmap_ext. intros id Hid. apply elem_of_seqZ in Hid.
      unfold Books.active_value, RWAToken.asset. simpl.
      rewrite lookup_insert_ne by lia. reflexivity.
    + unfold Books.active_value, RWAToken.asset. simpl.
      rewrite lookup_insert_eq. simpl. fold pv. lia.
  - subst cur. unfold Books.pledged_ids. unfold Ledger.tokenIds at 1.
    cbn [RWAToken._currentTokenId RWAToken.events].
    rewrite omap_app. simpl. rewrite tokenIds_snoc by exact Hcur.
    f_equal. exact Hs.
Qed.

Lemma active_value_deactivate s s' t id :
  RWAToken.assets s' = <[t := RWAToken.deactivate (RWAToken.asset s t)]> (RWAToken.assets s) ->
  RWAToken.isActive (RWAToken.asset s t) = true ->
  Books.active_value s' id
  = Books.active_value s id
    - (if t =? id then RWAToken.pledgedValue (RWAToken.asset s t) else 0).
Proof.
  intros Ha Hon. unfold Books.active_value.
  assert (Hs' : RWAToken.asset s' id
                = if decide (t = id) then RWAToken.deactivate (RWAToken.asset s t)
                  else RWAToken.asset s id).
  { unfold RWAToken.asset at 1. rewrite Ha, lookup_insert.
    destruct (decide (t = id)); reflexivity. }
  rewrite Hs'. destruct (Z.eqb_spec t id) as [<-|Hne].
  - rewrite decide_True by reflexivity. simpl. rewrite Hon. lia.
  - rewrite decide_False by exact Hne. lia.
Qed.

Lemma books_releaseAsset sender aid holder n s s' :
  Ledger.invariant s -> Books.bookkeeping s ->
  RWAToken.releaseAsset sender aid holder n s = Ok s' ->
  Books.bookkeeping s'.
Proof.
  intros Hinv [Hb Hf Hk Hv Ht Hs] H.
  pose proof (tokenIdOf_range s aid Hinv) as Hrange.
  apply releaseAsset_Ok in H
    as (hook & e' & _ & _ & _ & _ & Hne & Hon & _ & Hcases).
  specialize (Hrange Hne).
  set (t := RWAToken.tokenIdOf s aid) in *.
  assert (Hev : forall evs tid h, omap Books.pledged_id (evs ++ [RWAToken.AssetReleased tid aid h n])
                            = omap Books.pledged_id evs).
  { intros. rewrite omap_app. simpl. apply app_nil_r. }
  destruct Hcases as [(_ & _ & ->)|(_ & ->)].
  - destruct (Hf t Hrange) as (a & Ha & Hi).
    assert (Hasset : RWAToken.asset s t = a).
    { unfold RWAToken.asset. rewrite Ha. reflexivity. }
    split; simpl.
    + intros id t' Hl. destruct (Hb id t' Hl) as (a' & Ha' & Hid).
      destruct (decide (t = t')) as [<-|Hneq].
      * rewrite lookup_insert_eq. eexists. split; [reflexivity|].
        rewrite Hasset. simpl. congruence.
      * rewrite lookup_insert_ne by exact Hneq. eauto.
    + intros t' Hr. destruct (decide (t = t')) as [<-|Hneq].
      * rewrite lookup_insert_eq. eexists. split; [reflexivity|].
        rewrite Hasset. simpl. exact Hi.
      * rewrite lookup_insert_ne by exact Hneq. auto.
    + intros t' a' Hl. destruct (decide (t = t')) as [<-|Hneq]; [lia|].
      rewrite lookup_insert_ne in Hl by exact Hneq. eauto.
    + intros t' a' Hl. destruct (decide (t = t')) as [<-|Hneq].
      * rewrite lookup_insert_eq in Hl. injection Hl as <-. rewrite Hasset. simpl.
        exact (Hv t a Ha).
      * rewrite lookup_insert_ne in Hl by exact Hneq. eauto.
    + rewrite Ht. unfold Books.activeValue, Ledger.tokenIds.
      cbn [RWAToken._currentTokenId].
      rewrite <- (Zsum_fmap_bump (Books.active_value s) t
                    (RWAToken.pledgedValue (RWAToken.asset s t))).
      * apply Zsum_fmap_ext. intros id _. symmetry.
        apply active_value_deactivate; [reflexivity | exact Hon].
      * apply NoDup_seqZ.
      * apply elem_of_seqZ. lia.
    + unfold Books.pledged_ids, Ledger.tokenIds. simpl. rewrite Hev. exact Hs.
  - split; simpl; try assumption.
    unfold Books.pledged_ids, Ledger.tokenIds. simpl. rewrite Hev. exact Hs.
Qed.

Lemma books_dispatch sender now c s s' :
  Ledger.invariant s -> Books.bookkeeping s ->
  RWAToken.dispatch sender now c s = Ok s' ->
  Books.bookkeeping s'.
Proof.
  intros Hinv Hbk H.
  pose proof (dispatch_books_frame _ _ _ _ _ H) as Hframe.
  destruct c; simpl in H;
    [ eapply books_pledgeAsset; eauto
    | eapply books_releaseAsset; eauto
    | destruct Hframe as (Ha & Hi & Hc & Ht & He);
      apply (books_frame s); assumption .. ].
Qed.

Lemma reachable_books admin s :
  Ledger.reachable admin s -> Books.bookkeeping s.
Proof.
  induction 1 as [|s sender now c Hreach IH Hwf].
  - apply books_constructor.
  - unfold RWAToken.exec.
    destruct (RWAToken.dispatch sender now c s) as [s'|e] eqn:Hd; simpl; [|exact IH].
    eapply books_dispatch; eauto. eapply reachable_invariant; eauto.
Qed.

Lemma scenario_ledger1_reachable :
  Ledger.reachable Scenario.admin Scenario.ledger1.
Proof. apply Ledger.reachable_step; [apply Ledger.reachable_init | reflexivity]. Qed.

Lemma scenario_ledger_partial_reachable :
  Ledger.reachable Scenario.admin Scenario.ledger_partial.
Proof. apply Ledger.reachable_step; [apply scenario_ledger1_reachable | reflexivity]. Qed.

Lemma getAssetByAssetId_Ok id s a :
  RWAToken.getAssetByAssetId id s = Ok a ->
  RWAToken.tokenIdOf s id <> 0 /\ a = RWAToken.asset s (RWAToken.tokenIdOf s id).
Proof.
  unfold RWAToken.getAssetByAssetId. intros H. ok_steps H.
  split; [|congruence].
  match goal with Hn : negb _ = true |- _ =>
    apply negb_true_iff, Z.eqb_neq in Hn; exact Hn end.
Qed.

Lemma tokenIdOf_lookup s id :
  RWAToken.tokenIdOf s id <> 0 ->
  RWAToken.assetIdToTokenId s !! id = Some (RWAToken.tokenIdOf s id).
Proof.
  unfold RWAToken.tokenIdOf.
  destruct (RWAToken.assetIdToTokenId s !! id); simpl; [reflexivity | contradiction].
Qed.

(** X1. The two lookups of the registry agree in every reachable state: the
    record [getAssetByAssetId] returns for an id carries that id and is the
    record [getAssetByTokenId] returns for the id's token id; the record of
    a token id leads back to it through its asset id; two asset ids never
    share a token id; an id that was never pledged is "Asset not found" and
    a token id outside [1 .. _currentTokenId - 1] is "Invalid token ID". *)
Theorem asset_lookups_agree admin s :
  Ledger.reachable admin s ->
  (forall id a,
     RWAToken.getAssetByAssetId id s = Ok a ->
     RWAToken.assetId a = id
     /\ RWAToken.getAssetByTokenId (RWAToken.tokenIdOf s id) s = Ok a)
  /\ (forall t a,
        RWAToken.getAssetByTokenId t s = Ok a ->
        RWAToken.tokenIdOf s (RWAToken.assetId a) = t
        /\ RWAToken.getAssetByAssetId (RWAToken.assetId a) s = Ok a)
  /\ (forall id id',
        RWAToken.tokenIdOf s id <> 0 ->
        RWAToken.tokenIdOf s id = RWAToken.tokenIdOf s id' -> id = id')
  /\ (forall id,
        RWAToken.assetIdToTokenId s !! id = None ->
        RWAToken.getAssetByAssetId id s = Err (Revert "Asset not found"))
  /\ (forall t,
        t <= 0 \/ RWAToken._currentTokenId s <= t ->
        RWAToken.getAssetByTokenId t s = Err (Revert "Invalid token ID")).
Proof.
  intros Hreach.
  pose proof (reachable_invariant _ _ Hreach) as Hinv.
  pose proof (reachable_books _ _ Hreach) as Hbk.
  assert (Hback : forall id, RWAToken.tokenIdOf s id <> 0 ->
            RWAToken.assetId (RWAToken.asset s (RWAToken.tokenIdOf s id)) = id).
  { intros id Hne. destruct (Books.bk_back s Hbk id _ (tokenIdOf_lookup s id Hne))
      as (a & Ha & Hid). unfold RWAToken.asset. rewrite Ha. exact Hid. }
  split; [|split; [|split; [|split]]].
  - intros id a H. apply getAssetByAssetId_Ok in H as [Hne ->].
    split; [exact (Hback id Hne)|].
    pose proof (tokenIdOf_range s id Hinv Hne) as Hr.
    unfold RWAToken.getAssetByTokenId.
    destruct (Z.ltb_spec 0 (RWAToken.tokenIdOf s id)); [|lia].
    destruct (Z.ltb_spec (RWAToken.tokenIdOf s id) (RWAToken._currentTokenId s)); [|lia].
    reflexivity.
  - intros t a H. unfold RWAToken.getAssetByTokenId in H. ok_steps H.
    apply andb_true_iff in Hreq as [H0 H1]. apply Z.ltb_lt in H0, H1.
    destruct (Books.bk_forth s Hbk t ltac:(lia)) as (a & Ha & Hi).
    assert (Hasset : RWAToken.asset s t = a) by (unfold RWAToken.asset; rewrite Ha; reflexivity).
    rewrite Hasset.
    assert (Hid : RWAToken.tokenIdOf s (RWAToken.assetId a) = t).
    { unfold RWAToken.tokenIdOf. rewrite Hi. reflexivity. }
    split; [exact Hid|].
    unfold RWAToken.getAssetByAssetId. rewrite Hid.
    destruct (Z.eqb_spec t 0); [lia|]. simpl. rewrite Hasset. reflexivity.
  - intros id id' Hne Heq.
    rewrite <- (Hback id Hne). rewrite Heq. apply Hback. congruence.
  - intros id Hnone. unfold RWAToken.getAssetByAssetId, RWAToken.tokenIdOf.
    rewrite Hnone. reflexivity.
  - intros t Ht. unfold RWAToken.getAssetByTokenId.
    destruct (Z.ltb_spec 0 t); destruct (Z.ltb_spec t (RWAToken._currentTokenId s));
      simpl; try reflexivity. lia.
Qed.

Lemma asset_lookups_agree_witness :
  exists a,
    RWAToken.getAssetByAssetId "asset-1" Scenario.ledger1 = Ok a
    /\ RWAToken.assetId a = "asset-1"
    /\ RWAToken.getAssetByTokenId 1 Scenario.ledger1 = Ok a.
Proof.
  destruct (asset_lookups_agree _ _ scenario_ledger1_reachable) as (Hfwd & _).
  eexists. split; [vm_compute; reflexivity|].
  destruct (Hfwd "asset-1" _ ltac:(vm_compute; reflexivity)) as [Hid Hget].
  split; [exact Hid|]. exact Hget.
Defined.

(** X2. In every reachable state [totalPledgedValue] is the sum of
    [pledgedValue] over the assets that are still active. *)
Theorem totalPledgedValue_is_active_sum admin s :
  Ledger.reachable admin s ->
  RWAToken.totalPledgedValue s
  = Ledger.Zsum ((fun t => if RWAToken.isActive (RWAToken.asset s t)
                           then RWAToken.pledgedValue (RWAToken.asset s t) else 0)
                   <$> seqZ 1 (RWAToken._currentTokenId s - 1)).
Proof. intros Hreach. exact (Books.bk_total s (reachable_books _ _ Hreach)). Qed.

Lemma totalPledgedValue_is_active_sum_witness :
  RWAToken.totalPledgedValue Scenario.ledger_partial = 70000 * ONE_E18.
Proof.
  rewrite (totalPledgedValue_is_active_sum _ _ scenario_ledger_partial_reachable).
  vm_compute. reflexivity.
Defined.

(** X3. In every reachable state the discount rate lies in [1 .. 100] and
    every asset record has a positive [originalValue], a [pledgedValue]
    between 0 and [originalValue], a non-zero [pledger] and a non-empty
    [assetId]; so no asset ever issues more than [originalValue / 1e18]
    tokens. *)
Theorem asset_records_within_bounds admin s t a :
  Ledger.reachable admin s ->
  RWAToken.getAssetByTokenId t s = Ok a ->
  0 < RWAToken.discountRate s <= 100
  /\ 0 < RWAToken.originalValue a
  /\ 0 <= RWAToken.pledgedValue a <= RWAToken.originalValue a
  /\ 0 <= RWAToken.pledgedValue a / ONE_E18 <= RWAToken.originalValue a / ONE_E18
  /\ RWAToken.pledger a <> 0
  /\ RWAToken.assetId a <> "".
Proof.
  intros Hreach H.
  pose proof (reachable_invariant _ _ Hreach) as Hinv.
  pose proof (reachable_books _ _ Hreach) as Hbk.
  unfold RWAToken.getAssetByTokenId in H. ok_steps H.
  apply andb_true_iff in Hreq as [H0 H1]. apply Z.ltb_lt in H0, H1.
  destruct (Books.bk_forth s Hbk t ltac:(lia)) as (a & Ha & _).
  destruct (Books.bk_values s Hbk t a Ha) as (Hov & Hpv & Hp & Hid).
  unfold RWAToken.asset. rewrite Ha. simpl.
  split; [exact (Ledger.inv_rate s Hinv)|].
  split; [exact Hov|]. split; [exact Hpv|].
  split; [|auto].
  split; [apply Z.div_pos; [lia | reflexivity]|].
  apply Z.div_le_mono; [reflexivity | lia].
Qed.

Lemma asset_records_within_bounds_witness :
  exists a, RWAToken.getAssetByTokenId 1 Scenario.ledger1 = Ok a
            /\ 0 <= RWAToken.pledgedValue a <= RWAToken.originalValue a.
Proof.
  eexists. split; [vm_compute; reflexivity|].
  apply (asset_records_within_bounds Scenario.admin Scenario.ledger1 1 _
           scenario_ledger1_reachable).
  vm_compute. reflexivity.
Defined.

(** ** Pledging and releasing, from the caller's side *)

Lemma burn_holder_nonzero hook holder n e e' :
  ERC20._burn hook holder n e = Ok e' -> holder <> 0.
Proof.
  unfold ERC20._burn. intros H. ok_steps H.
  match goal with Hn : negb (holder =? 0) = true |- _ =>
    apply negb_true_iff, Z.eqb_neq in Hn; exact Hn end.
Qed.

Lemma pledgeAsset_taken sender now aid ty descr ov p s :
  RWAToken.tokenIdOf s aid <> 0 ->
  exists e, RWAToken.pledgeAsset sender now aid ty descr ov p s = Err e
    /\ (RWAToken.hasRole s PLEDGE_MANAGER_ROLE sender = true ->
        RWAToken._paused s = false -> RWAToken._entered s = false ->
        aid <> "" ->
        e = Revert "Asset already pledged").
Proof.
  intros Hne.
  destruct (RWAToken.pledgeAsset sender now aid ty descr ov p s) as [s'|e] eqn:H.
  - apply pledgeAsset_Ok in H as (_ & _ & _ & _ & _ & _ & Hfree & _). contradiction.
  - exists e. split; [reflexivity|]. intros Hrole Hp He Haid.
    unfold RWAToken.pledgeAsset, RWAToken.onlyRole, RWAToken.whenNotPaused,
      RWAToken.nonReentrant in H.
    rewrite (checkRole_held _ _ _ Hrole) in H. rewrite Hp, He in H. simpl in H.
    change (RWAToken.tokenIdOf (RWAToken.set_entered true s) aid)
      with (RWAToken.tokenIdOf s aid) in H.
    destruct aid as [|c aid]; [contradiction|].
    apply Z.eqb_neq in Hne. rewrite Hne in H. simpl in H. congruence.
Qed.

(** X4. An asset id is used once: in every state that follows a reachable
    state in which the id is registered, also after the asset was released,
    [pledgeAsset] with that id reverts and changes nothing, with "Asset
    already pledged" for a caller holding the role on an unpaused ledger. *)
Theorem asset_id_is_never_reused admin s s' aid sender now ty descr ov p :
  Ledger.reachable admin s ->
  RWAToken.tokenIdOf s aid <> 0 ->
  Ledger.later s s' ->
  exists e,
    RWAToken.exec sender now (RWAToken.PledgeAsset aid ty descr ov p) s' = (s', Some e)
    /\ (RWAToken.hasRole s' PLEDGE_MANAGER_ROLE sender = true ->
        RWAToken._paused s' = false ->
        e = Revert "Asset already pledged").
Proof.
  intros Hreach Hne Hlater.
  pose proof (reachable_invariant _ _ Hreach) as Hinv.
  pose proof (reachable_books _ _ Hreach) as Hbk.
  destruct (asset_later s s' aid Hinv Hlater Hne) as (Hid & _).
  assert (Hne' : RWAToken.tokenIdOf s' aid <> 0) by congruence.
  assert (Haid : aid <> "").
  { destruct (Books.bk_back s Hbk aid _ (tokenIdOf_lookup s aid Hne)) as (a & Ha & <-).
    apply (Books.bk_values s Hbk _ a Ha). }
  destruct (pledgeAsset_taken sender now aid ty descr ov p s' Hne') as (e & He & Hwhy).
  exists e. unfold RWAToken.exec. simpl. rewrite He. split; [reflexivity|].
  intros Hrole Hp. apply Hwhy; auto.
  exact (Ledger.inv_guard s' (invariant_later s s' Hinv Hlater)).
Qed.

Lemma asset_id_is_never_reused_witness :
  RWAToken.exec Scenario.admin 3000
    (RWAToken.PledgeAsset "asset-1" "stocks" "again" 5 Scenario.admin) Scenario.ledger2
  = (Scenario.ledger2, Some (Revert "Asset already pledged")).
Proof.
  destruct (asset_id_is_never_reused Scenario.admin Scenario.ledger1 Scenario.ledger2
              "asset-1" Scenario.admin 3000 "stocks" "again" 5 Scenario.admin
              scenario_ledger1_reachable)
    as (e & He & Hwhy).
  - vm_compute. discriminate.
  - apply Ledger.later_step; [apply Ledger.later_refl | reflexivity].
  - rewrite He, Hwhy; [reflexivity | |]; vm_compute; reflexivity.
Defined.

(** X5. What a successful [releaseAsset] does, on a reachable state: it
    burns exactly [tokensToRedeem] from the holder (every other balance
    stays, the supply drops by the same amount) and logs [AssetReleased];
    when the amount reaches [pledgedValue / 1e18] the record is switched
    off and its [pledgedValue] leaves [totalPledgedValue], otherwise record
    and accumulator stay as they were. No other record and no entry of the
    id table changes. *)
Theorem releaseAsset_effects admin sender aid holder n s s' :
  Ledger.reachable admin s ->
  0 <= n ->
  RWAToken.releaseAsset sender aid holder n s = Ok s' ->
  let t := RWAToken.tokenIdOf s aid in
  let a := RWAToken.asset s t in
  let full := RWAToken.pledgedValue a / ONE_E18 <=? n in
  RWAToken.balanceOf s' holder = RWAToken.balanceOf s holder - n
  /\ (forall b, b <> holder -> RWAToken.balanceOf s' b = RWAToken.balanceOf s b)
  /\ RWAToken.totalSupply s' = RWAToken.totalSupply s - n
  /\ RWAToken.asset s' t = (if full then RWAToken.deactivate a else a)
  /\ (forall t', t' <> t -> RWAToken.asset s' t' = RWAToken.asset s t')
  /\ RWAToken.totalPledgedValue s'
     = (if full then RWAToken.totalPledgedValue s - RWAToken.pledgedValue a
        else RWAToken.totalPledgedValue s)
  /\ RWAToken.assetIdToTokenId s' = RWAToken.assetIdToTokenId s
  /\ RWAToken.events s'
     = RWAToken.events s ++ [RWAToken.AssetReleased t aid (RWAToken.pledger a) n].
Proof.
  intros Hreach Hn H t a full.
  pose proof (reachable_invariant _ _ Hreach) as Hinv.
  apply releaseAsset_Ok in H as (hook & e' & Hburn & _ & _ & _ & _ & _ & _ & Hcases).
  destruct (burn_spec hook holder n _ e' Hburn (Ledger.inv_erc20 s Hinv) Hn)
    as (_ & Hts & Hbal & Hother & _).
  fold t a in Hcases. subst full.
  destruct Hcases as [(Hfull & _ & ->)|(Hpart & ->)].
  - apply Z.leb_le in Hfull. rewrite Hfull.
    unfold RWAToken.balanceOf, RWAToken.totalSupply, ERC20.totalSupply, RWAToken.asset.
    simpl. rewrite lookup_insert_eq. simpl.
    repeat split; auto.
    intros t' Hne. rewrite lookup_insert_ne by congruence. reflexivity.
  - apply Z.leb_gt in Hpart. rewrite Hpart.
    unfold RWAToken.balanceOf, RWAToken.totalSupply, ERC20.totalSupply.
    simpl. repeat split; auto.
Qed.

Lemma releaseAsset_effects_witness :
  RWAToken.balanceOf Scenario.ledger_partial Scenario.admin = 50000
  /\ RWAToken.isActive
       (RWAToken.asset Scenario.ledger_partial
          (RWAToken.tokenIdOf Scenario.ledger1 "asset-1")) = true.
Proof.
  assert (Hrun : RWAToken.releaseAsset Scenario.admin "asset-1" Scenario.admin 20000
                   Scenario.ledger1 = Ok Scenario.ledger_partial)
    by (vm_compute; reflexivity).
  destruct (releaseAsset_effects Scenario.admin Scenario.admin "asset-1" Scenario.admin
              20000 Scenario.ledger1 Scenario.ledger_partial scenario_ledger1_reachable
              ltac:(lia) Hrun) as (Hbal & _ & _ & Hrec & _).
  split.
  - rewrite Hbal. vm_compute. reflexivity.
  - rewrite Hrec. vm_compute. reflexivity.
Defined.

Lemma active_value_nonneg s t :
  Books.bookkeeping s -> 0 <= Books.active_value s t.
Proof.
  intros Hbk. unfold Books.active_value, RWAToken.asset.
  destruct (RWAToken.assets s !! t) as [a|] eqn:Ha; simpl.
  - destruct (Books.bk_values s Hbk t a Ha) as (_ & Hpv & _).
    destruct (RWAToken.isActive a); lia.
  - lia.
Qed.

Lemma active_asset_within_total s t :
  Books.bookkeeping s ->
  1 <= t < RWAToken._currentTokenId s ->
  RWAToken.isActive (RWAToken.asset s t) = true ->
  RWAToken.pledgedValue (RWAToken.asset s t) <= RWAToken.totalPledgedValue s.
Proof.
  intros Hbk Hr Hon. rewrite (Books.bk_total s Hbk). unfold Books.activeValue.
  assert (Hle : Books.active_value s t
                <= Ledger.Zsum (Books.active_value s <$> Ledger.tokenIds s)).
  { apply Zsum_fmap_member_le.
    - intros x _. apply active_value_nonneg, Hbk.
    - apply elem_of_seqZ. lia. }
  unfold Books.active_value at 1 in Hle. rewrite Hon in Hle. exact Hle.
Qed.

(** X6. On a reachable state [releaseAsset] succeeds exactly when the
    caller holds the pledge-manager role, the ledger is not paused, the
    asset id is registered and its record active, and the holder is not the
    zero address and owns at least [tokensToRedeem]. In particular the
    subtraction from [totalPledgedValue] never underflows. *)
Theorem releaseAsset_succeeds_iff admin sender aid holder n s :
  Ledger.reachable admin s ->
  (exists s', RWAToken.releaseAsset sender aid holder n s = Ok s')
  <-> (RWAToken.hasRole s PLEDGE_MANAGER_ROLE sender = true
       /\ RWAToken._paused s = false
       /\ RWAToken.tokenIdOf s aid <> 0
       /\ RWAToken.isActive (RWAToken.asset s (RWAToken.tokenIdOf s aid)) = true
       /\ holder <> 0
       /\ n <= RWAToken.balanceOf s holder).
Proof.
  intros Hreach.
  pose proof (reachable_invariant _ _ Hreach) as Hinv.
  pose proof (reachable_books _ _ Hreach) as Hbk.
  split.
  - intros (s' & H).
    apply releaseAsset_Ok in H as (hook & e' & Hburn & Hrole & Hp & _ & Hne & Hon & Hle & _).
    apply burn_holder_nonzero in Hburn. repeat split; assumption.
  - intros (Hrole & Hp & Hne & Hon & Hholder & Hle).
    pose proof (tokenIdOf_range s aid Hinv Hne) as Hr.
    pose proof (active_asset_within_total s _ Hbk Hr Hon) as Htotal.
    unfold RWAToken.releaseAsset, RWAToken.onlyRole, RWAToken.whenNotPaused,
      RWAToken.nonReentrant.
    rewrite (checkRole_held _ _ _ Hrole). rewrite Hp, (Ledger.inv_guard s Hinv). simpl.
    change (RWAToken.tokenIdOf (RWAToken.set_entered true s) aid)
      with (RWAToken.tokenIdOf s aid).
    change (RWAToken.asset (RWAToken.set_entered true s) (RWAToken.tokenIdOf s aid))
      with (RWAToken.asset s (RWAToken.tokenIdOf s aid)).
    change (RWAToken.balanceOf (RWAToken.set_entered true s) holder)
      with (RWAToken.balanceOf s holder).
    apply Z.eqb_neq in Hne. rewrite Hne, Hon. simpl.
    apply Z.leb_le in Hle. rewrite Hle. simpl.
    unfold RWAToken._burn, ERC20._burn, RWAToken._beforeTokenTransfer,
      RWAToken.whenNotPaused. simpl.
    apply Z.eqb_neq in Hholder. rewrite Hholder, Hp. simpl.
    unfold RWAToken.balanceOf in Hle. rewrite Hle. simpl.
    change (RWAToken.asset (RWAToken.set_erc20 ?e (RWAToken.set_entered true s)) ?t)
      with (RWAToken.asset s t).
    destruct (RWAToken.pledgedValue (RWAToken.asset s (RWAToken.tokenIdOf s aid))
              / ONE_E18 <=? n); simpl; [|eauto].
    rewrite asset_set_asset. simpl. unfold checked_sub.
    apply Z.leb_le in Htotal. rewrite Htotal. simpl. eauto.
Qed.

Lemma releaseAsset_succeeds_iff_witness :
  exists s', RWAToken.releaseAsset Scenario.admin "asset-1" Scenario.admin 70000
               Scenario.ledger1 = Ok s'.
Proof.
  apply (releaseAsset_succeeds_iff Scenario.admin _ _ _ _ _ scenario_ledger1_reachable).
  repeat split; vm_compute; (reflexivity || discriminate).
Defined.

Lemma setDiscountRate_Ok sender r s s' :
  RWAToken.setDiscountRate sender r s = Ok s' ->
  RWAToken.hasRole s DEFAULT_ADMIN_ROLE sender = true
  /\ 0 < r <= 100
  /\ s' = RWAToken.emit (RWAToken.DiscountRateUpdated (RWAToken.discountRate s) r)
            (RWAToken.set_discountRate r s).
Proof.
  unfold RWAToken.setDiscountRate, RWAToken.onlyRole. intros H. ok_steps H.
  match goal with Hr : (_ && _) = true |- _ => apply andb_true_iff in Hr as [Hlo Hhi] end.
  apply Z.ltb_lt in Hlo. apply Z.leb_le in Hhi.
  repeat split; try lia; try congruence.
  eapply checkRole_Ok; eassumption.
Qed.

(** X7. [setDiscountRate] changes the rate for the pledges that follow and
    nothing else: a successful call with [newRate] needs a rate in 1..100,
    leaves every asset record, the accumulated pledged value and all
    balances as they were and logs [DiscountRateUpdated]; the next pledge of
    an asset worth [originalValue] is recorded with
    [originalValue * newRate / 100] and mints that value's whole units,
    while the records made before keep their pledged value. *)
Theorem setDiscountRate_applies_to_later_pledges
    admin sender r s s1 caller now aid ty descr ov p s2 :
  Ledger.reachable admin s ->
  RWAToken.setDiscountRate sender r s = Ok s1 ->
  RWAToken.pledgeAsset caller now aid ty descr ov p s1 = Ok s2 ->
  0 < r <= 100
  /\ RWAToken.discountRate s1 = r
  /\ RWAToken.assets s1 = RWAToken.assets s
  /\ RWAToken.totalPledgedValue s1 = RWAToken.totalPledgedValue s
  /\ RWAToken.erc20 s1 = RWAToken.erc20 s
  /\ RWAToken.events s1
     = RWAToken.events s ++ [RWAToken.DiscountRateUpdated (RWAToken.discountRate s) r]
  /\ RWAToken.pledgedValue (RWAToken.asset s2 (RWAToken.tokenIdOf s2 aid)) = ov * r / 100
  /\ RWAToken.balanceOf s2 p = RWAToken.balanceOf s p + ov * r / 100 / ONE_E18
  /\ RWAToken.totalPledgedValue s2 = RWAToken.totalPledgedValue s + ov * r / 100
  /\ (forall t, t <> RWAToken.tokenIdOf s2 aid -> RWAToken.asset s2 t = RWAToken.asset s t).
Proof.
  intros Hreach Hset Hpledge.
  pose proof (reachable_invariant _ _ Hreach) as Hinv.
  apply setDiscountRate_Ok in Hset as (_ & Hr & ->).
  apply pledgeAsset_Ok in Hpledge as (hook & e' & Hmint & _ & _ & _ & _ & Hov & _ & ->).
  simpl in Hmint.
  assert (Hamount : 0 <= ov * r / 100 / ONE_E18).
  { apply Z.div_pos; [|reflexivity]. apply Z.div_pos; [nia | lia]. }
  destruct (mint_spec hook p _ _ e' Hmint (Ledger.inv_erc20 s Hinv) Hamount)
    as (_ & _ & Hbal & _).
  unfold RWAToken.tokenIdOf, RWAToken.asset, RWAToken.balanceOf. simpl.
  rewrite lookup_insert_eq. simpl. rewrite lookup_insert_eq. simpl.
  repeat split; try lia; try assumption.
  intros t Hne. rewrite lookup_insert_ne by congruence. reflexivity.
Qed.

Lemma setDiscountRate_applies_to_later_pledges_witness :
  let s1 := fst (RWAToken.exec Scenario.admin 2500 (RWAToken.SetDiscountRate 50)
                   Scenario.ledger1) in
  let s2 := fst (RWAToken.exec Scenario.admin 3000
                   (RWAToken.PledgeAsset "asset-2" "stocks" "shares" (1000 * ONE_E18)
                      Scenario.investor) s1) in
  RWAToken.balanceOf s2 Scenario.investor = 500
  /\ RWAToken.pledgedValue (RWAToken.asset s2 1) = 70000 * ONE_E18.
Proof.
  intros s1 s2.
  assert (Hset : RWAToken.setDiscountRate Scenario.admin 50 Scenario.ledger1 = Ok s1)
    by (vm_compute; reflexivity).
  assert (Hpledge : RWAToken.pledgeAsset Scenario.admin 3000 "asset-2" "stocks" "shares"
                      (1000 * ONE_E18) Scenario.investor s1 = Ok s2)
    by (vm_compute; reflexivity).
  destruct (setDiscountRate_applies_to_later_pledges Scenario.admin _ _ _ _ _ _ _ _ _ _ _ _
              scenario_ledger1_reachable Hset Hpledge)
    as (_ & _ & _ & _ & _ & _ & _ & Hbal & _ & Hold).
  split.
  - rewrite Hbal. vm_compute. reflexivity.
  - rewrite Hold; [vm_compute; reflexivity | vm_compute; discriminate].
Defined.

(** X8. Token ids are handed out in sequence: in every reachable state
    the [AssetPledged] events of the log carry the ids 1, 2, ... in order, a
    record is stored under exactly the ids handed out so far, and the next
    asset pledged gets the number of assets pledged before it plus one. *)
Theorem token_ids_are_sequential admin s :
  Ledger.reachable admin s ->
  Books.pledged_ids s = seqZ 1 (RWAToken._currentTokenId s - 1)
  /\ (forall t, is_Some (RWAToken.assets s !! t) <-> 1 <= t < RWAToken._currentTokenId s)
  /\ (forall sender now aid ty descr ov p s',
        RWAToken.pledgeAsset sender now aid ty descr ov p s = Ok s' ->
        RWAToken.tokenIdOf s' aid = Z.of_nat (length (Books.pledged_ids s)) + 1).
Proof.
  intros Hreach.
  pose proof (reachable_invariant _ _ Hreach) as Hinv.
  pose proof (reachable_books _ _ Hreach) as Hbk.
  pose proof (Books.bk_sequence s Hbk) as Hseq. unfold Ledger.tokenIds in Hseq.
  split; [exact Hseq|]. split.
  - intros t. split.
    + intros [a Ha]. exact (Books.bk_keys s Hbk t a Ha).
    + intros Hr. destruct (Books.bk_forth s Hbk t Hr) as (a & Ha & _). eauto.
  - intros sender now aid ty descr ov p s' H.
    apply pledgeAsset_Ok in H as (hook & e' & _ & _ & _ & _ & _ & _ & _ & ->).
    unfold RWAToken.tokenIdOf. simpl. rewrite lookup_insert_eq. simpl.
    rewrite Hseq, length_seqZ.
    pose proof (Ledger.inv_counter s Hinv). lia.
Qed.

Lemma token_ids_are_sequential_witness :
  Books.pledged_ids Scenario.ledger_over_redeemed = [1; 2].
Proof.
  destruct (token_ids_are_sequential Scenario.admin Scenario.ledger_over_redeemed)
    as (Hseq & _).
  - do 3 (apply Ledger.reachable_step; [|reflexivity]). apply Ledger.reachable_init.
  - rewrite Hseq. vm_compute. reflexivity.
Defined.

(** ** What a successful registry operation did, as a state *)

Lemma world_ext (w1 w2 : PledgeManager.world) :
  PledgeManager.this w1 = PledgeManager.this w2 ->
  PledgeManager.rwaToken w1 = PledgeManager.rwaToken w2 ->
  PledgeManager.usdtToken w1 = PledgeManager.usdtToken w2 ->
  PledgeManager.manager w1 = PledgeManager.manager w2 ->
  w1 = w2.
Proof. destruct w1, w2. simpl. congruence. Qed.

Lemma manager_ext (m1 m2 : PledgeManager.state) :
  PledgeManager._roles m1 = PledgeManager._roles m2 ->
  PledgeManager._paused m1 = PledgeManager._paused m2 ->
  PledgeManager._entered m1 = PledgeManager._entered m2 ->
  PledgeManager.pledgeAgreements m1 = PledgeManager.pledgeAgreements m2 ->
  PledgeManager.assetInvestors m1 = PledgeManager.assetInvestors m2 ->
  PledgeManager.clientPledges m1 = PledgeManager.clientPledges m2 ->
  PledgeManager.investorPurchases m1 = PledgeManager.investorPurchases m2 ->
  PledgeManager.totalClientPayments m1 = PledgeManager.totalClientPayments m2 ->
  PledgeManager.totalInvestorPayments m1 = PledgeManager.totalInvestorPayments m2 ->
  PledgeManager.platformRevenue m1 = PledgeManager.platformRevenue m2 ->
  PledgeManager.spreadPercentage m1 = PledgeManager.spreadPercentage m2 ->
  PledgeManager.events m1 = PledgeManager.events m2 ->
  m1 = m2.
Proof. destruct m1, m2. simpl. congruence. Qed.

Lemma createPledge_state sender now id cl aid ty descr ov doc w w' :
  PledgeManager.createPledge sender now id cl aid ty descr ov doc w = Ok w' ->
  let m := PledgeManager.manager w in
  let dv := ov * RWAToken.discountRate (PledgeManager.rwaToken w) / 100 in
  let cp := dv * (100 - PledgeManager.spreadPercentage m) / 100 in
  exists token',
    RWAToken.pledgeAsset (PledgeManager.this w) now aid ty descr ov
      (PledgeManager.this w) (PledgeManager.rwaToken w) = Ok token'
    /\ w' = PledgeManager.mkWorld (PledgeManager.this w) token' (PledgeManager.usdtToken w)
              (PledgeManager.mk (PledgeManager._roles m) (PledgeManager._paused m) false
                 (<[id := PledgeManager.mkPledge id cl aid ty descr ov dv (dv / ONE_E18) cp
                            now PledgeManager.ACTIVE doc]> (PledgeManager.pledgeAgreements m))
                 (PledgeManager.assetInvestors m)
                 (<[cl := default [] (PledgeManager.clientPledges m !! cl) ++ [id]]>
                    (PledgeManager.clientPledges m))
                 (PledgeManager.investorPurchases m)
                 (PledgeManager.totalClientPayments m)
                 (PledgeManager.totalInvestorPayments m)
                 (PledgeManager.platformRevenue m)
                 (PledgeManager.spreadPercentage m)
                 (PledgeManager.events m
                  ++ [PledgeManager.PledgeCreated id cl aid ov dv cp])).
Proof.
  intros H m dv cp.
  unfold PledgeManager.createPledge, PledgeManager.nonReentrant,
    PledgeManager.onlyRole, PledgeManager.whenNotPaused in H.
  ok_steps H.
  match goal with Hp : RWAToken.pledgeAsset _ _ _ _ _ _ _ _ = Ok ?t |- _ =>
    exists t; split; [exact Hp|] end.
  apply world_ext; [reflexivity .. |].
  apply manager_ext; try reflexivity.
  set (P := PledgeManager.mkPledge id cl aid ty descr ov dv (dv / ONE_E18) cp now
              PledgeManager.PENDING doc).
  transitivity (<[id := PledgeManager.set_status PledgeManager.ACTIVE
                          (default PledgeManager.zeroPledge
                             (<[id := P]> (PledgeManager.pledgeAgreements m) !! id))]>
                  (<[id := P]> (PledgeManager.pledgeAgreements m))); [reflexivity|].
  rewrite lookup_insert_eq, insert_insert_eq. reflexivity.
Qed.

Lemma purchaseTokens_state sender now id n pid w w' :
  PledgeManager.purchaseTokens sender now id n pid w = Ok w' ->
  let m := PledgeManager.manager w in
  let paid := n * ONE_E6 in
  exists usdt' token',
    MockUSDT.transferFrom (PledgeManager.this w) sender (PledgeManager.this w) paid
      (PledgeManager.usdtToken w) = Ok (usdt', true)
    /\ RWAToken.transfer (PledgeManager.this w) sender n (PledgeManager.rwaToken w)
       = Ok (token', true)
    /\ PledgeManager.timestamp (PledgeManager.getPledgeAgreement w id) <> 0
    /\ PledgeManager.status (PledgeManager.getPledgeAgreement w id) = PledgeManager.ACTIVE
    /\ 0 < n
    /\ n <= RWAToken.balanceOf (PledgeManager.rwaToken w) (PledgeManager.this w)
    /\ w' = PledgeManager.mkWorld (PledgeManager.this w) token' usdt'
              (PledgeManager.mk (PledgeManager._roles m) (PledgeManager._paused m) false
                 (PledgeManager.pledgeAgreements m)
                 (<[id := default [] (PledgeManager.assetInvestors m !! id)
                          ++ [PledgeManager.mkPurchase sender n paid now pid]]>
                    (PledgeManager.assetInvestors m))
                 (PledgeManager.clientPledges m)
                 (<[sender := default [] (PledgeManager.investorPurchases m !! sender)
                              ++ [id]]> (PledgeManager.investorPurchases m))
                 (PledgeManager.totalClientPayments m)
                 (PledgeManager.totalInvestorPayments m + paid)
                 (PledgeManager.platformRevenue m
                  + paid * PledgeManager.spreadPercentage m / 100)
                 (PledgeManager.spreadPercentage m)
                 (PledgeManager.events m
                  ++ [PledgeManager.TokensPurchased id sender n paid pid])).
Proof.
  intros H m paid.
  unfold PledgeManager.purchaseTokens, PledgeManager.nonReentrant,
    PledgeManager.whenNotPaused in H.
  ok_steps H.
  repeat match goal with Hb : ?b = true |- _ => is_var b; subst b end.
  match goal with
  | Hu : MockUSDT.transferFrom _ _ _ _ _ = Ok (?u, true),
    Ht : RWAToken.transfer _ _ _ _ = Ok (?t, true) |- _ =>
      exists u, t; split; [exact Hu|]; split; [exact Ht|]
  end.
  split; [apply Z.eqb_neq, negb_true_iff; exact Hreq1|].
  split; [apply bool_decide_eq_true in Hreq2; exact Hreq2|].
  split; [apply Z.ltb_lt; exact Hreq3|].
  split; [apply Z.leb_le; exact Hreq4|].
  apply world_ext; [reflexivity .. |].
  apply manager_ext; reflexivity.
Qed.

Lemma repayPledge_state sender id amount w w' :
  PledgeManager.repayPledge sender id amount w = Ok w' ->
  let m := PledgeManager.manager w in
  let p := PledgeManager.getPledgeAgreement w id in
  exists usdt' token',
    MockUSDT.transferFrom (PledgeManager.this w) (PledgeManager.client p)
      (PledgeManager.this w) amount (PledgeManager.usdtToken w) = Ok (usdt', true)
    /\ RWAToken.releaseAsset (PledgeManager.this w) (PledgeManager.assetId p)
         (PledgeManager.this w) (PledgeManager.tokensIssued p) (PledgeManager.rwaToken w)
       = Ok token'
    /\ PledgeManager.hasRole w FINANCE_ROLE sender = true
    /\ PledgeManager.timestamp p <> 0
    /\ PledgeManager.status p = PledgeManager.ACTIVE
    /\ w' = PledgeManager.mkWorld (PledgeManager.this w) token' usdt'
              (PledgeManager.mk (PledgeManager._roles m) (PledgeManager._paused m) false
                 (<[id := PledgeManager.set_status PledgeManager.REPAID p]>
                    (PledgeManager.pledgeAgreements m))
                 (PledgeManager.assetInvestors m)
                 (PledgeManager.clientPledges m)
                 (PledgeManager.investorPurchases m)
                 (PledgeManager.totalClientPayments m)
                 (PledgeManager.totalInvestorPayments m)
                 (PledgeManager.platformRevenue m)
                 (PledgeManager.spreadPercentage m)
                 (PledgeManager.events m
                  ++ [PledgeManager.PledgeRepaid id (PledgeManager.client p) amount])).
Proof.
  intros H m p.
  unfold PledgeManager.repayPledge, PledgeManager.nonReentrant,
    PledgeManager.onlyRole in H.
  ok_steps H.
  repeat match goal with Hb : ?b = true |- _ => is_var b; subst b end.
  match goal with
  | Hu : MockUSDT.transferFrom _ _ _ _ _ = Ok (?u, true),
    Ht : RWAToken.releaseAsset _ _ _ _ _ = Ok ?t |- _ =>
      exists u, t; split; [exact Hu|]; split; [exact Ht|]
  end.
  split; [eapply checkRole_Ok; eassumption|].
  split; [apply Z.eqb_neq, negb_true_iff; exact Hreq0|].
  split; [apply bool_decide_eq_true in Hreq1; exact Hreq1|].
  apply world_ext; [reflexivity .. |].
  apply manager_ext; reflexivity.
Qed.

Lemma payClient_state sender id w w' :
  PledgeManager.payClient sender id w = Ok w' ->
  let m := PledgeManager.manager w in
  let p := PledgeManager.getPledgeAgreement w id in
  let cp := PledgeManager.clientPayment p in
  exists usdt',
    MockUSDT.transfer (PledgeManager.this w) (PledgeManager.client p) cp
      (PledgeManager.usdtToken w) = Ok (usdt', true)
    /\ PledgeManager.hasRole w FINANCE_ROLE sender = true
    /\ PledgeManager.timestamp p <> 0
    /\ PledgeManager.status p = PledgeManager.ACTIVE
    /\ cp <= MockUSDT.balanceOf (PledgeManager.usdtToken w) (PledgeManager.this w)
    /\ w' = PledgeManager.mkWorld (PledgeManager.this w) (PledgeManager.rwaToken w) usdt'
              (PledgeManager.mk (PledgeManager._roles m) (PledgeManager._paused m) false
                 (PledgeManager.pledgeAgreements m)
                 (PledgeManager.assetInvestors m)
                 (PledgeManager.clientPledges m)
                 (PledgeManager.investorPurchases m)
                 (PledgeManager.totalClientPayments m + cp)
                 (PledgeManager.totalInvestorPayments m)
                 (PledgeManager.platformRevenue m)
                 (PledgeManager.spreadPercentage m)
                 (PledgeManager.events m
                  ++ [PledgeManager.ClientPaid id (PledgeManager.client p) cp])).
Proof.
  intros H m p cp.
  unfold PledgeManager.payClient, PledgeManager.nonReentrant,
    PledgeManager.onlyRole in H.
  ok_steps H.
  repeat match goal with Hb : ?b = true |- _ => is_var b; subst b end.
  match goal with
  | Hu : MockUSDT.transfer _ _ _ _ = Ok (?u, true) |- _ =>
      exists u; split; [exact Hu|]
  end.
  split; [eapply checkRole_Ok; eassumption|].
  split; [apply Z.eqb_neq, negb_true_iff; exact Hreq0|].
  split; [apply bool_decide_eq_true in Hreq1; exact Hreq1|].
  split; [apply Z.leb_le; exact Hreq2|].
  apply world_ext; [reflexivity .. |].
  apply manager_ext; reflexivity.
Qed.

Lemma withdrawRevenue_state sender to amount w w' :
  PledgeManager.withdrawRevenue sender to amount w = Ok w' ->
  let m := PledgeManager.manager w in
  exists usdt',
    MockUSDT.transfer (PledgeManager.this w) to amount (PledgeManager.usdtToken w)
    = Ok (usdt', true)
    /\ PledgeManager.hasRole w FINANCE_ROLE sender = true
    /\ to <> 0
    /\ amount <= PledgeManager.platformRevenue m
    /\ w' = PledgeManager.mkWorld (PledgeManager.this w) (PledgeManager.rwaToken w) usdt'
              (PledgeManager.mk (PledgeManager._roles m) (PledgeManager._paused m)
                 (PledgeManager._entered m)
                 (PledgeManager.pledgeAgreements m)
                 (PledgeManager.assetInvestors m)
                 (PledgeManager.clientPledges m)
                 (PledgeManager.investorPurchases m)
                 (PledgeManager.totalClientPayments m)
                 (PledgeManager.totalInvestorPayments m)
                 (PledgeManager.platformRevenue m - amount)
                 (PledgeManager.spreadPercentage m)
                 (PledgeManager.events m)).
Proof.
  intros H m.
  unfold PledgeManager.withdrawRevenue, PledgeManager.onlyRole in H.
  ok_steps H.
  repeat match goal with Hb : ?b = true |- _ => is_var b; subst b end.
  match goal with
  | Hu : MockUSDT.transfer _ _ _ _ = Ok (?u, true) |- _ =>
      exists u; split; [exact Hu|]
  end.
  split; [eapply checkRole_Ok; eassumption|].
  split; [apply Z.eqb_neq, negb_true_iff; exact Hreq|].
  split; [apply Z.leb_le; exact Hreq0|].
  apply world_ext; [reflexivity .. |].
  apply manager_ext; reflexivity.
Qed.

Lemma setSpreadPercentage_state sender newSpread w w' :
  PledgeManager.setSpreadPercentage sender newSpread w = Ok w' ->
  let m := PledgeManager.manager w in
  PledgeManager.hasRole w DEFAULT_ADMIN_ROLE sender = true
  /\ newSpread <= 50
  /\ w' = PledgeManager.mkWorld (PledgeManager.this w) (PledgeManager.rwaToken w)
            (PledgeManager.usdtToken w)
            (PledgeManager.mk (PledgeManager._roles m) (PledgeManager._paused m)
               (PledgeManager._entered m)
               (PledgeManager.pledgeAgreements m)
               (PledgeManager.assetInvestors m)
               (PledgeManager.clientPledges m)
               (PledgeManager.investorPurchases m)
               (PledgeManager.totalClientPayments m)
               (PledgeManager.totalInvestorPayments m)
               (PledgeManager.platformRevenue m)
               newSpread
               (PledgeManager.events m
                ++ [PledgeManager.SpreadUpdated (PledgeManager.spreadPercentage m) newSpread])).
Proof.
  intros H m.
  unfold PledgeManager.setSpreadPercentage, PledgeManager.onlyRole in H.
  ok_steps H.
  split; [eapply checkRole_Ok; eassumption|].
  split; [apply Z.leb_le; assumption|].
  apply world_ext; [reflexivity .. |].
  apply manager_ext; reflexivity.
Qed.

Lemma administrative_state sender now c w w' :
  Platform.administrative c = true ->
  PledgeManager.dispatch sender now c w = Ok w' ->
  let m := PledgeManager.manager w in
  exists roles paused,
    w' = PledgeManager.mkWorld (PledgeManager.this w) (PledgeManager.rwaToken w)
           (PledgeManager.usdtToken w)
           (PledgeManager.mk roles paused
              (PledgeManager._entered m)
              (PledgeManager.pledgeAgreements m)
              (PledgeManager.assetInvestors m)
              (PledgeManager.clientPledges m)
              (PledgeManager.investorPurchases m)
              (PledgeManager.totalClientPayments m)
              (PledgeManager.totalInvestorPayments m)
              (PledgeManager.platformRevenue m)
              (PledgeManager.spreadPercentage m)
              (PledgeManager.events m)).
Proof.
  intros Hc H m.
  destruct c; try discriminate Hc; simpl in H;
    unfold PledgeManager.pause, PledgeManager.unpause, PledgeManager.grantOperatorRole,
      PledgeManager.grantFinanceRole, PledgeManager.revokeOperatorRole,
      PledgeManager.revokeFinanceRole, PledgeManager.grantRole, PledgeManager.revokeRole,
      PledgeManager.renounceRole in H;
    ok_steps H; eexists _, _; (apply world_ext; [reflexivity .. |]);
    apply manager_ext; reflexivity.
Qed.

(** ** The platform invariant *)

Lemma ledger_step admin s sender now c s' :
  Ledger.reachable admin s ->
  RWAToken.well_formed c = true ->
  RWAToken.dispatch sender now c s = Ok s' ->
  Ledger.reachable admin s'.
Proof.
  intros Hr Hwf H.
  pose proof (Ledger.reachable_step admin s sender now c Hr Hwf) as Hs.
  unfold RWAToken.exec in Hs. rewrite H in Hs. exact Hs.
Qed.

Lemma stable_transfer_wf sender to n u u' ok :
  MockUSDT.transfer sender to n u = Ok (u', ok) ->
  0 <= n ->
  Ledger.erc20_wf (MockUSDT.erc20 u) ->
  Ledger.erc20_wf (MockUSDT.erc20 u') /\ MockUSDT._owner u' = MockUSDT._owner u.
Proof.
  unfold MockUSDT.transfer, ERC20.transfer. intros H Hn Hwf. ok_steps H.
  injection H as <- <-. simpl.
  match goal with Ht : ERC20._transfer _ _ _ _ _ = Ok _ |- _ =>
    eapply transfer_spec in Ht as (Hwf' & _); [| exact Hwf | exact Hn] end.
  auto.
Qed.

Lemma stable_transferFrom_wf sender from to n u u' ok :
  MockUSDT.transferFrom sender from to n u = Ok (u', ok) ->
  0 <= n ->
  Ledger.erc20_wf (MockUSDT.erc20 u) ->
  Ledger.erc20_wf (MockUSDT.erc20 u') /\ MockUSDT._owner u' = MockUSDT._owner u.
Proof.
  unfold MockUSDT.transferFrom, ERC20.transferFrom. intros H Hn Hwf. ok_steps H.
  injection H as <- <-. simpl.
  match goal with Hsp : ERC20._spendAllowance _ _ _ _ = Ok _ |- _ =>
    apply spendAllowance_frame in Hsp as [Hb1 Ht1] end.
  match goal with Ht : ERC20._transfer _ _ _ _ _ = Ok _ |- _ =>
    eapply transfer_spec in Ht as (Hwf' & _);
      [| eapply erc20_wf_frame; [exact Hb1 | exact Ht1 | exact Hwf] | exact Hn] end.
  auto.
Qed.

Lemma stable_mint_wf to n u u' :
  MockUSDT._mint to n u = Ok u' ->
  0 <= n ->
  Ledger.erc20_wf (MockUSDT.erc20 u) ->
  Ledger.erc20_wf (MockUSDT.erc20 u') /\ MockUSDT._owner u' = MockUSDT._owner u.
Proof.
  unfold MockUSDT._mint. intros H Hn Hwf. ok_steps H. simpl.
  match goal with Ht : ERC20._mint _ _ _ _ = Ok _ |- _ =>
    eapply mint_spec in Ht as (Hwf' & _); [| exact Hwf | exact Hn] end.
  auto.
Qed.

Lemma stable_dispatch_wf sender c u u' :
  MockUSDT.dispatch sender c u = Ok u' ->
  Platform.stable_well_formed c = true ->
  Ledger.erc20_wf (MockUSDT.erc20 u) ->
  Ledger.erc20_wf (MockUSDT.erc20 u').
Proof.
  intros H Hwf Hu. destruct c; simpl in H, Hwf.
  - unfold MockUSDT.mint in H. ok_steps H.
    apply andb_true_iff in Hwf as [_ Hn]. apply uint256_nonneg in Hn.
    eapply stable_mint_wf; eauto. lia.
  - unfold MockUSDT.faucet in H. ok_steps H.
    apply uint256_nonneg in Hwf.
    eapply stable_mint_wf; eauto. lia.
  - unfold MockUSDT.getTestUSDT in H.
    eapply stable_mint_wf; eauto. vm_compute. discriminate.
  - apply fmap_Ok in H as ([u1 ok] & H & ->).
    apply andb_true_iff in Hwf as [_ Hn]. apply uint256_nonneg in Hn.
    eapply stable_transfer_wf; eauto. lia.
  - apply fmap_Ok in H as ([u1 ok] & H & ->).
    apply andb_true_iff in Hwf as [_ Hn]. apply uint256_nonneg in Hn.
    eapply stable_transferFrom_wf; eauto. lia.
  - apply fmap_Ok in H as ([u1 ok] & H & ->).
    unfold MockUSDT.approve, ERC20.approve in H. ok_steps H.
    injection H as <- <-. simpl.
    match goal with Ha : ERC20._approve _ _ _ _ = Ok _ |- _ =>
      apply approve_frame in Ha as [Hb1 Ht1] end.
    eapply erc20_wf_frame; eauto.
Qed.

Lemma inherited_wf sender c u u' :
  Platform.inherited sender c u = Ok u' ->
  Ledger.erc20_wf (MockUSDT.erc20 u) ->
  Ledger.erc20_wf (MockUSDT.erc20 u').
Proof.
  intros H Hu. destruct c; simpl in H.
  - unfold ERC20.increaseAllowance in H. ok_steps H. simpl.
    match goal with Ha : ERC20._approve _ _ _ _ = Ok _ |- _ =>
      apply approve_frame in Ha as [Hb1 Ht1] end.
    eapply erc20_wf_frame; eauto.
  - unfold ERC20.decreaseAllowance in H. ok_steps H. simpl.
    match goal with Ha : ERC20._approve _ _ _ _ = Ok _ |- _ =>
      apply approve_frame in Ha as [Hb1 Ht1] end.
    eapply erc20_wf_frame; eauto.
  - unfold Platform.transferOwnership in H. ok_steps H. exact Hu.
  - unfold Platform.renounceOwnership in H. ok_steps H. exact Hu.
Qed.

(** An agreement stays backed while the ledger moves on. *)
Lemma agreement_ok_ledger_step w w' id p sender now c :
  Ledger.invariant (PledgeManager.rwaToken w) ->
  RWAToken.dispatch sender now c (PledgeManager.rwaToken w) = Ok (PledgeManager.rwaToken w') ->
  PledgeManager.this w' = PledgeManager.this w ->
  Platform.agreement_ok w id p -> Platform.agreement_ok w' id p.
Proof.
  intros Hinv Hd Hthis [H1 H2 H3 H4 H5 H6 H7 H8 H9 H10].
  destruct (asset_stable _ _ _ _ _ _ Hinv Hd H9) as (Hid & Hrec).
  cbv zeta in H10, Hrec.
  constructor; try assumption.
  - rewrite Hid. exact H9.
  - cbv zeta. rewrite Hid, Hthis.
    destruct Hrec as [-> | ->]; [exact H10|].
    destruct H10 as (? & ? & ? & ? & ?). simpl. repeat split; auto.
Qed.

Lemma agreement_ok_same_ledger w w' id p :
  PledgeManager.rwaToken w' = PledgeManager.rwaToken w ->
  PledgeManager.this w' = PledgeManager.this w ->
  Platform.agreement_ok w id p -> Platform.agreement_ok w' id p.
Proof.
  intros Ht Hthis [H1 H2 H3 H4 H5 H6 H7 H8 H9 H10].
  constructor; try assumption; cbv zeta; rewrite Ht, ?Hthis; assumption.
Qed.

Lemma tokens_issued_uint p w id :
  Platform.agreement_ok w id p ->
  0 <= PledgeManager.discountedValue p <= PledgeManager.originalValue p
  /\ 0 <= PledgeManager.tokensIssued p <= MAX_UINT256
  /\ 0 <= PledgeManager.clientPayment p <= PledgeManager.discountedValue p.
Proof.
  intros [H1 H2 H3 H4 H5 (rate & Hrate & Hdv) H7 (spread & Hsp & Hcp) H9 H10].
  assert (Hdv' : 0 <= PledgeManager.discountedValue p <= PledgeManager.originalValue p).
  { rewrite Hdv. split.
    - apply Z.div_pos; [nia | lia].
    - apply Z.div_le_upper_bound; [lia | nia]. }
  split; [exact Hdv'|]. split.
  - rewrite H7. split.
    + apply Z.div_pos; [lia | reflexivity].
    + apply Z.div_le_upper_bound; [reflexivity|].
      unfold ONE_E18. lia.
  - rewrite Hcp. split.
    + apply Z.div_pos; [nia | lia].
    + apply Z.div_le_upper_bound; [lia | nia].
Qed.

Lemma omap_snoc {A B} (f : A -> option B) (l : list A) (e : A) :
  omap f (l ++ [e]) = omap f l ++ match f e with Some y => [y] | None => [] end.
Proof. rewrite omap_app. simpl. destruct (f e); reflexivity. Qed.

Lemma is_uint256_intro z : 0 <= z <= MAX_UINT256 -> is_uint256 z = true.
Proof. intros H. unfold is_uint256. apply andb_true_iff. split; apply Z.leb_le; lia. Qed.

Ltac platform_fields :=
  cbn [PledgeManager.this PledgeManager.rwaToken PledgeManager.usdtToken
       PledgeManager.manager PledgeManager._roles PledgeManager._paused
       PledgeManager._entered PledgeManager.pledgeAgreements
       PledgeManager.assetInvestors PledgeManager.clientPledges
       PledgeManager.investorPurchases PledgeManager.totalClientPayments
       PledgeManager.totalInvestorPayments PledgeManager.platformRevenue
       PledgeManager.spreadPercentage PledgeManager.events] in *.

Lemma stored_agreement_found w id :
  PledgeManager.timestamp (PledgeManager.getPledgeAgreement w id) <> 0 ->
  PledgeManager.pledgeAgreements (PledgeManager.manager w) !! id
  = Some (PledgeManager.getPledgeAgreement w id).
Proof.
  unfold PledgeManager.getPledgeAgreement.
  destruct (PledgeManager.pledgeAgreements (PledgeManager.manager w) !! id); simpl;
    [reflexivity | congruence].
Qed.

(** Agreements are only added, or closed. *)
Lemma event_ok_mono (ags ags' : gmap string PledgeManager.PledgeAgreement) e :
  (forall id p, ags !! id = Some p ->
     ags' !! id = Some p
     \/ ags' !! id = Some (PledgeManager.set_status PledgeManager.REPAID p)) ->
  Platform.event_ok ags e -> Platform.event_ok ags' e.
Proof.
  intros Hgrow. destruct e; simpl; auto.
  - intros (p & Hl & H). destruct (Hgrow _ _ Hl) as [Hl'|Hl']; eauto.
  - intros (Hn & Hp & [p Hl]). repeat split; auto.
    destruct (Hgrow _ _ Hl) as [Hl'|Hl']; eauto.
  - intros (p & Hl & Hc & Hs). destruct (Hgrow _ _ Hl) as [Hl'|Hl']; eauto.
  - intros (p & Hl & H). destruct (Hgrow _ _ Hl) as [Hl'|Hl']; eauto.
Qed.

Lemma invariant_createPledge deployer self sender now id cl aid ty descr ov doc w w' :
  Platform.invariant deployer self w ->
  is_uint256 ov = true ->
  0 < now ->
  PledgeManager.createPledge sender now id cl aid ty descr ov doc w = Ok w' ->
  Platform.invariant deployer self w'.
Proof.
  intros Hinv Hov Hnow H.
  pose proof (createPledge_Ok _ _ _ _ _ _ _ _ _ _ _ H)
    as (_ & _ & _ & _ & _ & Hcl & Hpos & _ & Hts & _).
  apply createPledge_state in H as (token' & Hp & ->).
  destruct Hinv as [Hthis [Hself Hselfa] Hled Hst Hg Hsp Hag Hcr Hnd Hpu Hiv Hcl' Hix Hin Hout Hrev].
  pose proof (reachable_invariant _ _ Hled) as Hli.
  assert (Hfresh : PledgeManager.pledgeAgreements (PledgeManager.manager w) !! id = None).
  { destruct (PledgeManager.pledgeAgreements (PledgeManager.manager w) !! id) as [p|] eqn:E;
      [|reflexivity].
    pose proof (Platform.ag_time _ _ _ (Hag _ _ E)) as Hp0.
    unfold PledgeManager.getPledgeAgreement in Hts. rewrite E in Hts. simpl in Hts. lia. }
  assert (Hdisp : RWAToken.dispatch (PledgeManager.this w) now
                    (RWAToken.PledgeAsset aid ty descr ov (PledgeManager.this w))
                    (PledgeManager.rwaToken w) = Ok token') by exact Hp.
  constructor; platform_fields.
  - exact Hthis.
  - auto.
  - eapply ledger_step; [exact Hled | | exact Hdisp].
    simpl. rewrite Hov, Hthis, Hselfa. reflexivity.
  - exact Hst.
  - reflexivity.
  - exact Hsp.
  - intros id' p' Hl. destruct (decide (id = id')) as [<-|Hne].
    + rewrite lookup_insert_eq in Hl. injection Hl as <-.
      apply pledgeAsset_Ok in Hp as (hook & e' & _ & _ & _ & _ & _ & _ & _ & ->).
      apply uint256_nonneg in Hov.
      pose proof (Ledger.inv_counter _ Hli) as Hcnt.
      constructor; simpl; auto.
      * lia.
      * exists (RWAToken.discountRate (PledgeManager.rwaToken w)). split; [|reflexivity].
        apply (Ledger.inv_rate _ Hli).
      * exists (PledgeManager.spreadPercentage (PledgeManager.manager w)). auto.
      * unfold RWAToken.tokenIdOf. simpl. rewrite lookup_insert_eq. simpl. lia.
      * unfold RWAToken.tokenIdOf, RWAToken.asset. simpl.
        rewrite lookup_insert_eq. simpl. rewrite lookup_insert_eq. simpl.
        repeat split; auto. discriminate.
    + rewrite lookup_insert_ne in Hl by exact Hne.
      eapply (agreement_ok_ledger_step w); [exact Hli | exact Hdisp | reflexivity | auto].
  - intros id'. rewrite omap_snoc. simpl. rewrite elem_of_app, list_elem_of_singleton.
    rewrite Hcr. destruct (decide (id = id')) as [<-|Hne].
    + rewrite lookup_insert_eq. split; eauto.
    + rewrite lookup_insert_ne by exact Hne. split; [intros [?|?]; congruence | auto].
  - rewrite omap_snoc. simpl. apply NoDup_app. split; [exact Hnd|]. split.
    + intros x Hx Hx'. apply list_elem_of_singleton in Hx'. subst x.
      apply Hcr in Hx. rewrite Hfresh in Hx. destruct Hx; discriminate.
    + apply NoDup_singleton.
  - apply Forall_app. split.
    + eapply Forall_impl; [exact Hpu|]. intros e. apply event_ok_mono.
      intros id0 p0 Hl0. left. rewrite lookup_insert_ne; [exact Hl0|].
      intros ->. congruence.
    + constructor; [|constructor]. simpl. eexists. rewrite lookup_insert_eq.
      split; [reflexivity|]. simpl. repeat split.
  - intros id'. rewrite omap_snoc. simpl. rewrite app_nil_r. apply Hiv.
  - intros c. rewrite omap_snoc. simpl. unfold PledgeManager.getClientPledges.
    platform_fields. destruct (decide (cl = c)) as [<-|Hne].
    + rewrite lookup_insert_eq. simpl. f_equal. apply Hcl'.
    + rewrite lookup_insert_ne by exact Hne. rewrite app_nil_r. apply Hcl'.
  - intros i. rewrite omap_snoc. simpl. rewrite app_nil_r. apply Hix.
  - rewrite fmap_app, Zsum_app. simpl. lia.
  - rewrite fmap_app, Zsum_app. simpl. lia.
  - exact Hrev.
Qed.

Lemma invariant_purchaseTokens deployer self sender now id n pid w w' :
  Platform.invariant deployer self w ->
  is_address sender = true ->
  is_uint256 n = true ->
  PledgeManager.purchaseTokens sender now id n pid w = Ok w' ->
  Platform.invariant deployer self w'.
Proof.
  intros Hinv Hsender Hn H.
  apply purchaseTokens_state in H
    as (usdt' & token' & Hu & Ht & Hts & Hact & Hpos & Hbal & ->).
  destruct Hinv as [Hthis [Hself Hselfa] Hled Hst Hg Hsp Hag Hcr Hnd Hpu Hiv Hcl' Hix Hin Hout Hrev].
  pose proof (reachable_invariant _ _ Hled) as Hli.
  pose proof (uint256_nonneg _ Hn) as Hn'.
  assert (Hdisp : RWAToken.dispatch (PledgeManager.this w) now
                    (RWAToken.Transfer sender n) (PledgeManager.rwaToken w) = Ok token').
  { simpl. rewrite Ht. reflexivity. }
  assert (Hrev' : 0 <= n * ONE_E6 * PledgeManager.spreadPercentage (PledgeManager.manager w) / 100
                  /\ 2 * (n * ONE_E6 * PledgeManager.spreadPercentage (PledgeManager.manager w) / 100)
                     <= n * ONE_E6).
  { unfold ONE_E6. split.
    - apply Z.div_pos; [nia | lia].
    - assert (n * 1000000 * PledgeManager.spreadPercentage (PledgeManager.manager w) / 100
              <= n * 1000000 * 50 / 100) by (apply Z.div_le_mono; nia).
      replace (n * 1000000 * 50 / 100) with (n * 500000) in *
        by (replace (n * 1000000 * 50) with (n * 500000 * 100) by lia;
            rewrite Z.div_mul by lia; reflexivity).
      lia. }
  constructor; platform_fields.
  - exact Hthis.
  - auto.
  - eapply ledger_step; [exact Hled | | exact Hdisp].
    simpl. rewrite Hsender, Hn. reflexivity.
  - eapply stable_transferFrom_wf; [exact Hu | unfold ONE_E6; lia | exact Hst].
  - reflexivity.
  - exact Hsp.
  - intros id' p' Hl.
    eapply (agreement_ok_ledger_step w); [exact Hli | exact Hdisp | reflexivity | auto].
  - intros id'. rewrite omap_snoc. simpl. rewrite app_nil_r. apply Hcr.
  - rewrite omap_snoc. simpl. rewrite app_nil_r. exact Hnd.
  - apply Forall_app. split; [exact Hpu|]. constructor; [|constructor]. simpl.
    repeat split; auto. rewrite (stored_agreement_found w id Hts). eauto.
  - intros id'. rewrite omap_snoc. simpl. unfold PledgeManager.getAssetInvestors.
    platform_fields. destruct (decide (id = id')) as [<-|Hne].
    + rewrite lookup_insert_eq. simpl. rewrite fmap_app. f_equal. apply Hiv.
    + rewrite lookup_insert_ne by exact Hne. rewrite app_nil_r. apply Hiv.
  - intros c. rewrite omap_snoc. simpl. rewrite app_nil_r. apply Hcl'.
  - intros i. rewrite omap_snoc. simpl. unfold PledgeManager.getInvestorPurchases.
    platform_fields. destruct (decide (sender = i)) as [<-|Hne].
    + rewrite lookup_insert_eq. simpl. f_equal. apply Hix.
    + rewrite lookup_insert_ne by exact Hne. rewrite app_nil_r. apply Hix.
  - rewrite fmap_app, Zsum_app. simpl. lia.
  - rewrite fmap_app, Zsum_app. simpl. lia.
  - lia.
Qed.

Lemma invariant_repayPledge deployer self sender id amount w w' :
  Platform.invariant deployer self w ->
  is_uint256 amount = true ->
  PledgeManager.repayPledge sender id amount w = Ok w' ->
  Platform.invariant deployer self w'.
Proof.
  intros Hinv Hn H.
  apply repayPledge_state in H as (usdt' & token' & Hu & Ht & _ & Hts & Hact & ->).
  destruct Hinv as [Hthis [Hself Hselfa] Hled Hst Hg Hsp Hag Hcr Hnd Hpu Hiv Hcl' Hix Hin Hout Hrev].
  pose proof (reachable_invariant _ _ Hled) as Hli.
  apply uint256_nonneg in Hn.
  pose proof (stored_agreement_found w id Hts) as Hfound.
  set (p := PledgeManager.getPledgeAgreement w id) in *.
  pose proof (Hag _ _ Hfound) as Hok.
  pose proof (tokens_issued_uint _ _ _ Hok) as (Hdv & Hti & _).
  assert (Hdisp : RWAToken.dispatch (PledgeManager.this w) 0
                    (RWAToken.ReleaseAsset (PledgeManager.assetId p) (PledgeManager.this w)
                       (PledgeManager.tokensIssued p))
                    (PledgeManager.rwaToken w) = Ok token') by exact Ht.
  constructor; platform_fields.
  - exact Hthis.
  - auto.
  - eapply ledger_step; [exact Hled | | exact Hdisp].
    simpl. rewrite Hthis, Hselfa, (is_uint256_intro _ Hti). reflexivity.
  - eapply stable_transferFrom_wf; [exact Hu | lia | exact Hst].
  - reflexivity.
  - exact Hsp.
  - intros id' p' Hl. destruct (decide (id = id')) as [<-|Hne].
    + rewrite lookup_insert_eq in Hl. injection Hl as <-.
      pose proof (agreement_ok_ledger_step w
                    (PledgeManager.mkWorld (PledgeManager.this w) token' usdt'
                       (PledgeManager.manager w)) id p _ _ _ Hli Hdisp eq_refl Hok)
        as [H1 H2 H3 H4 H5 H6 H7 H8 H9 H10].
      constructor; simpl; auto.
      cbv zeta in H10. simpl in H10. destruct H10 as (Ha & Hb & Hc & Hd & _).
      repeat split; auto. intros _.
      destruct Hok as [_ _ _ _ _ _ Htok _ Hid0 Hrec0]. cbv zeta in Hrec0.
      destruct Hrec0 as (_ & Hpv & _).
      apply releaseAsset_Ok in Ht as (hook & e' & _ & _ & _ & _ & _ & _ & _ & Hcases).
      destruct Hcases as [(_ & _ & ->)|(Hlt & _)].
      * unfold RWAToken.asset, RWAToken.tokenIdOf. simpl.
        rewrite lookup_insert_eq. reflexivity.
      * rewrite Hpv, Htok in Hlt. lia.
    + rewrite lookup_insert_ne in Hl by exact Hne.
      eapply (agreement_ok_ledger_step w); [exact Hli | exact Hdisp | reflexivity | auto].
  - intros id'. rewrite omap_snoc. simpl. rewrite app_nil_r. rewrite Hcr.
    destruct (decide (id = id')) as [<-|Hne].
    + rewrite lookup_insert_eq, Hfound. split; eauto.
    + rewrite lookup_insert_ne by exact Hne. reflexivity.
  - rewrite omap_snoc. simpl. rewrite app_nil_r. exact Hnd.
  - apply Forall_app. split.
    + eapply Forall_impl; [exact Hpu|]. intros e. apply event_ok_mono.
      intros id0 p0 Hl0. destruct (decide (id = id0)) as [<-|Hne].
      * right. rewrite lookup_insert_eq. congruence.
      * left. rewrite lookup_insert_ne by exact Hne. exact Hl0.
    + constructor; [|constructor]. simpl. eexists. rewrite lookup_insert_eq.
      split; [reflexivity|]. split; reflexivity.
  - intros id'. rewrite omap_snoc. simpl. rewrite app_nil_r. apply Hiv.
  - intros c. rewrite omap_snoc. simpl. rewrite app_nil_r. apply Hcl'.
  - intros i. rewrite omap_snoc. simpl. rewrite app_nil_r. apply Hix.
  - rewrite fmap_app, Zsum_app. simpl. lia.
  - rewrite fmap_app, Zsum_app. simpl. lia.
  - exact Hrev.
Qed.

Lemma invariant_payClient deployer self sender id w w' :
  Platform.invariant deployer self w ->
  PledgeManager.payClient sender id w = Ok w' ->
  Platform.invariant deployer self w'.
Proof.
  intros Hinv H.
  apply payClient_state in H as (usdt' & Hu & _ & Hts & Hact & Hbal & ->).
  destruct Hinv as [Hthis [Hself Hselfa] Hled Hst Hg Hsp Hag Hcr Hnd Hpu Hiv Hcl' Hix Hin Hout Hrev].
  pose proof (stored_agreement_found w id Hts) as Hfound.
  set (p := PledgeManager.getPledgeAgreement w id) in *.
  pose proof (tokens_issued_uint _ _ _ (Hag _ _ Hfound)) as (_ & _ & Hcp).
  constructor; platform_fields; auto.
  - eapply stable_transfer_wf; [exact Hu | lia | exact Hst].
  - intros id' p' Hl. eapply (agreement_ok_same_ledger w); [reflexivity .. | auto].
  - intros id'. rewrite omap_snoc. simpl. rewrite app_nil_r. apply Hcr.
  - rewrite omap_snoc. simpl. rewrite app_nil_r. exact Hnd.
  - apply Forall_app. split; [exact Hpu|]. constructor; [|constructor]. simpl.
    exists p. auto.
  - intros id'. rewrite omap_snoc. simpl. rewrite app_nil_r. apply Hiv.
  - intros c. rewrite omap_snoc. simpl. rewrite app_nil_r. apply Hcl'.
  - intros i. rewrite omap_snoc. simpl. rewrite app_nil_r. apply Hix.
  - rewrite fmap_app, Zsum_app. simpl. lia.
  - rewrite fmap_app, Zsum_app. simpl. lia.
Qed.

Lemma invariant_withdrawRevenue deployer self sender to amount w w' :
  Platform.invariant deployer self w ->
  is_uint256 amount = true ->
  PledgeManager.withdrawRevenue sender to amount w = Ok w' ->
  Platform.invariant deployer self w'.
Proof.
  intros Hinv Hn H.
  apply withdrawRevenue_state in H as (usdt' & Hu & _ & Hto & Hle & ->).
  destruct Hinv as [Hthis [Hself Hselfa] Hled Hst Hg Hsp Hag Hcr Hnd Hpu Hiv Hcl' Hix Hin Hout Hrev].
  apply uint256_nonneg in Hn.
  constructor; platform_fields; auto.
  - eapply stable_transfer_wf; [exact Hu | lia | exact Hst].
  - intros id' p' Hl. eapply (agreement_ok_same_ledger w); [reflexivity .. | auto].
  - lia.
Qed.

Lemma invariant_setSpreadPercentage deployer self sender newSpread w w' :
  Platform.invariant deployer self w ->
  is_uint256 newSpread = true ->
  PledgeManager.setSpreadPercentage sender newSpread w = Ok w' ->
  Platform.invariant deployer self w'.
Proof.
  intros Hinv Hn H.
  apply setSpreadPercentage_state in H as (_ & Hle & ->).
  destruct Hinv as [Hthis [Hself Hselfa] Hled Hst Hg Hsp Hag Hcr Hnd Hpu Hiv Hcl' Hix Hin Hout Hrev].
  apply uint256_nonneg in Hn.
  constructor; platform_fields; auto.
  - lia.
  - intros id' p' Hl. eapply (agreement_ok_same_ledger w); [reflexivity .. | auto].
  - intros id'. rewrite omap_snoc. simpl. rewrite app_nil_r. apply Hcr.
  - rewrite omap_snoc. simpl. rewrite app_nil_r. exact Hnd.
  - apply Forall_app. split; [exact Hpu|]. constructor; [|constructor]. simpl. lia.
  - intros id'. rewrite omap_snoc. simpl. rewrite app_nil_r. apply Hiv.
  - intros c. rewrite omap_snoc. simpl. rewrite app_nil_r. apply Hcl'.
  - intros i. rewrite omap_snoc. simpl. rewrite app_nil_r. apply Hix.
  - rewrite fmap_app, Zsum_app. simpl. lia.
  - rewrite fmap_app, Zsum_app. simpl. lia.
Qed.

Lemma invariant_administrative deployer self sender now c w w' :
  Platform.invariant deployer self w ->
  Platform.administrative c = true ->
  PledgeManager.dispatch sender now c w = Ok w' ->
  Platform.invariant deployer self w'.
Proof.
  intros Hinv Hc H.
  apply administrative_state in H as (roles & paused & ->); [|exact Hc].
  destruct Hinv as [Hthis [Hself Hselfa] Hled Hst Hg Hsp Hag Hcr Hnd Hpu Hiv Hcl' Hix Hin Hout Hrev].
  constructor; platform_fields; auto.
  intros id' p' Hl. eapply (agreement_ok_same_ledger w); [reflexivity .. | auto].
Qed.

Lemma invariant_manager_dispatch deployer self sender now c w w' :
  Platform.invariant deployer self w ->
  is_address sender = true ->
  Platform.manager_well_formed c = true ->
  0 < now ->
  PledgeManager.dispatch sender now c w = Ok w' ->
  Platform.invariant deployer self w'.
Proof.
  intros Hinv Hsender Hwf Hnow H.
  destruct (Platform.administrative c) eqn:Hc;
    [eapply invariant_administrative; eauto|].
  destruct c; try discriminate Hc; simpl in H, Hwf.
  - apply andb_true_iff in Hwf as [_ Hov]. eapply invariant_createPledge; eauto.
  - eapply invariant_payClient; eauto.
  - eapply invariant_purchaseTokens; eauto.
  - eapply invariant_repayPledge; eauto.
  - eapply invariant_setSpreadPercentage; eauto.
  - apply andb_true_iff in Hwf as [_ Hn]. eapply invariant_withdrawRevenue; eauto.
Qed.

Lemma invariant_token_dispatch deployer self sender now c w t :
  Platform.invariant deployer self w ->
  RWAToken.well_formed c = true ->
  RWAToken.dispatch sender now c (PledgeManager.rwaToken w) = Ok t ->
  Platform.invariant deployer self (PledgeManager.set_rwaToken t w).
Proof.
  intros Hinv Hwf H.
  destruct Hinv as [Hthis [Hself Hselfa] Hled Hst Hg Hsp Hag Hcr Hnd Hpu Hiv Hcl' Hix Hin Hout Hrev].
  pose proof (reachable_invariant _ _ Hled) as Hli.
  constructor; auto.
  - simpl. eapply ledger_step; eauto.
  - intros id' p' Hl.
    eapply (agreement_ok_ledger_step w); [exact Hli | exact H | reflexivity | auto].
Qed.

Lemma invariant_stable_frame deployer self w u :
  Platform.invariant deployer self w ->
  Ledger.erc20_wf (MockUSDT.erc20 u) ->
  Platform.invariant deployer self (PledgeManager.set_usdtToken u w).
Proof.
  intros Hinv Hu.
  destruct Hinv as [Hthis [Hself Hselfa] Hled Hst Hg Hsp Hag Hcr Hnd Hpu Hiv Hcl' Hix Hin Hout Hrev].
  constructor; auto.
  intros id' p' Hl. eapply (agreement_ok_same_ledger w); [reflexivity .. | auto].
Qed.

Lemma platform_invariant_dispatch deployer self sender now c w w' :
  Platform.invariant deployer self w ->
  is_address sender = true ->
  Platform.well_formed c = true ->
  0 < now ->
  Platform.dispatch sender now c w = Ok w' ->
  Platform.invariant deployer self w'.
Proof.
  intros Hinv Hsender Hwf Hnow H.
  destruct c as [[c|c|c]|c]; simpl in H, Hwf.
  - ok_steps H. eapply invariant_token_dispatch; eauto.
  - ok_steps H. apply invariant_stable_frame; [exact Hinv|].
    eapply stable_dispatch_wf; eauto. apply Hinv.
  - eapply invariant_manager_dispatch; eauto.
  - ok_steps H. apply invariant_stable_frame; [exact Hinv|].
    eapply inherited_wf; eauto. apply Hinv.
Qed.

(** ** The deployment script *)

Lemma deploy_state deployer self w :
  Platform.deploy deployer self = Ok w ->
  exists u0 u1 u2 ok t1 t2,
    MockUSDT.constructor deployer = Ok u0
    /\ MockUSDT.mint deployer deployer (Platform.parseUnits 1000000 6) u0 = Ok u1
    /\ RWAToken.grantRole deployer PLEDGE_MANAGER_ROLE self (RWAToken.constructor deployer)
       = Ok t1
    /\ RWAToken.grantRole deployer MINTER_ROLE self t1 = Ok t2
    /\ MockUSDT.transfer deployer self (Platform.parseUnits 500000 6) u1 = Ok (u2, ok)
    /\ deployer <> 0
    /\ w = PledgeManager.mkWorld self t2 u2
             (PledgeManager.mk
                (AccessControl._grantRole FINANCE_ROLE deployer
                   (AccessControl._grantRole OPERATOR_ROLE deployer
                      (AccessControl._grantRole DEFAULT_ADMIN_ROLE deployer ∅)))
                false false ∅ ∅ ∅ ∅ 0 0 0 15 []).
Proof.
  unfold Platform.deploy, PledgeManager.constructor. intros H. ok_steps H.
  rewrite Z.eqb_refl in *. cbn [negb] in *.
  cbn [PledgeManager.rwaToken PledgeManager.usdtToken PledgeManager.set_rwaToken
       PledgeManager.set_usdtToken PledgeManager.this PledgeManager.manager] in *.
  match goal with
  | H0 : MockUSDT.constructor _ = Ok ?u0,
    H1 : MockUSDT.mint _ _ _ _ = Ok ?u1,
    H2 : RWAToken.grantRole _ PLEDGE_MANAGER_ROLE _ _ = Ok ?t1,
    H3 : RWAToken.grantRole _ MINTER_ROLE _ _ = Ok ?t2,
    H4 : MockUSDT.transfer _ _ _ _ = Ok (?u2, ?ok) |- _ =>
      exists u0, u1, u2, ok, t1, t2
  end.
  repeat (split; [assumption|]).
  split; [apply Z.eqb_neq, negb_true_iff; assumption|].
  reflexivity.
Qed.

Lemma transfer_to_nonzero hook from to n e e' :
  ERC20._transfer hook from to n e = Ok e' -> from <> 0 /\ to <> 0.
Proof.
  unfold ERC20._transfer. intros H. ok_steps H.
  split; apply Z.eqb_neq, negb_true_iff; assumption.
Qed.

Lemma invariant_deploy deployer self w :
  is_address deployer = true ->
  is_address self = true ->
  Platform.deploy deployer self = Ok w ->
  Platform.invariant deployer self w.
Proof.
  intros Hd Hs H.
  apply deploy_state in H
    as (u0 & u1 & u2 & ok & t1 & t2 & H0 & H1 & H2 & H3 & H4 & Hne & ->).
  assert (Hself : self <> 0).
  { unfold MockUSDT.transfer, ERC20.transfer in H4. ok_steps H4.
    match goal with Ht : ERC20._transfer _ _ _ _ _ = Ok _ |- _ =>
      apply transfer_to_nonzero in Ht as [_ Ht]; exact Ht end. }
  assert (Hu0 : Ledger.erc20_wf (MockUSDT.erc20 u0)).
  { unfold MockUSDT.constructor in H0.
    eapply stable_mint_wf; [exact H0 | vm_compute; discriminate | apply erc20_wf_empty]. }
  assert (Hu1 : Ledger.erc20_wf (MockUSDT.erc20 u1)).
  { unfold MockUSDT.mint in H1. ok_steps H1.
    eapply stable_mint_wf; [eassumption | vm_compute; discriminate | exact Hu0]. }
  assert (Hu2 : Ledger.erc20_wf (MockUSDT.erc20 u2)).
  { eapply stable_transfer_wf; [exact H4 | vm_compute; discriminate | exact Hu1]. }
  constructor; platform_fields; auto.
  - eapply (ledger_step _ t1 deployer 0 (RWAToken.GrantRole MINTER_ROLE self));
      [| exact Hs | exact H3].
    eapply (ledger_step _ _ deployer 0 (RWAToken.GrantRole PLEDGE_MANAGER_ROLE self));
      [apply Ledger.reachable_init | exact Hs | exact H2].
  - lia.
  - intros id p Hl. rewrite lookup_empty in Hl. discriminate.
  - intros id. simpl. rewrite lookup_empty. split.
    + intros Hin. apply elem_of_nil in Hin. contradiction.
    + intros [? ?]. discriminate.
  - simpl. apply NoDup_nil_2.
  - lia.
Qed.

Lemma reachable_platform_invariant deployer self w :
  Platform.reachable deployer self w -> Platform.invariant deployer self w.
Proof.
  induction 1 as [w Hd Hs H | w sender now c _ IH Hsender Hwf Hnow].
  - apply invariant_deploy; assumption.
  - unfold Platform.exec.
    destruct (Platform.dispatch sender now c w) as [w'|e] eqn:Hdisp; simpl.
    + eapply platform_invariant_dispatch; eauto.
    + exact IH.
Qed.

(** ** The registry in every reachable state *)

Lemma testnet_deployed_reachable :
  Platform.reachable Scenario.admin Scenario.registry Testnet.deployed.
Proof.
  apply Platform.reachable_deployed; [reflexivity | reflexivity |].
  vm_compute. reflexivity.
Qed.

Lemma testnet_pledged_reachable :
  Platform.reachable Scenario.admin Scenario.registry Testnet.pledged.
Proof.
  apply Platform.reachable_step;
    [apply testnet_deployed_reachable | reflexivity | reflexivity | lia].
Qed.

Lemma testnet_bought_reachable :
  Platform.reachable Scenario.admin Scenario.registry Testnet.bought.
Proof.
  do 3 (apply Platform.reachable_step; [| reflexivity | reflexivity | lia]).
  apply testnet_pledged_reachable.
Qed.

Lemma testnet_repaid_reachable :
  Platform.reachable Scenario.admin Scenario.registry Testnet.repaid.
Proof.
  apply Platform.reachable_step;
    [apply testnet_pledged_reachable | reflexivity | reflexivity | lia].
Qed.

Lemma reachable_later deployer self w w' :
  Platform.reachable deployer self w -> Platform.later w w' ->
  Platform.reachable deployer self w'.
Proof.
  intros Hr Hl. induction Hl as [|w w' sender now c _ IH Hs Hwf Hnow]; [exact Hr|].
  apply Platform.reachable_step; auto.
Qed.

(** X9. Every agreement of the registry is backed by a record of the
    ledger: in every reachable state the asset id of a stored agreement is
    registered on the ledger, and the record found under it carries the
    agreement's original value, its discounted value as pledged value, the
    registry as pledger and the agreement's timestamp; once the agreement
    is REPAID the record is inactive. *)
Theorem agreement_is_backed_by_ledger_record deployer self w id p :
  Platform.reachable deployer self w ->
  PledgeManager.pledgeAgreements (PledgeManager.manager w) !! id = Some p ->
  exists a,
    RWAToken.getAssetByAssetId (PledgeManager.assetId p) (PledgeManager.rwaToken w) = Ok a
    /\ RWAToken.assetId a = PledgeManager.assetId p
    /\ RWAToken.originalValue a = PledgeManager.originalValue p
    /\ RWAToken.pledgedValue a = PledgeManager.discountedValue p
    /\ RWAToken.pledger a = self
    /\ RWAToken.pledgeTimestamp a = PledgeManager.timestamp p
    /\ (PledgeManager.status p = PledgeManager.REPAID -> RWAToken.isActive a = false).
Proof.
  intros Hreach Hl.
  pose proof (reachable_platform_invariant _ _ _ Hreach) as Hinv.
  destruct (Platform.pi_agreements _ _ _ Hinv _ _ Hl) as [_ _ _ _ _ _ _ _ Hid Hrec].
  cbv zeta in Hrec. destruct Hrec as (Hov & Hpv & Hpl & Hts & Hoff).
  pose proof (reachable_books _ _ (Platform.pi_ledger _ _ _ Hinv)) as Hbk.
  destruct (Books.bk_back _ Hbk _ _ (tokenIdOf_lookup _ _ Hid)) as (a & Ha & Haid).
  assert (Hasset : RWAToken.asset (PledgeManager.rwaToken w)
                     (RWAToken.tokenIdOf (PledgeManager.rwaToken w) (PledgeManager.assetId p))
                   = a).
  { unfold RWAToken.asset. rewrite Ha. reflexivity. }
  rewrite Hasset in *. exists a.
  rewrite (Platform.pi_this _ _ _ Hinv) in Hpl.
  repeat split; auto.
  unfold RWAToken.getAssetByAssetId. cbv zeta.
  apply Z.eqb_neq in Hid. rewrite Hid. simpl. rewrite Hasset. reflexivity.
Qed.

Lemma agreement_is_backed_by_ledger_record_witness :
  exists a,
    RWAToken.getAssetByAssetId "asset-1" (PledgeManager.rwaToken Testnet.repaid) = Ok a
    /\ RWAToken.pledgedValue a = 70000 * ONE_E18
    /\ RWAToken.pledger a = Scenario.registry
    /\ RWAToken.isActive a = false.
Proof.
  destruct (agreement_is_backed_by_ledger_record Scenario.admin Scenario.registry
              Testnet.repaid "agreement-1"
              (PledgeManager.getPledgeAgreement Testnet.repaid "agreement-1")
              testnet_repaid_reachable)
    as (a & Hget & _ & _ & Hpv & Hpl & _ & Hoff).
  - vm_compute. reflexivity.
  - exists a. split; [exact Hget|]. split; [rewrite Hpv; vm_compute; reflexivity|].
    split; [exact Hpl|]. apply Hoff. vm_compute. reflexivity.
Defined.

(** X10. The status of a stored agreement is ACTIVE or REPAID in every
    reachable state: PENDING is never committed, DEFAULTED and RELEASED are
    never assigned. The agreement is stored under its own id, with a
    positive timestamp and a client that is not the zero address. *)
Theorem agreement_status_is_active_or_repaid deployer self w id p :
  Platform.reachable deployer self w ->
  PledgeManager.pledgeAgreements (PledgeManager.manager w) !! id = Some p ->
  PledgeManager.agreementId p = id
  /\ 0 < PledgeManager.timestamp p
  /\ PledgeManager.client p <> 0
  /\ (PledgeManager.status p = PledgeManager.ACTIVE
      \/ PledgeManager.status p = PledgeManager.REPAID).
Proof.
  intros Hreach Hl.
  pose proof (reachable_platform_invariant _ _ _ Hreach) as Hinv.
  destruct (Platform.pi_agreements _ _ _ Hinv _ _ Hl) as [H1 H2 H3 H4 _ _ _ _ _ _].
  auto.
Qed.

Lemma agreement_status_is_active_or_repaid_witness :
  PledgeManager.status (PledgeManager.getPledgeAgreement Testnet.bought "agreement-1")
  = PledgeManager.ACTIVE
  \/ PledgeManager.status (PledgeManager.getPledgeAgreement Testnet.bought "agreement-1")
     = PledgeManager.REPAID.
Proof.
  apply (agreement_status_is_active_or_repaid Scenario.admin Scenario.registry
           Testnet.bought "agreement-1" _ testnet_bought_reachable).
  vm_compute. reflexivity.
Defined.

(** X12. The amounts of a stored agreement, in every reachable state: the
    discounted value is at most the original value, the tokens issued are
    the discounted value's whole units, and the client payment lies between
    half the discounted value and all of it, the spread being between 0 and
    50 at all times. *)
Theorem agreement_amounts_within_bounds deployer self w id p :
  Platform.reachable deployer self w ->
  PledgeManager.pledgeAgreements (PledgeManager.manager w) !! id = Some p ->
  0 <= PledgeManager.spreadPercentage (PledgeManager.manager w) <= 50
  /\ 0 < PledgeManager.originalValue p <= MAX_UINT256
  /\ 0 <= PledgeManager.discountedValue p <= PledgeManager.originalValue p
  /\ PledgeManager.tokensIssued p = PledgeManager.discountedValue p / ONE_E18
  /\ PledgeManager.discountedValue p / 2 <= PledgeManager.clientPayment p
     <= PledgeManager.discountedValue p.
Proof.
  intros Hreach Hl.
  pose proof (reachable_platform_invariant _ _ _ Hreach) as Hinv.
  pose proof (Platform.pi_agreements _ _ _ Hinv _ _ Hl) as Hok.
  pose proof (tokens_issued_uint _ _ _ Hok) as (Hdv & _ & Hcp).
  destruct Hok as [_ _ _ _ Hov _ Hti (spread & Hsp & Hpay) _ _].
  split; [apply Hinv|]. split; [exact Hov|]. split; [exact Hdv|]. split; [exact Hti|].
  split; [|apply Hcp].
  rewrite Hpay.
  replace (PledgeManager.discountedValue p / 2)
    with (PledgeManager.discountedValue p * 50 / 100).
  - apply Z.div_le_mono; [lia | nia].
  - replace 100 with (2 * 50) by reflexivity.
    rewrite Z.div_mul_cancel_r by lia. reflexivity.
Qed.

Lemma agreement_amounts_within_bounds_witness :
  35000 * ONE_E18
  <= PledgeManager.clientPayment (PledgeManager.getPledgeAgreement Testnet.pledged "agreement-1")
  <= 70000 * ONE_E18.
Proof.
  destruct (agreement_amounts_within_bounds Scenario.admin Scenario.registry
              Testnet.pledged "agreement-1"
              (PledgeManager.getPledgeAgreement Testnet.pledged "agreement-1")
              testnet_pledged_reachable)
    as (_ & _ & _ & _ & Hcp).
  - vm_compute. reflexivity.
  - replace (35000 * ONE_E18)
      with (PledgeManager.discountedValue
              (PledgeManager.getPledgeAgreement Testnet.pledged "agreement-1") / 2)
      by (vm_compute; reflexivity).
    replace (70000 * ONE_E18)
      with (PledgeManager.discountedValue
              (PledgeManager.getPledgeAgreement Testnet.pledged "agreement-1"))
      by (vm_compute; reflexivity).
    exact Hcp.
Defined.

Lemma platform_dispatch_agreement sender now c w w' id :
  Platform.dispatch sender now c w = Ok w' ->
  PledgeManager.timestamp (PledgeManager.getPledgeAgreement w id) <> 0 ->
  PledgeManager.getPledgeAgreement w' id = PledgeManager.getPledgeAgreement w id
  \/ PledgeManager.getPledgeAgreement w' id
     = PledgeManager.set_status PledgeManager.REPAID (PledgeManager.getPledgeAgreement w id).
Proof.
  intros H Hts. destruct c as [[c|c|c]|c]; simpl in H.
  - ok_steps H. left. reflexivity.
  - ok_steps H. left. reflexivity.
  - eapply manager_dispatch_agreement; eauto.
  - ok_steps H. left. reflexivity.
Qed.

Lemma set_status_same p :
  PledgeManager.status p = PledgeManager.REPAID ->
  PledgeManager.set_status PledgeManager.REPAID p = p.
Proof. destruct p. simpl. intros ->. reflexivity. Qed.

Lemma repaid_later w w' id :
  Platform.later w w' ->
  PledgeManager.timestamp (PledgeManager.getPledgeAgreement w id) <> 0 ->
  PledgeManager.status (PledgeManager.getPledgeAgreement w id) = PledgeManager.REPAID ->
  PledgeManager.getPledgeAgreement w' id = PledgeManager.getPledgeAgreement w id.
Proof.
  intros Hl Hts Hst. induction Hl as [|w w' sender now c _ IH Hs Hwf Hnow]; [reflexivity|].
  specialize (IH Hts Hst). unfold Platform.exec.
  destruct (Platform.dispatch sender now c w') as [w''|e] eqn:Hd; simpl; [|exact IH].
  destruct (platform_dispatch_agreement _ _ _ _ _ id Hd) as [-> | ->].
  - rewrite IH. exact Hts.
  - exact IH.
  - rewrite IH. apply set_status_same. exact Hst.
Qed.

Lemma payClient_inactive sender id w :
  PledgeManager.timestamp (PledgeManager.getPledgeAgreement w id) <> 0 ->
  PledgeManager.status (PledgeManager.getPledgeAgreement w id) <> PledgeManager.ACTIVE ->
  exists e, PledgeManager.payClient sender id w = Err e
    /\ (PledgeManager.hasRole w FINANCE_ROLE sender = true ->
        PledgeManager._entered (PledgeManager.manager w) = false ->
        e = Revert "Pledge not active").
Proof.
  intros Hts Hst.
  destruct (PledgeManager.payClient sender id w) as [w'|e] eqn:H.
  - apply payClient_state in H as (_ & _ & _ & _ & Hact & _). contradiction.
  - exists e. split; [reflexivity|]. intros Hrole He.
    unfold PledgeManager.payClient, PledgeManager.onlyRole, PledgeManager.nonReentrant in H.
    rewrite (checkRole_held _ _ _ Hrole), He in H. cbv beta zeta in H.
    change (PledgeManager.getPledgeAgreement
              (PledgeManager.update (PledgeManager.set_entered true) w) id)
      with (PledgeManager.getPledgeAgreement w id) in H.
    apply Z.eqb_neq in Hts. rewrite Hts in H.
    rewrite (bool_decide_eq_false_2 _ Hst) in H.
    simpl in H. congruence.
Qed.

Lemma repayPledge_inactive sender id amount w :
  PledgeManager.timestamp (PledgeManager.getPledgeAgreement w id) <> 0 ->
  PledgeManager.status (PledgeManager.getPledgeAgreement w id) <> PledgeManager.ACTIVE ->
  exists e, PledgeManager.repayPledge sender id amount w = Err e
    /\ (PledgeManager.hasRole w FINANCE_ROLE sender = true ->
        PledgeManager._entered (PledgeManager.manager w) = false ->
        e = Revert "Pledge not active").
Proof.
  intros Hts Hst.
  destruct (PledgeManager.repayPledge sender id amount w) as [w'|e] eqn:H.
  - apply repayPledge_state in H as (_ & _ & _ & _ & _ & _ & Hact & _). contradiction.
  - exists e. split; [reflexivity|]. intros Hrole He.
    unfold PledgeManager.repayPledge, PledgeManager.onlyRole, PledgeManager.nonReentrant in H.
    rewrite (checkRole_held _ _ _ Hrole), He in H. cbv beta zeta in H.
    change (PledgeManager.getPledgeAgreement
              (PledgeManager.update (PledgeManager.set_entered true) w) id)
      with (PledgeManager.getPledgeAgreement w id) in H.
    apply Z.eqb_neq in Hts. rewrite Hts in H.
    rewrite (bool_decide_eq_false_2 _ Hst) in H.
    simpl in H. congruence.
Qed.

Lemma purchaseTokens_inactive sender now id n pid w :
  PledgeManager.timestamp (PledgeManager.getPledgeAgreement w id) <> 0 ->
  PledgeManager.status (PledgeManager.getPledgeAgreement w id) <> PledgeManager.ACTIVE ->
  exists e, PledgeManager.purchaseTokens sender now id n pid w = Err e
    /\ (PledgeManager._paused (PledgeManager.manager w) = false ->
        PledgeManager._entered (PledgeManager.manager w) = false ->
        e = Revert "Pledge not active").
Proof.
  intros Hts Hst.
  destruct (PledgeManager.purchaseTokens sender now id n pid w) as [w'|e] eqn:H.
  - apply purchaseTokens_state in H as (_ & _ & _ & _ & _ & Hact & _). contradiction.
  - exists e. split; [reflexivity|]. intros Hp He.
    unfold PledgeManager.purchaseTokens, PledgeManager.whenNotPaused,
      PledgeManager.nonReentrant in H.
    rewrite Hp, He in H. cbv beta zeta in H.
    change (PledgeManager.getPledgeAgreement
              (PledgeManager.update (PledgeManager.set_entered true) w) id)
      with (PledgeManager.getPledgeAgreement w id) in H.
    apply Z.eqb_neq in Hts. rewrite Hts in H.
    rewrite (bool_decide_eq_false_2 _ Hst) in H.
    simpl in H. congruence.
Qed.

(** X11. REPAID is final. Once an agreement is REPAID in a reachable
    state, no later transaction changes its record, and [payClient],
    [repayPledge] and [purchaseTokens] on it revert and change nothing, with
    "Pledge not active" for a caller that passes the role check (the pause
    check for a purchase). *)
Theorem repaid_agreement_is_final deployer self w w' id p :
  Platform.reachable deployer self w ->
  PledgeManager.pledgeAgreements (PledgeManager.manager w) !! id = Some p ->
  PledgeManager.status p = PledgeManager.REPAID ->
  Platform.later w w' ->
  PledgeManager.pledgeAgreements (PledgeManager.manager w') !! id = Some p
  /\ (forall sender now, exists e,
        Platform.exec sender now
          (Platform.Declared (System.ToManager (PledgeManager.PayClient id))) w'
        = (w', Some e)
        /\ (PledgeManager.hasRole w' FINANCE_ROLE sender = true ->
            e = Revert "Pledge not active"))
  /\ (forall sender now amount, exists e,
        Platform.exec sender now
          (Platform.Declared (System.ToManager (PledgeManager.RepayPledge id amount))) w'
        = (w', Some e)
        /\ (PledgeManager.hasRole w' FINANCE_ROLE sender = true ->
            e = Revert "Pledge not active"))
  /\ (forall sender now n pid, exists e,
        Platform.exec sender now
          (Platform.Declared (System.ToManager (PledgeManager.PurchaseTokens id n pid))) w'
        = (w', Some e)
        /\ (PledgeManager._paused (PledgeManager.manager w') = false ->
            e = Revert "Pledge not active")).
Proof.
  intros Hreach Hl Hst Hlater.
  pose proof (reachable_platform_invariant _ _ _ Hreach) as Hinv.
  pose proof (reachable_platform_invariant _ _ _ (reachable_later _ _ _ _ Hreach Hlater))
    as Hinv'.
  pose proof (Platform.ag_time _ _ _ (Platform.pi_agreements _ _ _ Hinv _ _ Hl)) as Hts.
  assert (Hget : PledgeManager.getPledgeAgreement w id = p).
  { unfold PledgeManager.getPledgeAgreement. rewrite Hl. reflexivity. }
  assert (Hget' : PledgeManager.getPledgeAgreement w' id = p).
  { rewrite <- Hget. apply repaid_later; rewrite ?Hget; [exact Hlater | lia | exact Hst]. }
  assert (Hts' : PledgeManager.timestamp (PledgeManager.getPledgeAgreement w' id) <> 0)
    by (rewrite Hget'; lia).
  assert (Hst' : PledgeManager.status (PledgeManager.getPledgeAgreement w' id)
                 <> PledgeManager.ACTIVE) by (rewrite Hget', Hst; discriminate).
  pose proof (Platform.pi_guard _ _ _ Hinv') as Hg.
  split; [rewrite <- Hget'; apply stored_agreement_found; exact Hts'|].
  split; [|split].
  - intros sender now.
    destruct (payClient_inactive sender id w' Hts' Hst') as (e & He & Hwhy).
    exists e. unfold Platform.exec. simpl. rewrite He. split; [reflexivity|]. auto.
  - intros sender now amount.
    destruct (repayPledge_inactive sender id amount w' Hts' Hst') as (e & He & Hwhy).
    exists e. unfold Platform.exec. simpl. rewrite He. split; [reflexivity|]. auto.
  - intros sender now n pid.
    destruct (purchaseTokens_inactive sender now id n pid w' Hts' Hst') as (e & He & Hwhy).
    exists e. unfold Platform.exec. simpl. rewrite He. split; [reflexivity|]. auto.
Qed.

Lemma repaid_agreement_is_final_witness :
  Platform.exec Scenario.admin 2000
    (Platform.Declared (System.ToManager (PledgeManager.PayClient "agreement-1")))
    Testnet.repaid
  = (Testnet.repaid, Some (Revert "Pledge not active")).
Proof.
  destruct (repaid_agreement_is_final Scenario.admin Scenario.registry
              Testnet.repaid Testnet.repaid "agreement-1"
              (PledgeManager.getPledgeAgreement Testnet.repaid "agreement-1")
              testnet_repaid_reachable)
    as (_ & Hpay & _).
  - vm_compute. reflexivity.
  - vm_compute. reflexivity.
  - apply Platform.later_refl.
  - destruct (Hpay Scenario.admin 2000) as (e & He & Hwhy).
    rewrite He, Hwhy; [reflexivity|]. vm_compute. reflexivity.
Defined.

(** X13. The purchase records mirror the event log: in every reachable
    state the records listed for an agreement are, in order, the
    [TokensPurchased] events of that agreement (investor, token amount,
    amount paid and purchase id), the agreements listed for an investor are
    the ones of the investor's [TokensPurchased] events, and every record
    has a positive token amount, priced at [1e6] stable units a token, on an
    agreement that is stored. *)
Theorem purchase_records_mirror_event_log deployer self w id :
  Platform.reachable deployer self w ->
  Platform.purchase_fields <$> PledgeManager.getAssetInvestors w id
  = omap (Platform.purchase_of id) (PledgeManager.events (PledgeManager.manager w))
  /\ (forall i, PledgeManager.getInvestorPurchases w i
                = omap (Platform.purchase_by i)
                    (PledgeManager.events (PledgeManager.manager w)))
  /\ (forall q, q ∈ PledgeManager.getAssetInvestors w id ->
        0 < PledgeManager.tokenAmount q
        /\ PledgeManager.usdtPaid q = PledgeManager.tokenAmount q * ONE_E6
        /\ is_Some (PledgeManager.pledgeAgreements (PledgeManager.manager w) !! id)).
Proof.
  intros Hreach.
  pose proof (reachable_platform_invariant _ _ _ Hreach) as Hinv.
  split; [apply Hinv|]. split; [apply Hinv|].
  intros q Hq.
  apply (list_elem_of_fmap_2 Platform.purchase_fields) in Hq.
  rewrite (Platform.pi_investors _ _ _ Hinv) in Hq.
  apply list_elem_of_omap in Hq as (e & He & Hf).
  pose proof (Platform.pi_events _ _ _ Hinv) as Hev.
  rewrite Forall_forall in Hev. specialize (Hev e He).
  destruct e; simpl in Hf; try discriminate.
  destruct (decide (agreementId = id)) as [->|]; [|discriminate].
  injection Hf as _ Hn Hp _. simpl in Hev. rewrite <- Hn, <- Hp. exact Hev.
Qed.

Lemma purchase_records_mirror_event_log_witness :
  Platform.purchase_fields <$> PledgeManager.getAssetInvestors Testnet.bought "agreement-1"
  = [(Scenario.investor, 1000, 1000 * ONE_E6, "purchase-1")].
Proof.
  destruct (purchase_records_mirror_event_log Scenario.admin Scenario.registry
              Testnet.bought "agreement-1" testnet_bought_reachable) as (Hlog & _).
  rewrite Hlog. vm_compute. reflexivity.
Defined.

Lemma pledge_of_sublist c (l : list PledgeManager.event) :
  omap (Platform.pledge_of c) l `sublist_of` omap Platform.created_id l.
Proof.
  induction l as [|e l IH]; [constructor|].
  destruct e; simpl; try exact IH.
  destruct (decide (client = c)); [apply sublist_skip | apply sublist_cons]; exact IH.
Qed.

(** X14. The client index and the agreement table agree: in every
    reachable state [getClientPledges] of a client lists, in the order of
    their [PledgeCreated] events and each once, exactly the ids of the
    stored agreements whose client it is. *)
Theorem client_index_lists_the_clients_agreements deployer self w c :
  Platform.reachable deployer self w ->
  PledgeManager.getClientPledges w c
  = omap (Platform.pledge_of c) (PledgeManager.events (PledgeManager.manager w))
  /\ NoDup (PledgeManager.getClientPledges w c)
  /\ (forall id, id ∈ PledgeManager.getClientPledges w c
        <-> exists p, PledgeManager.pledgeAgreements (PledgeManager.manager w) !! id = Some p
                      /\ PledgeManager.client p = c).
Proof.
  intros Hreach.
  pose proof (reachable_platform_invariant _ _ _ Hreach) as Hinv.
  pose proof (Platform.pi_events _ _ _ Hinv) as Hev. rewrite Forall_forall in Hev.
  split; [apply Hinv|]. rewrite (Platform.pi_clients _ _ _ Hinv). split.
  - eapply sublist_NoDup; [apply Hinv | apply pledge_of_sublist].
  - intros id. rewrite list_elem_of_omap. split.
    + intros (e & He & Hf). specialize (Hev e He).
      destruct e; simpl in Hf; try discriminate.
      destruct (decide (client = c)) as [->|]; [|discriminate].
      injection Hf as ->. simpl in Hev. destruct Hev as (p & Hl & Hc & _). eauto.
    + intros (p & Hl & Hc).
      assert (Hin : id ∈ omap Platform.created_id
                           (PledgeManager.events (PledgeManager.manager w)))
        by (apply (Platform.pi_created _ _ _ Hinv); eauto).
      apply list_elem_of_omap in Hin as (e & He & Hf).
      exists e. split; [exact He|]. specialize (Hev e He).
      destruct e; simpl in Hf; try discriminate.
      injection Hf as ->. simpl in Hev. destruct Hev as (p' & Hl' & Hc' & _).
      simpl. rewrite Hl in Hl'. injection Hl' as <-.
      rewrite <- Hc', Hc. rewrite decide_True by reflexivity. reflexivity.
Qed.

Lemma client_index_lists_the_clients_agreements_witness :
  PledgeManager.getClientPledges Testnet.bought Scenario.client = ["agreement-1"].
Proof.
  destruct (client_index_lists_the_clients_agreements Scenario.admin Scenario.registry
              Testnet.bought Scenario.client testnet_bought_reachable) as (Hlog & _).
  rewrite Hlog. vm_compute. reflexivity.
Defined.

(** X15. The accumulators against the event log: in every reachable state
    [totalInvestorPayments] is the sum of the amounts of the
    [TokensPurchased] events and [totalClientPayments] the sum of the
    amounts of the [ClientPaid] events; [platformRevenue] is never negative
    and never more than half of [totalInvestorPayments]. *)
Theorem accumulators_match_event_log deployer self w :
  Platform.reachable deployer self w ->
  let m := PledgeManager.manager w in
  PledgeManager.getFinancialSummary w
  = (Ledger.Zsum (Platform.paid_out <$> PledgeManager.events m),
     Ledger.Zsum (Platform.paid_in <$> PledgeManager.events m),
     PledgeManager.platformRevenue m, PledgeManager.spreadPercentage m)
  /\ 0 <= PledgeManager.platformRevenue m
  /\ 2 * PledgeManager.platformRevenue m <= PledgeManager.totalInvestorPayments m
  /\ 0 <= PledgeManager.spreadPercentage m <= 50.
Proof.
  intros Hreach m.
  pose proof (reachable_platform_invariant _ _ _ Hreach) as Hinv.
  split; [|split; [apply Hinv | split; apply Hinv]].
  unfold PledgeManager.getFinancialSummary. subst m.
  rewrite (Platform.pi_in _ _ _ Hinv), (Platform.pi_out _ _ _ Hinv). reflexivity.
Qed.

Lemma accumulators_match_event_log_witness :
  PledgeManager.getFinancialSummary Testnet.bought = (0, 1000 * ONE_E6, 150 * ONE_E6, 15)
  /\ 2 * PledgeManager.platformRevenue (PledgeManager.manager Testnet.bought)
     <= 1000 * ONE_E6.
Proof.
  destruct (accumulators_match_event_log Scenario.admin Scenario.registry
              Testnet.bought testnet_bought_reachable) as (Hsum & _ & Hrev & _).
  split.
  - rewrite Hsum. vm_compute. reflexivity.
  - replace (1000 * ONE_E6)
      with (PledgeManager.totalInvestorPayments (PledgeManager.manager Testnet.bought))
      by (vm_compute; reflexivity).
    exact Hrev.
Defined.

(** X27. The registry drives the ledger by ledger transactions only: the
    ledger of every reachable platform state is a reachable ledger state,
    so that whatever holds in every reachable ledger state holds for the
    ledger behind the registry, whatever registry operations ran. *)
Theorem platform_ledger_is_reachable deployer self w :
  Platform.reachable deployer self w ->
  Ledger.reachable deployer (PledgeManager.rwaToken w)
  /\ PledgeManager.this w = self.
Proof.
  intros Hreach.
  pose proof (reachable_platform_invariant _ _ _ Hreach) as Hinv.
  split; apply Hinv.
Qed.

Lemma platform_ledger_is_reachable_witness :
  Ledger.reachable Scenario.admin (PledgeManager.rwaToken Testnet.bought).
Proof.
  apply (platform_ledger_is_reachable Scenario.admin Scenario.registry Testnet.bought
           testnet_bought_reachable).
Defined.

(** ** What the settlement operations move *)

Lemma transfer_needs_balance hook from to n e e' :
  ERC20._transfer hook from to n e = Ok e' -> n <= ERC20.balanceOf e from.
Proof.
  unfold ERC20._transfer. intros H. ok_steps H.
  match goal with Hle : (_ <=? _) = true |- _ => apply Z.leb_le in Hle; exact Hle end.
Qed.

Lemma stable_transfer_balances sender to n u u' ok :
  MockUSDT.transfer sender to n u = Ok (u', ok) ->
  Ledger.erc20_wf (MockUSDT.erc20 u) -> 0 <= n -> sender <> to ->
  MockUSDT.balanceOf u' sender = MockUSDT.balanceOf u sender - n
  /\ MockUSDT.balanceOf u' to = MockUSDT.balanceOf u to + n
  /\ (forall b, b <> sender -> b <> to -> MockUSDT.balanceOf u' b = MockUSDT.balanceOf u b)
  /\ n <= MockUSDT.balanceOf u sender.
Proof.
  unfold MockUSDT.transfer, ERC20.transfer. intros H Hwf Hn Hne. ok_steps H.
  injection H as <- <-.
  match goal with Ht : ERC20._transfer _ _ _ _ _ = Ok _ |- _ =>
    pose proof (transfer_balances _ _ _ _ _ _ Ht Hwf Hn Hne) as (H1 & H2 & H3);
    pose proof (transfer_needs_balance _ _ _ _ _ _ Ht) as H4 end.
  unfold MockUSDT.balanceOf. simpl. repeat split; auto.
Qed.

Lemma stable_transferFrom_balances sender from to n u u' ok :
  MockUSDT.transferFrom sender from to n u = Ok (u', ok) ->
  Ledger.erc20_wf (MockUSDT.erc20 u) -> 0 <= n -> from <> to ->
  MockUSDT.balanceOf u' from = MockUSDT.balanceOf u from - n
  /\ MockUSDT.balanceOf u' to = MockUSDT.balanceOf u to + n
  /\ (forall b, b <> from -> b <> to -> MockUSDT.balanceOf u' b = MockUSDT.balanceOf u b)
  /\ n <= MockUSDT.balanceOf u from.
Proof.
  unfold MockUSDT.transferFrom, ERC20.transferFrom. intros H Hwf Hn Hne. ok_steps H.
  injection H as <- <-.
  match goal with Hsp : ERC20._spendAllowance _ _ _ _ = Ok _ |- _ =>
    apply spendAllowance_frame in Hsp as [Hb1 Ht1] end.
  match goal with Ht : ERC20._transfer _ _ _ _ ?e1 = Ok _ |- _ =>
    assert (Hwf1 : Ledger.erc20_wf e1)
      by (eapply erc20_wf_frame; [exact Hb1 | exact Ht1 | exact Hwf]);
    pose proof (transfer_balances _ _ _ _ _ _ Ht Hwf1 Hn Hne) as (H1 & H2 & H3);
    pose proof (transfer_needs_balance _ _ _ _ _ _ Ht) as H4 end.
  unfold MockUSDT.balanceOf, ERC20.balanceOf in *. simpl. rewrite Hb1 in *.
  repeat split; auto.
Qed.

Lemma token_transfer_balances sender to n s s' ok :
  RWAToken.transfer sender to n s = Ok (s', ok) ->
  Ledger.erc20_wf (RWAToken.erc20 s) -> 0 <= n -> sender <> to ->
  RWAToken.balanceOf s' sender = RWAToken.balanceOf s sender - n
  /\ RWAToken.balanceOf s' to = RWAToken.balanceOf s to + n
  /\ (forall b, b <> sender -> b <> to -> RWAToken.balanceOf s' b = RWAToken.balanceOf s b)
  /\ RWAToken.totalSupply s' = RWAToken.totalSupply s.
Proof.
  unfold RWAToken.transfer, ERC20.transfer. intros H Hwf Hn Hne. ok_steps H.
  injection H as <- <-.
  match goal with Ht : ERC20._transfer _ _ _ _ _ = Ok _ |- _ =>
    pose proof (transfer_balances _ _ _ _ _ _ Ht Hwf Hn Hne) as (H1 & H2 & H3);
    pose proof (transfer_spec _ _ _ _ _ _ Ht Hwf Hn) as (_ & Hts & _) end.
  unfold RWAToken.balanceOf, RWAToken.totalSupply, ERC20.totalSupply. simpl.
  repeat split; auto.
Qed.

(** X16. What a successful [purchaseTokens] moves, on a reachable state
    and for an investor other than the registry: [tokenAmount] tokens go from
    the registry to the investor, [tokenAmount * 1e6] stable units from the
    investor to the registry; the purchase is appended to the agreement's
    records and the agreement to the investor's list;
    [totalInvestorPayments] grows by the amount paid and [platformRevenue]
    by [spreadPercentage] percent of it, rounded down. The agreement itself
    and the token supply do not change. *)
Theorem purchaseTokens_effects deployer self sender now id n pid w w' :
  Platform.reachable deployer self w ->
  sender <> self ->
  PledgeManager.purchaseTokens sender now id n pid w = Ok w' ->
  let m := PledgeManager.manager w in
  let m' := PledgeManager.manager w' in
  let paid := n * ONE_E6 in
  0 < n
  /\ PledgeManager.status (PledgeManager.getPledgeAgreement w id) = PledgeManager.ACTIVE
  /\ RWAToken.balanceOf (PledgeManager.rwaToken w') sender
     = RWAToken.balanceOf (PledgeManager.rwaToken w) sender + n
  /\ RWAToken.balanceOf (PledgeManager.rwaToken w') self
     = RWAToken.balanceOf (PledgeManager.rwaToken w) self - n
  /\ RWAToken.totalSupply (PledgeManager.rwaToken w')
     = RWAToken.totalSupply (PledgeManager.rwaToken w)
  /\ MockUSDT.balanceOf (PledgeManager.usdtToken w') sender
     = MockUSDT.balanceOf (PledgeManager.usdtToken w) sender - paid
  /\ MockUSDT.balanceOf (PledgeManager.usdtToken w') self
     = MockUSDT.balanceOf (PledgeManager.usdtToken w) self + paid
  /\ PledgeManager.getAssetInvestors w' id
     = PledgeManager.getAssetInvestors w id
       ++ [PledgeManager.mkPurchase sender n paid now pid]
  /\ PledgeManager.getInvestorPurchases w' sender
     = PledgeManager.getInvestorPurchases w sender ++ [id]
  /\ PledgeManager.totalInvestorPayments m' = PledgeManager.totalInvestorPayments m + paid
  /\ PledgeManager.platformRevenue m'
     = PledgeManager.platformRevenue m + paid * PledgeManager.spreadPercentage m / 100
  /\ PledgeManager.pledgeAgreements m' = PledgeManager.pledgeAgreements m.
Proof.
  intros Hreach Hne H m m' paid.
  pose proof (reachable_platform_invariant _ _ _ Hreach) as Hinv.
  pose proof (reachable_invariant _ _ (Platform.pi_ledger _ _ _ Hinv)) as Hli.
  apply purchaseTokens_state in H
    as (usdt' & token' & Hu & Ht & Hts & Hact & Hpos & Hbal & Hw).
  rewrite (Platform.pi_this _ _ _ Hinv) in Hu, Ht.
  assert (Hpaid : 0 <= n * ONE_E6) by (unfold ONE_E6; lia).
  destruct (token_transfer_balances _ _ _ _ _ _ Ht (Ledger.inv_erc20 _ Hli)
              ltac:(lia) ltac:(congruence)) as (Ht1 & Ht2 & _ & Ht4).
  destruct (stable_transferFrom_balances _ _ _ _ _ _ _ Hu (Platform.pi_stable _ _ _ Hinv)
              Hpaid Hne) as (Hu1 & Hu2 & _).
  subst m' w'. unfold PledgeManager.getAssetInvestors, PledgeManager.getInvestorPurchases.
  cbn [PledgeManager.manager PledgeManager.rwaToken PledgeManager.usdtToken
       PledgeManager.assetInvestors PledgeManager.investorPurchases
       PledgeManager.totalInvestorPayments PledgeManager.platformRevenue
       PledgeManager.pledgeAgreements].
  rewrite !lookup_insert_eq. simpl.
  repeat split; auto.
Qed.

Lemma purchaseTokens_effects_witness :
  RWAToken.balanceOf (PledgeManager.rwaToken Testnet.bought) Scenario.investor = 1000
  /\ MockUSDT.balanceOf (PledgeManager.usdtToken Testnet.bought) Scenario.registry
     = 501000 * ONE_E6
  /\ PledgeManager.platformRevenue (PledgeManager.manager Testnet.bought) = 150 * ONE_E6.
Proof.
  assert (Hrun : PledgeManager.purchaseTokens Scenario.investor 1200 "agreement-1" 1000
                   "purchase-1" Testnet.approved = Ok Testnet.bought)
    by (vm_compute; reflexivity).
  assert (Hreach : Platform.reachable Scenario.admin Scenario.registry Testnet.approved).
  { do 2 (apply Platform.reachable_step; [| reflexivity | reflexivity | lia]).
    apply testnet_pledged_reachable. }
  destruct (purchaseTokens_effects Scenario.admin Scenario.registry Scenario.investor 1200
              "agreement-1" 1000 "purchase-1" Testnet.approved Testnet.bought
              Hreach ltac:(discriminate) Hrun)
    as (_ & _ & Ht & _ & _ & _ & Hu & _ & _ & _ & Hrev & _).
  split; [rewrite Ht; vm_compute; reflexivity|].
  split; [rewrite Hu; vm_compute; reflexivity|].
  rewrite Hrev. vm_compute. reflexivity.
Defined.




(** X18. [withdrawRevenue] on a reachable state succeeds exactly when the
    caller holds the finance role, the recipient is not the zero address,
    and the amount is covered both by [platformRevenue] and by the stable
    balance of the registry, the pool the client payouts are made from; it
    then moves the amount to the recipient and takes it off
    [platformRevenue]. *)
Theorem withdrawRevenue_succeeds_iff deployer self sender to amount w :
  Platform.reachable deployer self w ->
  0 <= amount ->
  ((exists w', PledgeManager.withdrawRevenue sender to amount w = Ok w')
   <-> (PledgeManager.hasRole w FINANCE_ROLE sender = true
        /\ to <> 0
        /\ amount <= PledgeManager.platformRevenue (PledgeManager.manager w)
        /\ amount <= MockUSDT.balanceOf (PledgeManager.usdtToken w) self))
  /\ (forall w', PledgeManager.withdrawRevenue sender to amount w = Ok w' ->
        to <> self ->
        MockUSDT.balanceOf (PledgeManager.usdtToken w') to
        = MockUSDT.balanceOf (PledgeManager.usdtToken w) to + amount
        /\ MockUSDT.balanceOf (PledgeManager.usdtToken w') self
           = MockUSDT.balanceOf (PledgeManager.usdtToken w) self - amount
        /\ PledgeManager.platformRevenue (PledgeManager.manager w')
           = PledgeManager.platformRevenue (PledgeManager.manager w) - amount
        /\ PledgeManager.totalInvestorPayments (PledgeManager.manager w')
           = PledgeManager.totalInvestorPayments (PledgeManager.manager w)).
Proof.
  intros Hreach Hamount.
  pose proof (reachable_platform_invariant _ _ _ Hreach) as Hinv.
  pose proof (Platform.pi_this _ _ _ Hinv) as Hthis.
  destruct (Platform.pi_self _ _ _ Hinv) as [Hself _].
  split; [split|].
  - intros (w' & H).
    apply withdrawRevenue_state in H as (usdt' & Hu & Hrole & Hto & Hle & _).
    rewrite Hthis in Hu.
    repeat split; auto.
    unfold MockUSDT.transfer, ERC20.transfer in Hu. ok_steps Hu.
    match goal with Ht : ERC20._transfer _ _ _ _ _ = Ok _ |- _ =>
      apply transfer_needs_balance in Ht; exact Ht end.
  - intros (Hrole & Hto & Hle & Hbal).
    unfold PledgeManager.withdrawRevenue, PledgeManager.onlyRole.
    rewrite (checkRole_held _ _ _ Hrole).
    apply Z.eqb_neq in Hto. apply Z.leb_le in Hle.
    cbn [mbind result_bind]. rewrite Hto, Hle. cbn [negb require].
    unfold MockUSDT.transfer, ERC20.transfer. rewrite Hthis.
    rewrite transfer_runs;
      [| exact Hself | apply Z.eqb_neq; exact Hto | reflexivity | exact Hbal].
    cbn [mbind result_bind require]. unfold checked_sub.
    cbn [PledgeManager.manager PledgeManager.set_usdtToken PledgeManager.platformRevenue].
    rewrite Hle. eauto.
  - intros w' H Hne.
    apply withdrawRevenue_state in H as (usdt' & Hu & _ & _ & _ & ->).
    rewrite Hthis in Hu.
    destruct (stable_transfer_balances _ _ _ _ _ _ Hu (Platform.pi_stable _ _ _ Hinv)
                Hamount ltac:(congruence)) as (Hu1 & Hu2 & _).
    cbn [PledgeManager.manager PledgeManager.usdtToken PledgeManager.platformRevenue
         PledgeManager.totalInvestorPayments].
    auto.
Qed.

Lemma withdrawRevenue_succeeds_iff_witness :
  exists w', PledgeManager.withdrawRevenue Scenario.admin Scenario.outsider (100 * ONE_E6)
               Testnet.bought = Ok w'.
Proof.
  apply (withdrawRevenue_succeeds_iff Scenario.admin Scenario.registry Scenario.admin
           Scenario.outsider (100 * ONE_E6) Testnet.bought testnet_bought_reachable).
  - vm_compute. discriminate.
  - repeat split; vm_compute; (reflexivity || discriminate).
Defined.

(** ** The scripts *)

Lemma stable_mint_runs to n u :
  to <> 0 -> ERC20._totalSupply (MockUSDT.erc20 u) + n <= MAX_UINT256 ->
  exists u', MockUSDT._mint to n u = Ok u'.
Proof.
  intros Hto Hle. unfold MockUSDT._mint, ERC20._mint, MockUSDT._beforeTokenTransfer.
  apply Z.eqb_neq in Hto. rewrite Hto. cbn [negb require mbind result_bind].
  unfold checked_add. apply Z.leb_le in Hle. rewrite Hle.
  cbn [mbind result_bind]. eauto.
Qed.

Lemma mint_needs hook account n e e' :
  ERC20._mint hook account n e = Ok e' ->
  account <> 0 /\ ERC20._totalSupply e + n <= MAX_UINT256.
Proof.
  unfold ERC20._mint. intros H. ok_steps H. split; [|assumption].
  match goal with Hz : negb (account =? 0) = true |- _ =>
    apply negb_true_iff, Z.eqb_neq in Hz; exact Hz end.
Qed.

Lemma stable_mint_spec to n u u' :
  MockUSDT._mint to n u = Ok u' ->
  Ledger.erc20_wf (MockUSDT.erc20 u) -> 0 <= n ->
  Ledger.erc20_wf (MockUSDT.erc20 u')
  /\ MockUSDT._owner u' = MockUSDT._owner u
  /\ ERC20._totalSupply (MockUSDT.erc20 u') = ERC20._totalSupply (MockUSDT.erc20 u) + n
  /\ MockUSDT.balanceOf u' to = MockUSDT.balanceOf u to + n
  /\ (forall b, b <> to -> MockUSDT.balanceOf u' b = MockUSDT.balanceOf u b)
  /\ to <> 0
  /\ ERC20._totalSupply (MockUSDT.erc20 u) + n <= MAX_UINT256.
Proof.
  unfold MockUSDT._mint. intros H Hwf Hn. ok_steps H.
  match goal with Ht : ERC20._mint _ _ _ _ = Ok _ |- _ =>
    pose proof (mint_spec _ _ _ _ _ Ht Hwf Hn) as (H1 & H2 & H3 & H4 & _);
    pose proof (mint_needs _ _ _ _ _ Ht) as (H5 & H6) end.
  unfold MockUSDT.balanceOf. simpl. split; [exact H1|]. repeat split; auto.
Qed.

Lemma stable_transfer_runs sender to n u :
  sender <> 0 -> to <> 0 -> n <= MockUSDT.balanceOf u sender ->
  exists u', MockUSDT.transfer sender to n u = Ok (u', true).
Proof.
  intros Hs Hto Hle. unfold MockUSDT.transfer, ERC20.transfer.
  rewrite transfer_runs; [| exact Hs | exact Hto | reflexivity | exact Hle].
  cbn [mbind result_bind]. eauto.
Qed.

Lemma token_grantRole_runs sender role account s :
  RWAToken.hasRole s DEFAULT_ADMIN_ROLE sender = true ->
  RWAToken.grantRole sender role account s
  = Ok (RWAToken.set_roles (AccessControl._grantRole role account (RWAToken._roles s)) s).
Proof.
  intros Hrole. unfold RWAToken.grantRole, AccessControl.grantRole, AccessControl.getRoleAdmin.
  rewrite (checkRole_held _ _ _ Hrole). reflexivity.
Qed.

Lemma manager_grantRole_runs sender role account w :
  PledgeManager.hasRole w DEFAULT_ADMIN_ROLE sender = true ->
  PledgeManager.grantRole sender role account w
  = Ok (PledgeManager.update
          (PledgeManager.set_roles
             (AccessControl._grantRole role account
                (PledgeManager._roles (PledgeManager.manager w)))) w).
Proof.
  intros Hrole.
  unfold PledgeManager.grantRole, AccessControl.grantRole, AccessControl.getRoleAdmin.
  rewrite (checkRole_held _ _ _ Hrole). reflexivity.
Qed.

Lemma hasRole_grant roles role account r a :
  AccessControl.hasRole (AccessControl._grantRole role account roles) r a
  = AccessControl.hasRole roles r a || bool_decide (r = role /\ a = account).
Proof.
  unfold AccessControl.hasRole, AccessControl._grantRole.
  apply eq_true_iff_eq. rewrite orb_true_iff, !bool_decide_eq_true.
  rewrite elem_of_union, elem_of_singleton. split.
  - intros [?|[= -> ->]]; auto.
  - intros [?|[-> ->]]; auto.
Qed.

Lemma hasRole_grant_same roles r a :
  AccessControl.hasRole (AccessControl._grantRole r a roles) r a = true.
Proof. rewrite hasRole_grant, bool_decide_eq_true_2 by auto. apply orb_true_r. Qed.

Lemma hasRole_grant_keep roles role account r a :
  AccessControl.hasRole roles r a = true ->
  AccessControl.hasRole (AccessControl._grantRole role account roles) r a = true.
Proof. intros H. rewrite hasRole_grant, H. reflexivity. Qed.

Lemma hasRole_empty r a : AccessControl.hasRole ∅ r a = false.
Proof. unfold AccessControl.hasRole. apply bool_decide_eq_false. set_solver. Qed.

Lemma token_constructor_roles admin r a :
  RWAToken.hasRole (RWAToken.constructor admin) r a = true
  <-> a = admin /\ (r = DEFAULT_ADMIN_ROLE \/ r = MINTER_ROLE \/ r = PAUSER_ROLE
                    \/ r = PLEDGE_MANAGER_ROLE).
Proof.
  unfold RWAToken.hasRole, RWAToken.constructor. cbn [RWAToken._roles].
  rewrite !hasRole_grant, hasRole_empty. cbn [orb].
  rewrite !orb_true_iff, !bool_decide_eq_true. tauto.
Qed.

Lemma deploy_runs deployer self :
  deployer <> 0 -> self <> 0 ->
  exists w, Platform.deploy deployer self = Ok w.
Proof.
  intros Hd Hs. unfold Platform.deploy.
  assert (Hmillion : 0 <= Platform.parseUnits 1000000 6) by (vm_compute; discriminate).
  destruct (stable_mint_runs deployer (1000000 * 10 ^ MockUSDT.decimals)
              (MockUSDT.mk ERC20.empty deployer) Hd) as (u0 & H0).
  { vm_compute. discriminate. }
  unfold MockUSDT.constructor. rewrite H0. cbn [mbind result_bind].
  destruct (stable_mint_spec _ _ _ _ H0 erc20_wf_empty ltac:(vm_compute; discriminate))
    as (Hwf0 & Hown0 & Hts0 & Hbal0 & _).
  destruct (stable_mint_runs deployer (Platform.parseUnits 1000000 6) u0 Hd) as (u1 & H1).
  { rewrite Hts0. vm_compute. discriminate. }
  unfold MockUSDT.mint, MockUSDT.onlyOwner. rewrite Hown0. cbn [MockUSDT._owner].
  rewrite Z.eqb_refl. cbn [require mbind result_bind]. rewrite H1. cbn [mbind result_bind].
  destruct (stable_mint_spec _ _ _ _ H1 Hwf0 Hmillion) as (Hwf1 & _ & _ & Hbal1 & _).
  unfold PledgeManager.constructor.
  apply Z.eqb_neq in Hd. rewrite Hd. cbn [negb require mbind result_bind].
  cbn [PledgeManager.rwaToken PledgeManager.usdtToken].
  rewrite token_grantRole_runs by (apply token_constructor_roles; auto).
  cbn [mbind result_bind].
  rewrite token_grantRole_runs.
  2: { unfold RWAToken.hasRole. cbn [RWAToken._roles RWAToken.set_roles].
       rewrite hasRole_grant. apply orb_true_iff. left.
       apply (token_constructor_roles deployer). auto. }
  cbn [mbind result_bind PledgeManager.set_rwaToken PledgeManager.usdtToken].
  destruct (stable_transfer_runs deployer self (Platform.parseUnits 500000 6) u1)
    as (u2 & H2); [apply Z.eqb_neq; exact Hd | exact Hs | |].
  { rewrite Hbal1, Hbal0. unfold MockUSDT.balanceOf, ERC20.balanceOf. simpl.
    vm_compute. discriminate. }
  rewrite H2. cbn [mbind result_bind]. eauto.
Qed.

Lemma pledgeAsset_runs sender now aid ty descr ov p s :
  RWAToken.hasRole s PLEDGE_MANAGER_ROLE sender = true ->
  RWAToken._paused s = false ->
  RWAToken._entered s = false ->
  aid <> "" ->
  RWAToken.tokenIdOf s aid = 0 ->
  p <> 0 ->
  0 < ov ->
  RWAToken._currentTokenId s + 1 <= MAX_UINT256 ->
  ov * RWAToken.discountRate s <= MAX_UINT256 ->
  RWAToken.totalPledgedValue s + ov * RWAToken.discountRate s / 100 <= MAX_UINT256 ->
  RWAToken.totalSupply s + ov * RWAToken.discountRate s / 100 / ONE_E18 <= MAX_UINT256 ->
  exists s', RWAToken.pledgeAsset sender now aid ty descr ov p s = Ok s'.
Proof.
  intros Hrole Hp He Haid Hfree Hpl Hov Hcnt Hmul Htot Hsup.
  unfold RWAToken.pledgeAsset, RWAToken.onlyRole, RWAToken.whenNotPaused,
    RWAToken.nonReentrant.
  rewrite (checkRole_held _ _ _ Hrole). rewrite Hp, He.
  cbn [negb require mbind result_bind].
  change (RWAToken.tokenIdOf (RWAToken.set_entered true s) aid)
    with (RWAToken.tokenIdOf s aid).
  assert (Hlen : (0 <? Z.of_nat (String.length aid)) = true).
  { destruct aid; [contradiction|]. apply Z.ltb_lt. simpl. lia. }
  rewrite Hlen, Hfree. apply Z.eqb_neq in Hpl. rewrite Hpl.
  apply Z.ltb_lt in Hov. rewrite Hov.
  cbn [Z.eqb negb require mbind result_bind].
  unfold checked_add, checked_mul.
  cbn [RWAToken._currentTokenId RWAToken.set_entered RWAToken.discountRate
       RWAToken.set_currentTokenId RWAToken.totalPledgedValue RWAToken.set_asset
       RWAToken.set_tokenIdOf].
  apply Z.leb_le in Hcnt, Hmul, Htot. rewrite Hcnt. cbn [mbind result_bind].
  rewrite Hmul. cbn [mbind result_bind]. rewrite Htot. cbn [mbind result_bind].
  unfold RWAToken._mint, ERC20._mint, RWAToken._beforeTokenTransfer,
    RWAToken.whenNotPaused.
  cbn [RWAToken._paused RWAToken.erc20 RWAToken.set_totalPledgedValue
       RWAToken.set_tokenIdOf RWAToken.set_asset RWAToken.set_currentTokenId
       RWAToken.set_entered].
  rewrite Hpl, Hp. cbn [negb require mbind result_bind].
  unfold checked_add. apply Z.leb_le in Hsup.
  unfold RWAToken.totalSupply, ERC20.totalSupply in Hsup. rewrite Hsup.
  cbn [mbind result_bind]. eauto.
Qed.

Lemma createPledge_runs sender now id cl aid ty descr ov doc w t' :
  PledgeManager.hasRole w OPERATOR_ROLE sender = true ->
  PledgeManager._paused (PledgeManager.manager w) = false ->
  PledgeManager._entered (PledgeManager.manager w) = false ->
  id <> "" ->
  cl <> 0 ->
  0 < ov ->
  PledgeManager.timestamp (PledgeManager.getPledgeAgreement w id) = 0 ->
  0 <= PledgeManager.spreadPercentage (PledgeManager.manager w) <= 100 ->
  0 < RWAToken.discountRate (PledgeManager.rwaToken w) ->
  ov * RWAToken.discountRate (PledgeManager.rwaToken w) <= MAX_UINT256 ->
  RWAToken.pledgeAsset (PledgeManager.this w) now aid ty descr ov (PledgeManager.this w)
    (PledgeManager.rwaToken w) = Ok t' ->
  exists w', PledgeManager.createPledge sender now id cl aid ty descr ov doc w = Ok w'.
Proof.
  intros Hrole Hp He Hid Hcl Hov Hfree Hsp Hrate Hmul Hpledge.
  unfold PledgeManager.createPledge, PledgeManager.onlyRole, PledgeManager.whenNotPaused,
    PledgeManager.nonReentrant.
  rewrite (checkRole_held _ _ _ Hrole). rewrite Hp, He.
  cbn [negb require mbind result_bind].
  change (PledgeManager.getPledgeAgreement
            (PledgeManager.update (PledgeManager.set_entered true) w) id)
    with (PledgeManager.getPledgeAgreement w id).
  assert (Hlen : (0 <? Z.of_nat (String.length id)) = true).
  { destruct id; [contradiction|]. apply Z.ltb_lt. simpl. lia. }
  rewrite Hlen, Hfree. apply Z.eqb_neq in Hcl. rewrite Hcl.
  pose proof Hov as Hov'. apply Z.ltb_lt in Hov. rewrite Hov.
  cbn [Z.eqb negb require mbind result_bind].
  cbn [PledgeManager.rwaToken PledgeManager.manager PledgeManager.update
       PledgeManager.set_manager PledgeManager.spreadPercentage
       PledgeManager.set_entered PledgeManager.this].
  unfold checked_mul, checked_sub.
  pose proof Hmul as Hmul'. apply Z.leb_le in Hmul. rewrite Hmul. cbn [mbind result_bind].
  assert (Hk : (PledgeManager.spreadPercentage (PledgeManager.manager w) <=? 100) = true)
    by (apply Z.leb_le; lia).
  rewrite Hk. cbn [mbind result_bind].
  assert (Hpay : (ov * RWAToken.discountRate (PledgeManager.rwaToken w) / 100
                  * (100 - PledgeManager.spreadPercentage (PledgeManager.manager w))
                  <=? MAX_UINT256) = true).
  { apply Z.leb_le.
    assert (0 <= ov * RWAToken.discountRate (PledgeManager.rwaToken w) / 100)
      by (apply Z.div_pos; nia).
    pose proof (Z.mul_div_le (ov * RWAToken.discountRate (PledgeManager.rwaToken w)) 100
                  ltac:(lia)).
    nia. }
  rewrite Hpay. cbn [mbind result_bind].
  rewrite Hpledge. cbn [mbind result_bind]. eauto.
Qed.

Lemma deploy_facts deployer self w :
  Platform.deploy deployer self = Ok w ->
  deployer <> 0 /\ self <> 0
  /\ PledgeManager.this w = self
  /\ PledgeManager.manager w
     = PledgeManager.mk
         (AccessControl._grantRole FINANCE_ROLE deployer
            (AccessControl._grantRole OPERATOR_ROLE deployer
               (AccessControl._grantRole DEFAULT_ADMIN_ROLE deployer ∅)))
         false false ∅ ∅ ∅ ∅ 0 0 0 15 []
  /\ PledgeManager.rwaToken w
     = RWAToken.set_roles
         (AccessControl._grantRole MINTER_ROLE self
            (AccessControl._grantRole PLEDGE_MANAGER_ROLE self
               (RWAToken._roles (RWAToken.constructor deployer))))
         (RWAToken.constructor deployer)
  /\ ERC20._totalSupply (MockUSDT.erc20 (PledgeManager.usdtToken w))
     = Platform.parseUnits 2000000 6
  /\ (deployer <> self ->
      MockUSDT.balanceOf (PledgeManager.usdtToken w) deployer = Platform.parseUnits 1500000 6
      /\ MockUSDT.balanceOf (PledgeManager.usdtToken w) self = Platform.parseUnits 500000 6)
  /\ Ledger.erc20_wf (MockUSDT.erc20 (PledgeManager.usdtToken w)).
Proof.
  intros H.
  apply deploy_state in H
    as (u0 & u1 & u2 & ok & t1 & t2 & H0 & H1 & H2 & H3 & H4 & Hne & ->).
  assert (Hmillion : 0 <= Platform.parseUnits 1000000 6) by (vm_compute; discriminate).
  assert (Hhalf : 0 <= Platform.parseUnits 500000 6) by (vm_compute; discriminate).
  unfold MockUSDT.constructor in H0.
  destruct (stable_mint_spec _ _ _ _ H0 erc20_wf_empty ltac:(vm_compute; discriminate))
    as (Hwf0 & _ & Hts0 & Hbal0 & Hoth0 & _).
  unfold MockUSDT.mint in H1. ok_steps H1.
  match goal with Hm : MockUSDT._mint _ _ _ = Ok u1 |- _ =>
    destruct (stable_mint_spec _ _ _ _ Hm Hwf0 Hmillion)
      as (Hwf1 & _ & Hts1 & Hbal1 & Hoth1 & _) end.
  assert (Hself : self <> 0).
  { unfold MockUSDT.transfer, ERC20.transfer in H4. ok_steps H4.
    match goal with Ht : ERC20._transfer _ _ _ _ _ = Ok _ |- _ =>
      apply transfer_to_nonzero in Ht as [_ Ht]; exact Ht end. }
  rewrite token_grantRole_runs in H2 by (apply token_constructor_roles; auto).
  injection H2 as <-.
  rewrite token_grantRole_runs in H3.
  2: { unfold RWAToken.hasRole. cbn [RWAToken._roles RWAToken.set_roles].
       rewrite hasRole_grant. apply orb_true_iff. left.
       apply (token_constructor_roles deployer). auto. }
  injection H3 as <-.
  split; [exact Hne|]. split; [exact Hself|]. split; [reflexivity|].
  split; [reflexivity|]. split; [reflexivity|].
  cbn [PledgeManager.usdtToken]. split.
  - unfold MockUSDT.transfer, ERC20.transfer in H4. ok_steps H4. injection H4 as <- _.
    match goal with Ht : ERC20._transfer _ _ _ _ _ = Ok _ |- _ =>
      destruct (transfer_spec _ _ _ _ _ _ Ht Hwf1 Hhalf) as (_ & Hts2 & _) end.
    simpl. rewrite Hts2, Hts1, Hts0. vm_compute. reflexivity.
  - split.
    + intros Hds.
      destruct (stable_transfer_balances _ _ _ _ _ _ H4 Hwf1 Hhalf Hds) as (Hb1 & Hb2 & _).
      rewrite Hb1, Hb2, Hbal1, Hbal0, (Hoth1 self), (Hoth0 self) by congruence.
      split; vm_compute; reflexivity.
    + apply (stable_transfer_wf _ _ _ _ _ _ H4 Hhalf Hwf1).
Qed.

(** X19. The deployment script on a test network succeeds for every
    deployer and registry address other than the zero address, and leaves:
    the deployer as the only holder of the registry's three roles; on the
    ledger the deployer with its four roles and the registry with
    [PLEDGE_MANAGER_ROLE] and [MINTER_ROLE], and nobody else; 2,000,000
    stable units minted, 500,000 of them with the registry and the rest
    with the deployer; no agreement, spread 15 and discount rate 70. *)
Theorem deploy_sets_up_the_platform deployer self :
  deployer <> 0 -> self <> 0 -> deployer <> self ->
  exists w,
    Platform.deploy deployer self = Ok w
    /\ PledgeManager.this w = self
    /\ (forall r a, PledgeManager.hasRole w r a = true
          <-> a = deployer
              /\ (r = DEFAULT_ADMIN_ROLE \/ r = OPERATOR_ROLE \/ r = FINANCE_ROLE))
    /\ (forall r a, RWAToken.hasRole (PledgeManager.rwaToken w) r a = true
          <-> (a = deployer
               /\ (r = DEFAULT_ADMIN_ROLE \/ r = MINTER_ROLE \/ r = PAUSER_ROLE
                   \/ r = PLEDGE_MANAGER_ROLE))
              \/ (a = self /\ (r = PLEDGE_MANAGER_ROLE \/ r = MINTER_ROLE)))
    /\ ERC20.totalSupply (MockUSDT.erc20 (PledgeManager.usdtToken w))
       = 2000000 * ONE_E6
    /\ MockUSDT.balanceOf (PledgeManager.usdtToken w) deployer = 1500000 * ONE_E6
    /\ MockUSDT.balanceOf (PledgeManager.usdtToken w) self = 500000 * ONE_E6
    /\ PledgeManager.pledgeAgreements (PledgeManager.manager w) = ∅
    /\ PledgeManager.spreadPercentage (PledgeManager.manager w) = 15
    /\ RWAToken.discountRate (PledgeManager.rwaToken w) = 70
    /\ RWAToken.totalSupply (PledgeManager.rwaToken w) = 0.
Proof.
  intros Hd Hs Hds.
  destruct (deploy_runs deployer self Hd Hs) as (w & H). exists w.
  split; [exact H|].
  destruct (deploy_facts _ _ _ H) as (_ & _ & Hthis & Hm & Ht & Hsup & Hbal & _).
  destruct (Hbal Hds) as (Hb1 & Hb2).
  split; [exact Hthis|]. split; [|split].
  - intros r a. unfold PledgeManager.hasRole. rewrite Hm. cbn [PledgeManager._roles].
    rewrite !hasRole_grant, hasRole_empty. cbn [orb].
    rewrite !orb_true_iff, !bool_decide_eq_true. tauto.
  - intros r a. unfold RWAToken.hasRole. rewrite Ht. cbn [RWAToken._roles RWAToken.set_roles].
    rewrite !hasRole_grant.
    pose proof (token_constructor_roles deployer r a) as Hc. unfold RWAToken.hasRole in Hc.
    rewrite !orb_true_iff, !bool_decide_eq_true, Hc. tauto.
  - rewrite Hm, Ht. unfold ERC20.totalSupply. rewrite Hsup, Hb1, Hb2.
    repeat split; reflexivity.
Qed.

Lemma deploy_sets_up_the_platform_witness :
  exists w,
    Platform.deploy Scenario.admin Scenario.registry = Ok w
    /\ MockUSDT.balanceOf (PledgeManager.usdtToken w) Scenario.registry = 500000 * ONE_E6.
Proof.
  destruct (deploy_sets_up_the_platform Scenario.admin Scenario.registry)
    as (w & H & _ & _ & _ & _ & _ & Hb & _); [discriminate .. |].
  exists w. split; [exact H | exact Hb].
Defined.

Lemma pledgeAsset_needs sender now aid ty descr ov p s s' :
  RWAToken.pledgeAsset sender now aid ty descr ov p s = Ok s' ->
  aid <> "" /\ p <> 0
  /\ ov * RWAToken.discountRate s <= MAX_UINT256
  /\ RWAToken.totalPledgedValue s + ov * RWAToken.discountRate s / 100 <= MAX_UINT256
  /\ RWAToken.totalSupply s + ov * RWAToken.discountRate s / 100 / ONE_E18 <= MAX_UINT256.
Proof.
  intros H.
  pose proof (pledgeAsset_Ok _ _ _ _ _ _ _ _ _ H) as (hook & e' & Hmint & _).
  apply mint_needs in Hmint as (Hp & Hsup).
  unfold RWAToken.pledgeAsset, RWAToken.nonReentrant, RWAToken.onlyRole,
    RWAToken.whenNotPaused in H.
  ok_steps H.
  split; [|split; [exact Hp|]; split; [assumption|]; split; [assumption | exact Hsup]].
  intros ->. discriminate.
Qed.

(** X20. Right after the deployment the deployer can create a pledge, as
    the script announces: [createPledge] by the deployer succeeds for any
    non-empty agreement and asset ids, a client other than the zero address
    and a positive value whose 70 percent fits a [uint256], and stores the
    agreement with the discounted value at rate 70, the client payment at
    spread 15 and the tokens minted to the registry. *)
Theorem deployed_platform_accepts_a_pledge
    deployer self w now id cl aid ty descr ov doc :
  Platform.deploy deployer self = Ok w ->
  id <> "" -> aid <> "" -> cl <> 0 -> 0 < ov -> ov * 70 <= MAX_UINT256 ->
  exists w',
    PledgeManager.createPledge deployer now id cl aid ty descr ov doc w = Ok w'
    /\ PledgeManager.getPledgeAgreement w' id
       = PledgeManager.mkPledge id cl aid ty descr ov (ov * 70 / 100)
           (ov * 70 / 100 / ONE_E18) (ov * 70 / 100 * 85 / 100) now
           PledgeManager.ACTIVE doc
    /\ RWAToken.balanceOf (PledgeManager.rwaToken w') self = ov * 70 / 100 / ONE_E18
    /\ RWAToken.tokenIdOf (PledgeManager.rwaToken w') aid = 1.
Proof.
  intros H Hid Haid Hcl Hov Hmul.
  destruct (deploy_facts _ _ _ H) as (Hd & Hs & Hthis & Hm & Ht & _).
  assert (Hdv : 0 <= ov * 70 / 100 <= ov * 70)
    by (split; [apply Z.div_pos; lia | apply Z.div_le_upper_bound; lia]).
  assert (Htok : 0 <= ov * 70 / 100 / ONE_E18 <= ov * 70).
  { split; [apply Z.div_pos; [lia | reflexivity]|].
    apply Z.div_le_upper_bound; [reflexivity|]. unfold ONE_E18. lia. }
  destruct (pledgeAsset_runs self now aid ty descr ov self (PledgeManager.rwaToken w))
    as (t' & Hpledge); rewrite ?Ht; try assumption; try reflexivity.
  - unfold RWAToken.hasRole. cbn [RWAToken._roles RWAToken.set_roles].
    apply hasRole_grant_keep, hasRole_grant_same.
  - vm_compute. discriminate.
  - cbn. lia.
  - cbn. lia.
  - rewrite <- Hthis in Hpledge.
    destruct (createPledge_runs deployer now id cl aid ty descr ov doc w t')
      as (w' & Hcreate); rewrite ?Hm, ?Ht; try assumption; try reflexivity.
    + unfold PledgeManager.hasRole. rewrite Hm. cbn [PledgeManager._roles].
      apply hasRole_grant_keep, hasRole_grant_same.
    + unfold PledgeManager.getPledgeAgreement. rewrite Hm. reflexivity.
    + cbn. lia.
    + rewrite <- Ht. exact Hpledge.
    + exists w'. split; [exact Hcreate|].
      pose proof (createPledge_Ok _ _ _ _ _ _ _ _ _ _ _ Hcreate)
        as (t'' & Hp'' & _ & _ & _ & _ & _ & _ & _ & Hag & _ & Htok' & _).
      rewrite Hpledge in Hp''. injection Hp'' as <-.
      rewrite Hag, Htok', Hm, Ht. cbn [PledgeManager.spreadPercentage RWAToken.discountRate
        RWAToken.set_roles RWAToken.constructor].
      split; [reflexivity|].
      rewrite Hthis, Ht in Hpledge.
      apply pledgeAsset_Ok in Hpledge as (hook & e' & Hmint & _ & _ & _ & _ & _ & _ & ->).
      cbn in Hmint.
      destruct (mint_spec _ _ _ _ _ Hmint erc20_wf_empty (proj1 Htok)) as (_ & _ & Hbal & _).
      unfold RWAToken.balanceOf, RWAToken.tokenIdOf. cbn.
      rewrite lookup_insert_eq. split; [|reflexivity].
      rewrite Hbal. reflexivity.
Qed.

Lemma deployed_platform_accepts_a_pledge_witness :
  exists w',
    PledgeManager.createPledge Scenario.admin 1000 "agreement-1" Scenario.client "asset-1"
      "real_estate" "villa" Scenario.hundred_thousand "QmHash" Testnet.deployed = Ok w'
    /\ RWAToken.balanceOf (PledgeManager.rwaToken w') Scenario.registry = 70000.
Proof.
  destruct (deployed_platform_accepts_a_pledge Scenario.admin Scenario.registry
              Testnet.deployed 1000 "agreement-1" Scenario.client "asset-1" "real_estate"
              "villa" Scenario.hundred_thousand "QmHash")
    as (w' & H & _ & Hbal & _).
  - vm_compute. reflexivity.
  - discriminate.
  - discriminate.
  - discriminate.
  - vm_compute. reflexivity.
  - vm_compute. discriminate.
  - exists w'. split; [exact H|]. rewrite Hbal. vm_compute. reflexivity.
Defined.

(** X21. [createPledge] and the ledger: on a reachable state [createPledge]
    succeeds exactly when the caller holds the operator role, the registry
    is not paused, the agreement id is not empty and not yet stored, the
    client is not the zero address, and [pledgeAsset], called by the
    registry with itself as pledger, succeeds on the ledger. The arithmetic
    of [createPledge] itself never fails where the ledger's succeeds. *)
Theorem createPledge_succeeds_iff
    deployer self sender now id cl aid ty descr ov doc w :
  Platform.reachable deployer self w ->
  (exists w', PledgeManager.createPledge sender now id cl aid ty descr ov doc w = Ok w')
  <-> (PledgeManager.hasRole w OPERATOR_ROLE sender = true
       /\ PledgeManager._paused (PledgeManager.manager w) = false
       /\ id <> ""
       /\ cl <> 0
       /\ PledgeManager.pledgeAgreements (PledgeManager.manager w) !! id = None
       /\ exists t', RWAToken.pledgeAsset self now aid ty descr ov self
                       (PledgeManager.rwaToken w) = Ok t').
Proof.
  intros Hreach.
  pose proof (reachable_platform_invariant _ _ _ Hreach) as Hinv.
  pose proof (reachable_invariant _ _ (Platform.pi_ledger _ _ _ Hinv)) as Hli.
  pose proof (Platform.pi_this _ _ _ Hinv) as Hthis.
  split.
  - intros (w' & H).
    apply createPledge_Ok in H
      as (t' & Hp & Hrole & Hpa & _ & Hcl & _ & _ & Hts & _ & _ & _ & _ & _ & _ & _ & _ & _ & Hlen).
    rewrite Hthis in Hp.
    split; [exact Hrole|]. split; [exact Hpa|]. split.
    { intros ->. discriminate. }
    split; [exact Hcl|]. split; [|eauto].
    destruct (PledgeManager.pledgeAgreements (PledgeManager.manager w) !! id) as [p|] eqn:E;
      [|reflexivity].
    pose proof (Platform.ag_time _ _ _ (Platform.pi_agreements _ _ _ Hinv _ _ E)).
    unfold PledgeManager.getPledgeAgreement in Hts. rewrite E in Hts. simpl in Hts. lia.
  - intros (Hrole & Hpa & Hid & Hcl & Hfree & t' & Hp).
    pose proof (pledgeAsset_Ok _ _ _ _ _ _ _ _ _ Hp) as (_ & _ & _ & _ & _ & _ & _ & Hov & _).
    pose proof (pledgeAsset_needs _ _ _ _ _ _ _ _ _ Hp) as (_ & _ & Hmul & _).
    pose proof (Platform.pi_spread _ _ _ Hinv).
    rewrite <- Hthis in Hp.
    eapply createPledge_runs; eauto.
    + apply Hinv.
    + unfold PledgeManager.getPledgeAgreement. rewrite Hfree. reflexivity.
    + lia.
    + apply (Ledger.inv_rate _ Hli).
Qed.

Lemma createPledge_succeeds_iff_witness :
  exists w',
    PledgeManager.createPledge Scenario.admin 1500 "agreement-2" Scenario.client "asset-2"
      "stocks" "shares" (1000 * ONE_E18) "QmOther" Testnet.pledged = Ok w'.
Proof.
  apply (createPledge_succeeds_iff Scenario.admin Scenario.registry Scenario.admin 1500
           "agreement-2" Scenario.client "asset-2" "stocks" "shares" (1000 * ONE_E18)
           "QmOther" Testnet.pledged testnet_pledged_reachable).
  repeat split; try (vm_compute; reflexivity); try discriminate.
  eexists. vm_compute. reflexivity.
Defined.

Lemma manager_hasRole_update_roles w roles r a :
  PledgeManager.hasRole (PledgeManager.update (PledgeManager.set_roles roles) w) r a
  = AccessControl.hasRole roles r a.
Proof. reflexivity. Qed.

(** X22. The role-granting script. Run by an admin of the registry, its
    three registry grants succeed and the backend signer then holds
    [OPERATOR_ROLE], [FINANCE_ROLE] and [DEFAULT_ADMIN_ROLE] there, every
    other membership being as before. If the sender is also an admin of
    the ledger the script completes, the backend holding [MINTER_ROLE],
    [PAUSER_ROLE] and [DEFAULT_ADMIN_ROLE] on the ledger, but not
    [PLEDGE_MANAGER_ROLE] unless it did before; otherwise the script stops
    at the fourth grant with the missing-role revert, the registry grants
    staying in place and the ledger as it was. Nothing but the role tables
    changes. *)
Theorem grant_roles_script_effect sender now backend w :
  PledgeManager.hasRole w DEFAULT_ADMIN_ROLE sender = true ->
  let w' := fst (Platform.grant_roles sender now backend w) in
  let outcome := snd (Platform.grant_roles sender now backend w) in
  (forall r a, PledgeManager.hasRole w' r a
     = PledgeManager.hasRole w r a
       || bool_decide (a = backend
                       /\ (r = OPERATOR_ROLE \/ r = FINANCE_ROLE \/ r = DEFAULT_ADMIN_ROLE)))
  /\ PledgeManager.manager w'
     = PledgeManager.set_roles (PledgeManager._roles (PledgeManager.manager w'))
         (PledgeManager.manager w)
  /\ PledgeManager.usdtToken w' = PledgeManager.usdtToken w
  /\ PledgeManager.rwaToken w'
     = RWAToken.set_roles (RWAToken._roles (PledgeManager.rwaToken w'))
         (PledgeManager.rwaToken w)
  /\ (if RWAToken.hasRole (PledgeManager.rwaToken w) DEFAULT_ADMIN_ROLE sender
      then outcome = None
           /\ forall r a, RWAToken.hasRole (PledgeManager.rwaToken w') r a
                = RWAToken.hasRole (PledgeManager.rwaToken w) r a
                  || bool_decide (a = backend
                                  /\ (r = MINTER_ROLE \/ r = PAUSER_ROLE
                                      \/ r = DEFAULT_ADMIN_ROLE))
      else outcome = Some (MissingRole sender DEFAULT_ADMIN_ROLE)
           /\ PledgeManager.rwaToken w' = PledgeManager.rwaToken w).
Proof.
  intros Hrole w' outcome. subst w' outcome.
  unfold Platform.grant_roles, Platform.grant_roles_calls.
  cbn [Platform.run System.dispatch PledgeManager.dispatch].
  rewrite manager_grantRole_runs by exact Hrole.
  rewrite manager_grantRole_runs
    by (rewrite manager_hasRole_update_roles; apply hasRole_grant_keep; exact Hrole).
  rewrite manager_grantRole_runs
    by (rewrite manager_hasRole_update_roles; apply hasRole_grant_keep;
        cbn [PledgeManager.manager PledgeManager.update PledgeManager.set_manager
             PledgeManager._roles PledgeManager.set_roles];
        apply hasRole_grant_keep; exact Hrole).
  cbn [PledgeManager.manager PledgeManager.update PledgeManager.set_manager
       PledgeManager._roles PledgeManager.set_roles PledgeManager.rwaToken
       RWAToken.dispatch].
  assert (Hregistry : forall r a,
    AccessControl.hasRole
      (AccessControl._grantRole DEFAULT_ADMIN_ROLE backend
         (AccessControl._grantRole FINANCE_ROLE backend
            (AccessControl._grantRole OPERATOR_ROLE backend
               (PledgeManager._roles (PledgeManager.manager w))))) r a
    = PledgeManager.hasRole w r a
      || bool_decide (a = backend
                      /\ (r = OPERATOR_ROLE \/ r = FINANCE_ROLE \/ r = DEFAULT_ADMIN_ROLE))).
  { intros r a. rewrite !hasRole_grant. unfold PledgeManager.hasRole.
    rewrite <- !orb_assoc. f_equal.
    apply eq_true_iff_eq. rewrite !orb_true_iff, !bool_decide_eq_true. tauto. }
  destruct (RWAToken.hasRole (PledgeManager.rwaToken w) DEFAULT_ADMIN_ROLE sender) eqn:Hadmin.
  - rewrite token_grantRole_runs by exact Hadmin.
    cbn [mbind result_bind PledgeManager.set_rwaToken PledgeManager.rwaToken
         PledgeManager.this PledgeManager.usdtToken PledgeManager.manager RWAToken.dispatch].
    rewrite token_grantRole_runs
      by (unfold RWAToken.hasRole; cbn [RWAToken._roles RWAToken.set_roles];
          apply hasRole_grant_keep; exact Hadmin).
    cbn [mbind result_bind PledgeManager.set_rwaToken PledgeManager.rwaToken
         PledgeManager.this PledgeManager.usdtToken PledgeManager.manager RWAToken.dispatch].
    rewrite token_grantRole_runs
      by (unfold RWAToken.hasRole; cbn [RWAToken._roles RWAToken.set_roles];
          do 2 apply hasRole_grant_keep; exact Hadmin).
    cbn [mbind result_bind PledgeManager.set_rwaToken PledgeManager.rwaToken
         PledgeManager.this PledgeManager.usdtToken PledgeManager.manager fst snd].
    split; [exact Hregistry|]. split; [reflexivity|]. split; [reflexivity|].
    split; [reflexivity|]. split; [reflexivity|].
    intros r a. unfold RWAToken.hasRole. cbn [RWAToken._roles RWAToken.set_roles].
    rewrite !hasRole_grant. rewrite <- !orb_assoc. f_equal.
    apply eq_true_iff_eq. rewrite !orb_true_iff, !bool_decide_eq_true. tauto.
  - unfold RWAToken.grantRole, AccessControl.grantRole, AccessControl.getRoleAdmin.
    unfold RWAToken.hasRole in Hadmin. rewrite (checkRole_missing _ _ _ Hadmin).
    cbn [mbind result_bind fst snd PledgeManager.manager PledgeManager.usdtToken
         PledgeManager.rwaToken PledgeManager.update PledgeManager.set_manager
         PledgeManager.set_roles PledgeManager._roles].
    split; [exact Hregistry|]. split; [reflexivity|]. split; [reflexivity|].
    split; [destruct (PledgeManager.rwaToken w); reflexivity|]. split; reflexivity.
Qed.

Lemma grant_roles_script_effect_witness :
  snd (Platform.grant_roles Scenario.admin 1000 Scenario.outsider Testnet.deployed) = None
  /\ PledgeManager.hasRole
       (fst (Platform.grant_roles Scenario.admin 1000 Scenario.outsider Testnet.deployed))
       OPERATOR_ROLE Scenario.outsider = true.
Proof.
  pose proof (grant_roles_script_effect Scenario.admin 1000 Scenario.outsider
                Testnet.deployed ltac:(vm_compute; reflexivity))
    as (Hreg & _ & _ & _ & Hled).
  replace (RWAToken.hasRole (PledgeManager.rwaToken Testnet.deployed) DEFAULT_ADMIN_ROLE
             Scenario.admin) with true in Hled by (vm_compute; reflexivity).
  destruct Hled as (Hout & _).
  split; [exact Hout|]. rewrite Hreg. vm_compute. reflexivity.
Defined.

(** ** The stable token and the registry's roles *)

(** X23. The faucet of the stable token, in every reachable state: a
    call succeeds exactly when the amount is at most 10,000 units, the
    caller is not the zero address and the total supply stays within a
    [uint256]; it then credits the caller with the amount, adds it to the
    supply and leaves every other balance alone. [getTestUSDT] is the
    faucet at 1,000 units. Nothing bounds the number of calls. *)
Theorem faucet_succeeds_iff deployer self w sender amount :
  Platform.reachable deployer self w ->
  0 <= amount ->
  let u := PledgeManager.usdtToken w in
  ((exists u', MockUSDT.faucet sender amount u = Ok u')
   <-> (amount <= 10000 * ONE_E6 /\ sender <> 0
        /\ ERC20.totalSupply (MockUSDT.erc20 u) + amount <= MAX_UINT256))
  /\ (forall u', MockUSDT.faucet sender amount u = Ok u' ->
        MockUSDT.balanceOf u' sender = MockUSDT.balanceOf u sender + amount
        /\ (forall b, b <> sender -> MockUSDT.balanceOf u' b = MockUSDT.balanceOf u b)
        /\ ERC20.totalSupply (MockUSDT.erc20 u')
           = ERC20.totalSupply (MockUSDT.erc20 u) + amount)
  /\ MockUSDT.getTestUSDT sender u = MockUSDT.faucet sender (1000 * ONE_E6) u.
Proof.
  intros Hreach Hamount u.
  pose proof (reachable_platform_invariant _ _ _ Hreach) as Hinv.
  pose proof (Platform.pi_stable _ _ _ Hinv) as Hwf. fold u in Hwf.
  split; [split|split].
  - intros (u' & H). unfold MockUSDT.faucet in H. ok_steps H.
    match goal with Hc : (_ <=? _) = true |- _ => apply Z.leb_le in Hc end.
    destruct (stable_mint_spec _ _ _ _ H Hwf Hamount) as (_ & _ & _ & _ & _ & Hs & Hsup).
    auto.
  - intros (Hcap & Hs & Hsup). unfold MockUSDT.faucet.
    apply Z.leb_le in Hcap.
    change (10000 * 10 ^ MockUSDT.decimals) with (10000 * ONE_E6). rewrite Hcap.
    cbn [require mbind result_bind]. apply stable_mint_runs; assumption.
  - intros u' H. unfold MockUSDT.faucet in H. ok_steps H.
    destruct (stable_mint_spec _ _ _ _ H Hwf Hamount) as (_ & _ & Hts & Hbal & Hoth & _).
    auto.
  - reflexivity.
Qed.

Lemma faucet_succeeds_iff_witness :
  exists u', MockUSDT.faucet Scenario.investor (5000 * ONE_E6)
               (PledgeManager.usdtToken Testnet.pledged) = Ok u'.
Proof.
  apply (faucet_succeeds_iff Scenario.admin Scenario.registry Testnet.pledged
           Scenario.investor (5000 * ONE_E6) testnet_pledged_reachable).
  - vm_compute. discriminate.
  - repeat split; vm_compute; discriminate.
Defined.

(** X24. Conservation for the stable token: in every reachable state the
    balances of the stable token are non-negative and add up to its total
    supply, which fits a [uint256]; so no balance exceeds the supply. *)
Theorem stable_supply_is_sum_of_balances deployer self w :
  Platform.reachable deployer self w ->
  let e := MockUSDT.erc20 (PledgeManager.usdtToken w) in
  Ledger.sum_balances e = ERC20.totalSupply e
  /\ ERC20.totalSupply e <= MAX_UINT256
  /\ (forall a, 0 <= MockUSDT.balanceOf (PledgeManager.usdtToken w) a
                <= ERC20.totalSupply e).
Proof.
  intros Hreach e.
  pose proof (reachable_platform_invariant _ _ _ Hreach) as Hinv.
  pose proof (Platform.pi_stable _ _ _ Hinv) as Hwf. fold e in Hwf.
  split; [apply Hwf|]. split; [apply Hwf|].
  intros a. apply balanceOf_bounds. exact Hwf.
Qed.

Lemma stable_supply_is_sum_of_balances_witness :
  Ledger.sum_balances (MockUSDT.erc20 (PledgeManager.usdtToken Testnet.bought))
  = 2005000 * ONE_E6.
Proof.
  destruct (stable_supply_is_sum_of_balances Scenario.admin Scenario.registry
              Testnet.bought testnet_bought_reachable) as (Hsum & _).
  rewrite Hsum. vm_compute. reflexivity.
Defined.

(** X25. The registry's constructor gives its three roles to the named
    admin and, when the deployer is someone else, to the deployer as well,
    and to nobody else; the registry starts unpaused, with spread 15 and
    nothing stored. *)
Theorem constructor_grants_roles_to_admin_and_deployer
    deployer self token usdt admin w :
  PledgeManager.constructor deployer self token usdt admin = Ok w ->
  admin <> 0
  /\ (forall r a, PledgeManager.hasRole w r a = true
        <-> (a = admin \/ a = deployer)
            /\ (r = DEFAULT_ADMIN_ROLE \/ r = OPERATOR_ROLE \/ r = FINANCE_ROLE))
  /\ PledgeManager.this w = self
  /\ PledgeManager.rwaToken w = token
  /\ PledgeManager.usdtToken w = usdt
  /\ PledgeManager._paused (PledgeManager.manager w) = false
  /\ PledgeManager.spreadPercentage (PledgeManager.manager w) = 15
  /\ PledgeManager.pledgeAgreements (PledgeManager.manager w) = ∅
  /\ PledgeManager.platformRevenue (PledgeManager.manager w) = 0.
Proof.
  unfold PledgeManager.constructor. intros H. ok_steps H.
  match goal with Hz : negb (admin =? 0) = true |- _ =>
    apply negb_true_iff, Z.eqb_neq in Hz end.
  split; [assumption|]. split; [|repeat split].
  intros r a. unfold PledgeManager.hasRole. cbn [PledgeManager.manager PledgeManager._roles].
  destruct (admin =? deployer) eqn:E; cbn [negb].
  - apply Z.eqb_eq in E. subst deployer.
    rewrite !hasRole_grant, hasRole_empty. cbn [orb].
    rewrite !orb_true_iff, !bool_decide_eq_true. tauto.
  - rewrite !hasRole_grant, hasRole_empty. cbn [orb].
    rewrite !orb_true_iff, !bool_decide_eq_true. tauto.
Qed.

Lemma constructor_grants_roles_to_admin_and_deployer_witness :
  PledgeManager.hasRole Scenario.world0 FINANCE_ROLE Scenario.admin = true.
Proof.
  assert (H : PledgeManager.constructor Scenario.admin Scenario.registry
                Scenario.ledger_for_registry Scenario.stable0 Scenario.admin
              = Ok Scenario.world0) by (vm_compute; reflexivity).
  destruct (constructor_grants_roles_to_admin_and_deployer _ _ _ _ _ _ H) as (_ & Hroles & _).
  apply Hroles. auto.
Defined.

(** X26. The four role helpers of the registry are [grantRole] and
    [revokeRole] at a fixed role: their own [onlyRole] check is the admin
    check of the function they call, so for every caller and state each
    helper returns what the general function returns. *)
Theorem role_helpers_are_grantRole_and_revokeRole sender account w :
  PledgeManager.grantOperatorRole sender account w
  = PledgeManager.grantRole sender OPERATOR_ROLE account w
  /\ PledgeManager.grantFinanceRole sender account w
     = PledgeManager.grantRole sender FINANCE_ROLE account w
  /\ PledgeManager.revokeOperatorRole sender account w
     = PledgeManager.revokeRole sender OPERATOR_ROLE account w
  /\ PledgeManager.revokeFinanceRole sender account w
     = PledgeManager.revokeRole sender FINANCE_ROLE account w.
Proof.
  unfold PledgeManager.grantOperatorRole, PledgeManager.grantFinanceRole,
    PledgeManager.revokeOperatorRole, PledgeManager.revokeFinanceRole,
    PledgeManager.grantRole, PledgeManager.revokeRole, PledgeManager.onlyRole,
    AccessControl.grantRole, AccessControl.revokeRole, AccessControl.getRoleAdmin.
  destruct (AccessControl._checkRole (PledgeManager._roles (PledgeManager.manager w))
              DEFAULT_ADMIN_ROLE sender) as [[]|e]; repeat split; reflexivity.
Qed.

(** ** How the operations compose *)

(** X28. The first payout against the deployment's funding: after the
    deployment script and a first [createPledge] by the deployer (at a
    positive timestamp, for a client other than the registry), [payClient]
    by the deployer succeeds exactly when the agreement's client payment,
    [originalValue * 70 / 100 * 85 / 100], is at most the 500,000e6 stable
    units the script gave the registry. *)
Theorem first_payout_is_bounded_by_the_funding
    deployer self w now id cl aid ty descr ov doc w1 :
  deployer <> self ->
  0 < now ->
  cl <> self ->
  Platform.deploy deployer self = Ok w ->
  PledgeManager.createPledge deployer now id cl aid ty descr ov doc w = Ok w1 ->
  PledgeManager.clientPayment (PledgeManager.getPledgeAgreement w1 id)
  = ov * 70 / 100 * 85 / 100
  /\ ((exists w2, PledgeManager.payClient deployer id w1 = Ok w2)
      <-> ov * 70 / 100 * 85 / 100 <= 500000 * ONE_E6).
Proof.
  intros Hds Hnow Hcl Hdeploy Hcreate.
  destruct (deploy_facts _ _ _ Hdeploy) as (Hd & Hs & Hthis & Hm & Ht & _ & Hbal & Hwf).
  destruct (Hbal Hds) as (_ & Hreg).
  change (Platform.parseUnits 500000 6) with (500000 * ONE_E6) in Hreg.
  pose proof (createPledge_Ok _ _ _ _ _ _ _ _ _ _ _ Hcreate)
    as (t' & _ & _ & _ & _ & Hcl0 & Hov & _ & _ & Hag & _ & _ & Hu & Hthis1 & Hroles
        & _ & He1 & _).
  rewrite Hm, Ht in Hag.
  cbn [PledgeManager.spreadPercentage RWAToken.discountRate RWAToken.set_roles
       RWAToken.constructor] in Hag.
  change (100 - 15) with 85 in Hag.
  rewrite Hag. cbn [PledgeManager.clientPayment]. split; [reflexivity|].
  assert (Hcp : 0 <= ov * 70 / 100 * 85 / 100).
  { apply Z.div_pos; [|lia].
    assert (0 <= ov * 70 / 100) by (apply Z.div_pos; lia). lia. }
  split.
  - intros (w2 & Hpay).
    apply payClient_state in Hpay as (_ & _ & _ & _ & _ & Hle & _).
    rewrite Hag, Hu, Hthis1, Hthis, Hreg in Hle. exact Hle.
  - intros Hle.
    destruct (payClient_once deployer id w1) as (w2 & Hpay & _);
      rewrite ?Hag, ?Hu, ?Hthis1, ?Hthis;
      cbn [PledgeManager.timestamp PledgeManager.status PledgeManager.client
           PledgeManager.clientPayment]; try assumption; try reflexivity; try lia.
    + unfold PledgeManager.hasRole. rewrite Hroles, Hm. cbn [PledgeManager._roles].
      apply hasRole_grant_same.
    + fold (MockUSDT.balanceOf (PledgeManager.usdtToken w) self). rewrite Hreg. lia.
    + assert (Htotal : PledgeManager.totalClientPayments (PledgeManager.manager w1) = 0).
      { apply createPledge_state in Hcreate as (t'' & _ & ->). rewrite Hm. reflexivity. }
      rewrite Htotal.
      assert (500000 * ONE_E6 <= MAX_UINT256) by (vm_compute; discriminate). lia.
    + eauto.
Qed.

Lemma first_payout_is_bounded_by_the_funding_witness :
  ~ exists w2, PledgeManager.payClient Scenario.admin "agreement-1" Testnet.pledged = Ok w2.
Proof.
  assert (Hcreate : PledgeManager.createPledge Scenario.admin 1000 "agreement-1"
                      Scenario.client "asset-1" "real_estate" "villa"
                      Scenario.hundred_thousand "QmHash" Testnet.deployed
                    = Ok Testnet.pledged) by (vm_compute; reflexivity).
  assert (Hdeploy : Platform.deploy Scenario.admin Scenario.registry = Ok Testnet.deployed)
    by (vm_compute; reflexivity).
  destruct (first_payout_is_bounded_by_the_funding Scenario.admin Scenario.registry
              Testnet.deployed 1000 "agreement-1" Scenario.client "asset-1" "real_estate"
              "villa" Scenario.hundred_thousand "QmHash" Testnet.pledged
              ltac:(discriminate) ltac:(lia) ltac:(discriminate) Hdeploy Hcreate)
    as (_ & Hiff).
  intros Hpay. apply Hiff in Hpay. vm_compute in Hpay. apply Hpay. reflexivity.
Defined.

(** X29. Tokens sold block the repayment. On a reachable state in which
    the registry holds no more tokens than the agreement issued, after a
    successful [purchaseTokens] on that agreement by an investor other than
    the registry, [repayPledge] on it reverts for every caller and amount,
    and changes nothing: the registry no longer holds the [tokensIssued] that
    [releaseAsset] is asked to burn. *)
Theorem tokens_sold_block_the_repayment
    deployer self sender now id n pid w w1 caller now' amount :
  Platform.reachable deployer self w ->
  sender <> self ->
  RWAToken.balanceOf (PledgeManager.rwaToken w) self
  <= PledgeManager.tokensIssued (PledgeManager.getPledgeAgreement w id) ->
  PledgeManager.purchaseTokens sender now id n pid w = Ok w1 ->
  exists e,
    Platform.exec caller now'
      (Platform.Declared (System.ToManager (PledgeManager.RepayPledge id amount))) w1
    = (w1, Some e).
Proof.
  intros Hreach Hne Hheld Hbuy.
  pose proof (reachable_platform_invariant _ _ _ Hreach) as Hinv.
  pose proof (reachable_invariant _ _ (Platform.pi_ledger _ _ _ Hinv)) as Hli.
  pose proof (Platform.pi_this _ _ _ Hinv) as Hthis.
  pose proof (purchaseTokens_state _ _ _ _ _ _ _ Hbuy)
    as (usdt' & token' & _ & Ht & _ & _ & Hpos & _ & Hw1).
  rewrite Hthis in Ht.
  destruct (token_transfer_balances _ _ _ _ _ _ Ht (Ledger.inv_erc20 _ Hli)
              ltac:(lia) ltac:(congruence)) as (Ht1 & _).
  unfold Platform.exec. cbn [Platform.dispatch System.dispatch PledgeManager.dispatch].
  destruct (PledgeManager.repayPledge caller id amount w1) as [w2|e] eqn:Hrepay;
    [exfalso | eauto].
  apply repayPledge_state in Hrepay as (_ & t2 & _ & Hrel & _).
  apply releaseAsset_Ok in Hrel as (_ & _ & _ & _ & _ & _ & _ & _ & Hle & _).
  rewrite Hw1 in Hle.
  unfold PledgeManager.getPledgeAgreement in Hle, Hheld.
  cbn [PledgeManager.manager PledgeManager.pledgeAgreements PledgeManager.rwaToken
       PledgeManager.this] in Hle.
  rewrite Hthis, Ht1 in Hle. lia.
Qed.

Lemma tokens_sold_block_the_repayment_witness :
  exists e,
    Platform.exec Scenario.admin 2000
      (Platform.Declared (System.ToManager (PledgeManager.RepayPledge "agreement-1" 0)))
      Testnet.bought
    = (Testnet.bought, Some e).
Proof.
  assert (Hrun : PledgeManager.purchaseTokens Scenario.investor 1200 "agreement-1" 1000
                   "purchase-1" Testnet.approved = Ok Testnet.bought)
    by (vm_compute; reflexivity).
  assert (Hreach : Platform.reachable Scenario.admin Scenario.registry Testnet.approved).
  { do 2 (apply Platform.reachable_step; [| reflexivity | reflexivity | lia]).
    apply testnet_pledged_reachable. }
  apply (tokens_sold_block_the_repayment Scenario.admin Scenario.registry Scenario.investor
           1200 "agreement-1" 1000 "purchase-1" Testnet.approved Testnet.bought
           Scenario.admin 2000 0 Hreach).
  - discriminate.
  - vm_compute. discriminate.
  - exact Hrun.
Defined.

(** X30. The event log agrees with the agreement table: in every
    reachable state each [PledgeCreated] event names a stored agreement with
    the event's client, asset id, original value, discounted value and
    client payment; each [ClientPaid] event paid the stored client payment
    to the stored client of its agreement; each [PledgeRepaid] event names
    an agreement that is REPAID; and each [SpreadUpdated] event set a spread
    between 0 and 50. *)
Theorem event_log_agrees_with_agreements deployer self w :
  Platform.reachable deployer self w ->
  let m := PledgeManager.manager w in
  (forall id c aid ov dv cp,
     PledgeManager.PledgeCreated id c aid ov dv cp ∈ PledgeManager.events m ->
     exists p, PledgeManager.pledgeAgreements m !! id = Some p
       /\ PledgeManager.client p = c /\ PledgeManager.assetId p = aid
       /\ PledgeManager.originalValue p = ov /\ PledgeManager.discountedValue p = dv
       /\ PledgeManager.clientPayment p = cp)
  /\ (forall id c amount,
        PledgeManager.ClientPaid id c amount ∈ PledgeManager.events m ->
        exists p, PledgeManager.pledgeAgreements m !! id = Some p
          /\ PledgeManager.client p = c /\ PledgeManager.clientPayment p = amount)
  /\ (forall id c amount,
        PledgeManager.PledgeRepaid id c amount ∈ PledgeManager.events m ->
        exists p, PledgeManager.pledgeAgreements m !! id = Some p
          /\ PledgeManager.client p = c /\ PledgeManager.status p = PledgeManager.REPAID)
  /\ (forall old new,
        PledgeManager.SpreadUpdated old new ∈ PledgeManager.events m -> 0 <= new <= 50).
Proof.
  intros Hreach m.
  pose proof (reachable_platform_invariant _ _ _ Hreach) as Hinv.
  pose proof (Platform.pi_events _ _ _ Hinv) as Hev. rewrite Forall_forall in Hev.
  split; [|split; [|split]]; intros;
    match goal with Hin : _ ∈ _ |- _ => exact (Hev _ Hin) end.
Qed.

Lemma event_log_agrees_with_agreements_witness :
  exists p,
    PledgeManager.pledgeAgreements (PledgeManager.manager Testnet.repaid) !! "agreement-1"
    = Some p
    /\ PledgeManager.client p = Scenario.client
    /\ PledgeManager.status p = PledgeManager.REPAID.
Proof.
  destruct (event_log_agrees_with_agreements Scenario.admin Scenario.registry
              Testnet.repaid testnet_repaid_reachable) as (_ & _ & Hrepaid & _).
  apply (Hrepaid "agreement-1" Scenario.client 0).
  vm_compute. apply list_elem_of_further, list_elem_of_here.
Defined.
